(** * SSO-Web-App: authentication and authorization engine

    A shallow embedding of the Go services of the repository
    ([internal/services], [internal/middleware], [internal/handlers],
    [internal/repository], [internal/models]) together with the properties
    of the specification that concern them.

    Conventions.
    - Go's [uint] is [N]; Go's [int] and instants are [Z].  An instant is a
      number of nanoseconds since the Unix epoch.
    - A Go function returning [(T, error)] returns a [result error T].
    - Durable state, the wall clock and the entropy source form a [World];
      every service method is a state transformer over it.
    - The storage layer is the Go interface [repository.UserRepository]; it
      is a type class here, and the services are generic in it, as in the
      source.  An in-memory table instantiates it where the development
      runs the services on concrete inputs. *)

From stdpp Require Import gmap strings.
From Stdlib Require Import ZArith String List Bool Lia.
Import ListNotations.

Open Scope string_scope.
Open Scope Z_scope.

(** ** Results and errors *)

Inductive result (E A : Type) : Type :=
| Ok (a : A)
| Err (e : E).
Arguments Ok {E A} a.
Arguments Err {E A} e.

(** Errors raised below the services by the storage engine. *)
Inductive db_error : Type :=
| ErrRecordNotFound
| db_failure (msg : string).

(** The [error] values the services hand to their callers.  The first six
    are the package-level sentinels of [services/auth.go] and
    [services/admin.go]; [errors_New] is a value built at the call site;
    [fmt_Errorf] wraps a cause under a prefix; the remaining ones carry the
    failure of a collaborator through unchanged. *)
Inductive error : Type :=
| ErrInvalidCredentials
| ErrUserExists
| ErrUserNotFound
| ErrInvalidToken
| ErrNotAuthorized
| ErrInvalidRole
| errors_New (msg : string)
| fmt_Errorf (prefix : string) (cause : error)
| from_db (e : db_error)
| from_library (msg : string).

(** ** Data model ([internal/models]) *)

Module models.

Definition uint := N.
Definition Time := Z.

(** The services write the optional columns through [stringPtr], so they
    are pointers in the struct the services compile against; a nil
    pointer is [None]. *)
Record User : Type := mkUser {
  ID : uint;
  CreatedAt : Time;
  UpdatedAt : Time;
  DeletedAt : option Time;
  Email : string;
  Password : string;
  FirstName : string;
  LastName : string;
  IsActive : bool;
  IsVerified : bool;
  IsAdmin : bool;
  Role : string;
  GoogleID : option string;
  GitHubID : option string;
  AvatarURL : option string;
  Bio : option string;
  Website : option string;
  Location : option string;
  LastLoginAt : option Time;
  PasswordResetAt : option Time
}.

(** The zero value [models.User{}]. *)
Definition zero : User :=
  mkUser 0%N 0 0 None "" "" "" "" false false false "" None None None None
         None None None None.

(** Field assignments [user.F = v]. *)
Definition set_Email (v : string) (u : User) : User :=
  mkUser (ID u) (CreatedAt u) (UpdatedAt u) (DeletedAt u) v (Password u)
         (FirstName u) (LastName u) (IsActive u) (IsVerified u) (IsAdmin u)
         (Role u) (GoogleID u) (GitHubID u) (AvatarURL u) (Bio u)
         (Website u) (Location u) (LastLoginAt u) (PasswordResetAt u).
Definition set_Password (v : string) (u : User) : User :=
  mkUser (ID u) (CreatedAt u) (UpdatedAt u) (DeletedAt u) (Email u) v
         (FirstName u) (LastName u) (IsActive u) (IsVerified u) (IsAdmin u)
         (Role u) (GoogleID u) (GitHubID u) (AvatarURL u) (Bio u)
         (Website u) (Location u) (LastLoginAt u) (PasswordResetAt u).
Definition set_FirstName (v : string) (u : User) : User :=
  mkUser (ID u) (CreatedAt u) (UpdatedAt u) (DeletedAt u) (Email u)
         (Password u) v (LastName u) (IsActive u) (IsVerified u)
         (IsAdmin u) (Role u) (GoogleID u) (GitHubID u) (AvatarURL u)
         (Bio u) (Website u) (Location u) (LastLoginAt u)
         (PasswordResetAt u).
Definition set_LastName (v : string) (u : User) : User :=
  mkUser (ID u) (CreatedAt u) (UpdatedAt u) (DeletedAt u) (Email u)
         (Password u) (FirstName u) v (IsActive u) (IsVerified u)
         (IsAdmin u) (Role u) (GoogleID u) (GitHubID u) (AvatarURL u)
         (Bio u) (Website u) (Location u) (LastLoginAt u)
         (PasswordResetAt u).
Definition set_IsActive (v : bool) (u : User) : User :=
  mkUser (ID u) (CreatedAt u) (UpdatedAt u) (DeletedAt u) (Email u)
         (Password u) (FirstName u) (LastName u) v (IsVerified u)
         (IsAdmin u) (Role u) (GoogleID u) (GitHubID u) (AvatarURL u)
         (Bio u) (Website u) (Location u) (LastLoginAt u)
         (PasswordResetAt u).
Definition set_IsVerified (v : bool) (u : User) : User :=
  mkUser (ID u) (CreatedAt u) (UpdatedAt u) (DeletedAt u) (Email u)
         (Password u) (FirstName u) (LastName u) (IsActive u) v
         (IsAdmin u) (Role u) (GoogleID u) (GitHubID u) (AvatarURL u)
         (Bio u) (Website u) (Location u) (LastLoginAt u)
         (PasswordResetAt u).
Definition set_IsAdmin (v : bool) (u : User) : User :=
  mkUser (ID u) (CreatedAt u) (UpdatedAt u) (DeletedAt u) (Email u)
         (Password u) (FirstName u) (LastName u) (IsActive u)
         (IsVerified u) v (Role u) (GoogleID u) (GitHubID u) (AvatarURL u)
         (Bio u) (Website u) (Location u) (LastLoginAt u)
         (PasswordResetAt u).
Definition set_Role (v : string) (u : User) : User :=
  mkUser (ID u) (CreatedAt u) (UpdatedAt u) (DeletedAt u) (Email u)
         (Password u) (FirstName u) (LastName u) (IsActive u)
         (IsVerified u) (IsAdmin u) v (GoogleID u) (GitHubID u)
         (AvatarURL u) (Bio u) (Website u) (Location u) (LastLoginAt u)
         (PasswordResetAt u).
Definition set_GoogleID (v : option string) (u : User) : User :=
  mkUser (ID u) (CreatedAt u) (UpdatedAt u) (DeletedAt u) (Email u)
         (Password u) (FirstName u) (LastName u) (IsActive u)
         (IsVerified u) (IsAdmin u) (Role u) v (GitHubID u) (AvatarURL u)
         (Bio u) (Website u) (Location u) (LastLoginAt u)
         (PasswordResetAt u).
Definition set_GitHubID (v : option string) (u : User) : User :=
  mkUser (ID u) (CreatedAt u) (UpdatedAt u) (DeletedAt u) (Email u)
         (Password u) (FirstName u) (LastName u) (IsActive u)
         (IsVerified u) (IsAdmin u) (Role u) (GoogleID u) v (AvatarURL u)
         (Bio u) (Website u) (Location u) (LastLoginAt u)
         (PasswordResetAt u).
Definition set_AvatarURL (v : option string) (u : User) : User :=
  mkUser (ID u) (CreatedAt u) (UpdatedAt u) (DeletedAt u) (Email u)
         (Password u) (FirstName u) (LastName u) (IsActive u)
         (IsVerified u) (IsAdmin u) (Role u) (GoogleID u) (GitHubID u) v
         (Bio u) (Website u) (Location u) (LastLoginAt u)
         (PasswordResetAt u).
Definition set_Bio (v : option string) (u : User) : User :=
  mkUser (ID u) (CreatedAt u) (UpdatedAt u) (DeletedAt u) (Email u)
         (Password u) (FirstName u) (LastName u) (IsActive u)
         (IsVerified u) (IsAdmin u) (Role u) (GoogleID u) (GitHubID u)
         (AvatarURL u) v (Website u) (Location u) (LastLoginAt u)
         (PasswordResetAt u).
Definition set_Website (v : option string) (u : User) : User :=
  mkUser (ID u) (CreatedAt u) (UpdatedAt u) (DeletedAt u) (Email u)
         (Password u) (FirstName u) (LastName u) (IsActive u)
         (IsVerified u) (IsAdmin u) (Role u) (GoogleID u) (GitHubID u)
         (AvatarURL u) (Bio u) v (Location u) (LastLoginAt u)
         (PasswordResetAt u).
Definition set_Location (v : option string) (u : User) : User :=
  mkUser (ID u) (CreatedAt u) (UpdatedAt u) (DeletedAt u) (Email u)
         (Password u) (FirstName u) (LastName u) (IsActive u)
         (IsVerified u) (IsAdmin u) (Role u) (GoogleID u) (GitHubID u)
         (AvatarURL u) (Bio u) (Website u) v (LastLoginAt u)
         (PasswordResetAt u).
Definition set_LastLoginAt (v : option Time) (u : User) : User :=
  mkUser (ID u) (CreatedAt u) (UpdatedAt u) (DeletedAt u) (Email u)
         (Password u) (FirstName u) (LastName u) (IsActive u)
         (IsVerified u) (IsAdmin u) (Role u) (GoogleID u) (GitHubID u)
         (AvatarURL u) (Bio u) (Website u) (Location u) v
         (PasswordResetAt u).
Definition set_ID (v : uint) (u : User) : User :=
  mkUser v (CreatedAt u) (UpdatedAt u) (DeletedAt u) (Email u)
         (Password u) (FirstName u) (LastName u) (IsActive u)
         (IsVerified u) (IsAdmin u) (Role u) (GoogleID u) (GitHubID u)
         (AvatarURL u) (Bio u) (Website u) (Location u) (LastLoginAt u)
         (PasswordResetAt u).

Module LoginRequest.
Record t : Type := mk { Email : string; Password : string }.
End LoginRequest.

Module RegisterRequest.
Record t : Type := mk {
  Email : string; Password : string;
  FirstName : string; LastName : string
}.
End RegisterRequest.

Module UpdateProfileRequest.
Record t : Type := mk {
  FirstName : string; LastName : string;
  Bio : string; Website : string; Location : string
}.
End UpdateProfileRequest.

Module JWTClaims.
Record t : Type := mk { UserID : uint; Email : string }.
End JWTClaims.

(** [IsActive], [IsVerified] and [IsAdmin] are [*bool] in the request:
    [None] is the nil pointer of an omitted JSON field.  The profile
    columns have the type the [User] columns have, since [UpdateUser]
    assigns them directly. *)
Module AdminUpdateUserRequest.
Record t : Type := mk {
  FirstName : string; LastName : string; Email : string;
  IsActive : option bool; IsVerified : option bool;
  IsAdmin : option bool;
  Role : string;
  Bio : option string; Website : option string; Location : option string
}.
(** The request with its [is_admin] field replaced. *)
Definition set_IsAdmin (v : option bool) (r : t) : t :=
  mk (FirstName r) (LastName r) (Email r) (IsActive r) (IsVerified r) v
     (Role r) (Bio r) (Website r) (Location r).
End AdminUpdateUserRequest.

End models.

(** ** The world the services run in *)

Section World.

Context {DB : Type}.

(** [w_now] is the instant the next reading of the clock returns;
    [w_ticks] lists the time that elapses after each of the coming
    readings (none elapses once the list is used up).  [w_entropy] is the
    output of the system's random source still to be consumed. *)
Record World : Type := mkWorld {
  w_db : DB;
  w_now : Z;
  w_ticks : list N;
  w_entropy : list Byte.byte
}.

Definition M (A : Type) : Type := World -> A * World.

Definition ret {A} (a : A) : M A := fun w => (a, w).
Definition bind {A B} (m : M A) (k : A -> M B) : M B :=
  fun w => let (a, w') := m w in k a w'.

(** [time.Now()]. *)
Definition time_Now : M Z := fun w =>
  (w_now w,
   mkWorld (w_db w) (w_now w + Z.of_N (hd 0%N (w_ticks w)))
           (tl (w_ticks w)) (w_entropy w)).

(** The instant the reading after the next one returns. *)
Definition second_reading (w : World) : Z :=
  w_now w + Z.of_N (hd 0%N (w_ticks w)).

(** [rand.Read(b)] with [len(b) = n]; a source that has run dry yields
    zero bytes. *)
Definition rand_Read (n : nat) : M (list Byte.byte) := fun w =>
  (firstn n (w_entropy w ++ repeat Byte.x00 n)%list,
   mkWorld (w_db w) (w_now w) (w_ticks w) (skipn n (w_entropy w))).

(** A query reads the table and leaves the world as it is. *)
Definition query {A} (f : DB -> A) : M A := fun w => (f (w_db w), w).

(** A command replaces the table. *)
Definition command {A} (f : DB -> A * DB) : M A := fun w =>
  let (a, db') := f (w_db w) in
  (a, mkWorld db' (w_now w) (w_ticks w) (w_entropy w)).

End World.

Arguments World DB : clear implicits.
Arguments M DB A : clear implicits.

Notation "x <- m ;; k" := (bind m (fun x => k))
  (at level 100, m at next level, right associativity).

(** ** Storage interface ([internal/repository]) *)

Module repository.

Import models.

(** [type UserRepository interface].  A getter is a query; [Create],
    [Update] and [Delete] return the new table.  [Update] hands back the
    record its argument points to after the save, and the error of the
    save: the Go method returns [(user, nil)] or [(nil, err)], and its
    caller still holds the pointer in both cases. *)
Class UserRepository (DB : Type) : Type := {
  Create : User -> DB -> result db_error User * DB;
  GetByID : uint -> DB -> result db_error User;
  GetByEmail : string -> DB -> result db_error User;
  GetByGoogleID : string -> DB -> result db_error User;
  GetByGitHubID : string -> DB -> result db_error User;
  Update : User -> DB -> (User * option db_error) * DB;
  Delete : uint -> DB -> option db_error * DB;
  List : Z -> Z -> DB -> result db_error (list User)
}.

(** The pair of a user pointer and an error that [Update] returns. *)
Definition returned (r : User * option db_error) : result db_error User :=
  match r with
  | (u, None) => Ok u
  | (_, Some e) => Err e
  end.

(** [return s.userRepo.Update(user)], the last statement of the service
    methods that write a record back. *)
Definition save {DB : Type} {R : UserRepository DB} (user : User)
  : M DB (result error User) :=
  r <- command (Update user) ;;
  ret (match returned r with
       | Ok user' => Ok user'
       | Err e => Err (from_db e)
       end).

End repository.

(** ** Authorization policy ([internal/services/admin.go]) *)

Module AdminService.

Import models.

Section Methods.

Context {DB : Type} {R : repository.UserRepository DB}.

(** [validRoles[role]]: the map literal shared by [GetUsersByRole] and
    [UpdateUser]; a key that is absent reads as [false]. *)
Definition validRoles (role : string) : bool :=
  (role =? "user")%string || (role =? "admin")%string
  || (role =? "moderator")%string.

(** [IsAdmin] checks if user has admin privileges. *)
Definition IsAdmin (user : User) : bool :=
  models.IsAdmin user || (Role user =? "admin")%string.

Definition GetAllUsers (adminUser : User) (limit offset : Z)
  : M DB (result error (list User)) :=
  if negb (IsAdmin adminUser) then ret (Err ErrNotAuthorized)
  else
    r <- query (repository.List limit offset) ;;
    ret (match r with
         | Ok users => Ok users
         | Err e => Err (from_db e)
         end).

Definition GetUserByID (adminUser : User) (userID : uint)
  : M DB (result error User) :=
  if negb (IsAdmin adminUser) then ret (Err ErrNotAuthorized)
  else
    r <- query (repository.GetByID userID) ;;
    ret (match r with
         | Ok user => Ok user
         | Err e => Err (from_db e)
         end).

(** The field assignments of [UpdateUser] that no check guards. *)
Definition assign_fields (req : AdminUpdateUserRequest.t) (user : User)
  : User :=
  let user := set_FirstName (AdminUpdateUserRequest.FirstName req) user in
  let user := set_LastName (AdminUpdateUserRequest.LastName req) user in
  let user := set_Email (AdminUpdateUserRequest.Email req) user in
  let user := set_Bio (AdminUpdateUserRequest.Bio req) user in
  let user := set_Website (AdminUpdateUserRequest.Website req) user in
  let user := set_Location (AdminUpdateUserRequest.Location req) user in
  let user :=
    match AdminUpdateUserRequest.IsActive req with
    | Some b => set_IsActive b user
    | None => user
    end in
  match AdminUpdateUserRequest.IsVerified req with
  | Some b => set_IsVerified b user
  | None => user
  end.

Definition UpdateUser (adminUser : User) (userID : uint)
           (req : AdminUpdateUserRequest.t) : M DB (result error User) :=
  if negb (IsAdmin adminUser) then ret (Err ErrNotAuthorized)
  else
    r <- query (repository.GetByID userID) ;;
    match r with
    | Err _ => ret (Err ErrUserNotFound)
    | Ok user =>
      (* Prevent non-super-admin from modifying other admins *)
      if models.IsAdmin user && negb (Role adminUser =? "admin")%string
      then ret (Err ErrNotAuthorized)
      else
        let user := assign_fields req user in
        let user :=
          match AdminUpdateUserRequest.IsAdmin req with
          | Some b =>
            (* Only super admins can modify admin status *)
            if (Role adminUser =? "admin")%string
            then set_IsAdmin b user else user
          | None => user
          end in
        if (AdminUpdateUserRequest.Role req =? "")%string
        then repository.save user
        else if negb (validRoles (AdminUpdateUserRequest.Role req))
        then ret (Err ErrInvalidRole)
        else if (AdminUpdateUserRequest.Role req =? "admin")%string
                && negb (Role adminUser =? "admin")%string
        then ret (Err ErrNotAuthorized)
        else repository.save (set_Role (AdminUpdateUserRequest.Role req) user)
    end.

Definition DeactivateUser (adminUser : User) (userID : uint)
  : M DB (result error User) :=
  if negb (IsAdmin adminUser) then ret (Err ErrNotAuthorized)
  else
    r <- query (repository.GetByID userID) ;;
    match r with
    | Err _ => ret (Err ErrUserNotFound)
    | Ok user =>
      (* Prevent deactivating other admins unless super admin *)
      if models.IsAdmin user && negb (Role adminUser =? "admin")%string
      then ret (Err ErrNotAuthorized)
      (* Prevent self-deactivation *)
      else if (ID user =? ID adminUser)%N
      then ret (Err (errors_New "cannot deactivate your own account"))
      else repository.save (set_IsActive false user)
    end.

Definition ActivateUser (adminUser : User) (userID : uint)
  : M DB (result error User) :=
  if negb (IsAdmin adminUser) then ret (Err ErrNotAuthorized)
  else
    r <- query (repository.GetByID userID) ;;
    match r with
    | Err _ => ret (Err ErrUserNotFound)
    | Ok user => repository.save (set_IsActive true user)
    end.

(** [DeleteUser] returns a bare [error]; [None] is [nil]. *)
Definition DeleteUser (adminUser : User) (userID : uint)
  : M DB (option error) :=
  if negb (IsAdmin adminUser) then ret (Some ErrNotAuthorized)
  else
    r <- query (repository.GetByID userID) ;;
    match r with
    | Err _ => ret (Some ErrUserNotFound)
    | Ok user =>
      (* Prevent deleting other admins unless super admin *)
      if models.IsAdmin user && negb (Role adminUser =? "admin")%string
      then ret (Some ErrNotAuthorized)
      (* Prevent self-deletion *)
      else if (ID user =? ID adminUser)%N
      then ret (Some (errors_New "cannot delete your own account"))
      else
        e <- command (repository.Delete userID) ;;
        ret (option_map from_db e)
    end.

Definition PromoteToAdmin (adminUser : User) (userID : uint)
  : M DB (result error User) :=
  if negb (IsAdmin adminUser) || negb (Role adminUser =? "admin")%string
  then ret (Err ErrNotAuthorized)
  else
    r <- query (repository.GetByID userID) ;;
    match r with
    | Err _ => ret (Err ErrUserNotFound)
    | Ok user => repository.save (set_Role "admin" (set_IsAdmin true user))
    end.

Definition DemoteFromAdmin (adminUser : User) (userID : uint)
  : M DB (result error User) :=
  if negb (IsAdmin adminUser) || negb (Role adminUser =? "admin")%string
  then ret (Err ErrNotAuthorized)
  else
    r <- query (repository.GetByID userID) ;;
    match r with
    | Err _ => ret (Err ErrUserNotFound)
    | Ok user =>
      (* Prevent self-demotion *)
      if (ID user =? ID adminUser)%N
      then ret (Err (errors_New "cannot demote your own account"))
      else repository.save (set_Role "user" (set_IsAdmin false user))
    end.

End Methods.

End AdminService.

(** ** Platform-dependent conversions

    Go leaves the result of converting a floating-point value to an integer
    type that cannot represent it to the implementation.  The two
    conversions met on the token path take that result as a parameter. *)

Class Platform : Type := {
  uint_out_of_range : Z -> N;
  instant_out_of_range : Z -> Z
}.

(** ** Strings in JSON ([unicode/utf8], [encoding/json])

    A Go string is a sequence of bytes.  [json.Marshal] writes a byte
    that does not belong to a valid UTF-8 encoding as the escape of
    U+FFFD, one escape for each such byte, and [json.Unmarshal] reads the
    text of a string literal the same way; every other byte comes back
    as it was written. *)

Module utf8.

Definition byte (c : Ascii.ascii) : N := Ascii.N_of_ascii c.

Definition within (lo hi : N) (c : Ascii.ascii) : bool :=
  ((lo <=? byte c) && (byte c <=? hi))%N.

(** The width [utf8.DecodeRuneInString] finds for the rune at the head
    of [s], and [0] where it finds none: the head is then no valid
    encoding and is decoded as [RuneError] of width 1.  The second byte
    of an encoding is held to the range that rules out over-long forms,
    surrogates and values above U+10FFFF. *)
Definition width (s : string) : nat :=
  match s with
  | EmptyString => 0
  | String c0 s1 =>
    let b0 := byte c0 in
    if (b0 <? 128)%N then 1
    else if within 194 223 c0 then
      match s1 with
      | String c1 _ => if within 128 191 c1 then 2 else 0
      | _ => 0
      end
    else if within 224 239 c0 then
      let lo := if (b0 =? 224)%N then 160%N else 128%N in
      let hi := if (b0 =? 237)%N then 159%N else 191%N in
      match s1 with
      | String c1 (String c2 _) =>
        if within lo hi c1 && within 128 191 c2 then 3 else 0
      | _ => 0
      end
    else if within 240 244 c0 then
      let lo := if (b0 =? 240)%N then 144%N else 128%N in
      let hi := if (b0 =? 244)%N then 143%N else 191%N in
      match s1 with
      | String c1 (String c2 (String c3 _)) =>
        if within lo hi c1 && within 128 191 c2 && within 128 191 c3
        then 4 else 0
      | _ => 0
      end
    else 0
  end%nat.

(** The encoding of U+FFFD. *)
Definition RuneError : string :=
  String (Ascii.ascii_of_N 239)
         (String (Ascii.ascii_of_N 191)
                 (String (Ascii.ascii_of_N 189) EmptyString)).

(** [valid pending s]: [s] is valid UTF-8 after [pending] bytes that
    close an encoding already begun. *)
Fixpoint valid (pending : nat) (s : string) : bool :=
  match s with
  | EmptyString => true
  | String c s' =>
    match pending with
    | S pending' => valid pending' s'
    | O =>
      match width s with
      | O => false
      | S n => valid n s'
      end
    end
  end.

(** [utf8.ValidString]. *)
Definition ValidString (s : string) : bool := valid 0 s.

End utf8.

Module json.

(** [text pending s]: what [s] is written as, and read back as, after
    [pending] bytes that close an encoding already begun. *)
Fixpoint text (pending : nat) (s : string) : string :=
  match s with
  | EmptyString => EmptyString
  | String c s' =>
    match pending with
    | S pending' => String c (text pending' s')
    | O =>
      match utf8.width s with
      | O => utf8.RuneError ++ text 0 s'
      | S n => String c (text n s')
      end
    end
  end.

(** The string a Go string comes back as from [json.Marshal] followed by
    [json.Unmarshal]. *)
Definition String_ (s : string) : string := text 0 s.

End json.

(** ** Session tokens ([github.com/golang-jwt/jwt/v5], as the services use it)

    A token string is identified with what its three segments hold: the
    [alg] of its header, its claims object and its signature.  A string
    that does not decode is [malformed].  The numbers of a claims object
    are integers; its strings are the bytes written in the segment, and
    are read and written as [encoding/json] reads and writes them.  The
    keys are left as they are: a key that is not valid UTF-8 is read as
    one that holds U+FFFD, which none of the keys looked up does. *)

Module jwt.

Inductive Value : Type :=
| VNumber (n : Z)
| VString (s : string)
| VOther.

(** [jwt.MapClaims], a [map[string]interface{}]. *)
Abbreviation MapClaims := (gmap string Value).

Inductive tokenString : Type :=
| malformed (raw : string)
| segments (alg : string) (claims : MapClaims) (signature : string).

Inductive Hash : Type := SHA256 | SHA384 | SHA512.

Inductive SigningMethod : Type :=
| SigningMethodHMAC (h : Hash)
| SigningMethodRSA (h : Hash)
| SigningMethodRSAPSS (h : Hash)
| SigningMethodECDSA (h : Hash)
| SigningMethodEd25519
| signingMethodNone.

Definition SigningMethodHS256 : SigningMethod := SigningMethodHMAC SHA256.

Definition Alg (m : SigningMethod) : string :=
  match m with
  | SigningMethodHMAC SHA256 => "HS256"
  | SigningMethodHMAC SHA384 => "HS384"
  | SigningMethodHMAC SHA512 => "HS512"
  | SigningMethodRSA SHA256 => "RS256"
  | SigningMethodRSA SHA384 => "RS384"
  | SigningMethodRSA SHA512 => "RS512"
  | SigningMethodRSAPSS SHA256 => "PS256"
  | SigningMethodRSAPSS SHA384 => "PS384"
  | SigningMethodRSAPSS SHA512 => "PS512"
  | SigningMethodECDSA SHA256 => "ES256"
  | SigningMethodECDSA SHA384 => "ES384"
  | SigningMethodECDSA SHA512 => "ES512"
  | SigningMethodEd25519 => "EdDSA"
  | signingMethodNone => "none"
  end.

Definition registered : list SigningMethod :=
  [ SigningMethodHMAC SHA256; SigningMethodHMAC SHA384;
    SigningMethodHMAC SHA512;
    SigningMethodRSA SHA256; SigningMethodRSA SHA384;
    SigningMethodRSA SHA512;
    SigningMethodRSAPSS SHA256; SigningMethodRSAPSS SHA384;
    SigningMethodRSAPSS SHA512;
    SigningMethodECDSA SHA256; SigningMethodECDSA SHA384;
    SigningMethodECDSA SHA512;
    SigningMethodEd25519; signingMethodNone ].

(** [jwt.GetSigningMethod(alg)]. *)
Definition GetSigningMethod (alg : string) : option SigningMethod :=
  find (fun m => (Alg m =? alg)%string) registered.

(** The keyed hash of the HMAC family, over the signing input of a token
    (its header and claims segments). *)
Class MAC : Type := {
  hmac_sum : Hash -> string -> string * MapClaims -> string
}.

(** *** Numbers read back by [encoding/json]

    A JSON number decoded into an [interface{}] is a [float64]: the
    binary64 value nearest to the literal, ties to even; a literal that
    rounds beyond the largest finite value fails the decoding. *)

Definition round_to_53_bits (a : Z) : Z :=
  if a <? 2 ^ 53 then a
  else
    let k := Z.log2 a - 52 in
    let q := a / 2 ^ k in
    let r := a mod 2 ^ k in
    let half := 2 ^ (k - 1) in
    let q' := if (half <? r) || ((r =? half) && Z.odd q) then q + 1
              else q in
    q' * 2 ^ k.

Definition float64_of_literal (z : Z) : option Z :=
  let m := round_to_53_bits (Z.abs z) in
  if m <? 2 ^ 1024 then Some (Z.sgn z * m) else None.

Definition readable (v : Value) : Prop :=
  match v with
  | VNumber n => is_Some (float64_of_literal n)
  | _ => True
  end.

#[global] Instance readable_dec v : Decision (readable v).
Proof. destruct v; simpl; apply _. Defined.

Definition read_value (v : Value) : Value :=
  match v with
  | VNumber n => VNumber (default 0 (float64_of_literal n))
  | VString s => VString (json.String_ s)
  | VOther => VOther
  end.

(** [json.Marshal] of a claim: the integers of the claims the services
    issue are written in full. *)
Definition write_value (v : Value) : Value :=
  match v with
  | VNumber n => VNumber n
  | VString s => VString (json.String_ s)
  | VOther => VOther
  end.

Definition Marshal (claims : MapClaims) : MapClaims :=
  write_value <$> claims.

(** [json.Unmarshal] of the claims segment into a [MapClaims]. *)
Definition Unmarshal (wire : MapClaims) : option MapClaims :=
  if decide (map_Forall (fun _ => readable) wire)
  then Some (read_value <$> wire) else None.

Record Token : Type := mkToken {
  Method : SigningMethod;
  Claims : MapClaims;
  Valid : bool
}.

Section Parser.

Context {P : Platform} {H : MAC}.

(** [uint(f)] for a [float64] holding an integer. *)
Definition uint_of_float64 (f : Z) : N :=
  if (0 <=? f) && (f <? 2 ^ 64) then Z.to_N f else uint_out_of_range f.

(** The instant of a numeric date of [f] seconds. *)
Definition newNumericDateFromSeconds (f : Z) : Z :=
  if (- 2 ^ 62 <=? f) && (f <=? 2 ^ 62) then f * 10 ^ 9
  else instant_out_of_range f.

(** [MapClaims.parseNumericDate]: an absent claim and a claim of zero
    both read as no date; a claim that is not a number is an error. *)
Definition parseNumericDate (m : MapClaims) (key : string)
  : result unit (option Z) :=
  match m !! key with
  | None => Ok None
  | Some (VNumber f) =>
    if f =? 0 then Ok None else Ok (Some (newNumericDateFromSeconds f))
  | Some _ => Err tt
  end.

(** [Validator.Validate] with the default options: [exp] and [nbf] are
    checked when present, without leeway. *)
Definition verifyExpiresAt (m : MapClaims) (now : Z) : bool :=
  match parseNumericDate m "exp" with
  | Err _ => false
  | Ok None => true
  | Ok (Some exp) => now <? exp
  end.

Definition verifyNotBefore (m : MapClaims) (now : Z) : bool :=
  match parseNumericDate m "nbf" with
  | Err _ => false
  | Ok None => true
  | Ok (Some nbf) => negb (now <? nbf)
  end.

Definition Validate (m : MapClaims) (now : Z) : bool :=
  verifyExpiresAt m now && verifyNotBefore m now.

(** [SigningMethod.Verify] with a [[]byte] key: the HMAC methods
    recompute the keyed hash; every other method refuses the key. *)
Definition Verify (m : SigningMethod) (signingString : string * MapClaims)
           (signature key : string) : bool :=
  match m with
  | SigningMethodHMAC h =>
    (hmac_sum h key signingString =? signature)%string
  | _ => false
  end.

(** [jwt.NewWithClaims(method, claims).SignedString(key)]. *)
Definition SignedString (m : SigningMethod) (claims : MapClaims)
           (key : string) : result error tokenString :=
  match m with
  | SigningMethodHMAC h =>
    let wire := Marshal claims in
    Ok (segments (Alg m) wire (hmac_sum h key (Alg m, wire)))
  | _ => Err (from_library "key is of invalid type")
  end.

(** [jwt.Parse(tokenString, keyFunc)]: decode the segments, look the
    method up, ask the caller for the key, verify the signature, then
    validate the registered claims against the clock. *)
Definition Parse {DB : Type} (t : tokenString)
           (keyFunc : Token -> result error string)
  : M DB (result error Token) :=
  match t with
  | malformed _ => ret (Err (from_library "token is malformed"))
  | segments alg wire signature =>
    match Unmarshal wire with
    | None => ret (Err (from_library "token is malformed"))
    | Some claims =>
      match GetSigningMethod alg with
      | None => ret (Err (from_library "signing method is unavailable"))
      | Some method =>
        let token := mkToken method claims false in
        match keyFunc token with
        | Err e => ret (Err e)
        | Ok key =>
          if negb (Verify method (alg, wire) signature key)
          then ret (Err (from_library "signature is invalid"))
          else
            now <- time_Now ;;
            if Validate claims now
            then ret (Ok (mkToken method claims true))
            else ret (Err (from_library "token has invalid claims"))
        end
      end
    end
  end.

End Parser.

End jwt.

(** ** Password hashing ([golang.org/x/crypto/bcrypt]) *)

Module bcrypt.

(** [hash salt password] is the digest computed under a salt; it may
    refuse the password.  [matches digest password] recomputes the digest
    from the salt the digest carries and compares. *)
Class Hasher : Type := {
  hash : list Byte.byte -> string -> result error string;
  matches : string -> string -> bool
}.

Section Methods.

Context {DB : Type} {B : Hasher}.

Definition GenerateFromPassword (password : string)
  : M DB (result error string) :=
  salt <- rand_Read 16 ;;
  ret (hash salt password).

Definition CompareHashAndPassword (hashedPassword password : string)
  : option error :=
  if matches hashedPassword password then None
  else Some (from_library
               "hashedPassword is not the hash of the given password").

End Methods.

End bcrypt.

(** ** Credentials and tokens ([internal/services/auth.go]) *)

Module AuthService.

Import models.

Record t : Type := mk { jwtSecret : string }.

(** [stringPtrAuth]: the empty string becomes the nil pointer. *)
Definition stringPtrAuth (s : string) : option string :=
  if (s =? "")%string then None else Some s.

(** [NewAuthService], given the process environment. *)
Definition NewAuthService (Getenv : string -> string) : t :=
  let secret := Getenv "JWT_SECRET" in
  let secret :=
    if (secret =? "")%string
    then "your-secret-key-change-this-in-production" else secret in
  mk secret.

(** [time.Hour * 24 * 7], in nanoseconds. *)
Definition seven_days : Z := 3600 * 10 ^ 9 * 24 * 7.

(** [t.Unix()]: whole seconds since the epoch. *)
Definition Unix (t : Time) : Z := t / 10 ^ 9.

Section Methods.

Context {DB : Type} {R : repository.UserRepository DB}.
Context {P : Platform} {H : jwt.MAC} {B : bcrypt.Hasher}.

Definition Register (s : t) (req : RegisterRequest.t)
  : M DB (result error User) :=
  existingUser <- query (repository.GetByEmail (RegisterRequest.Email req)) ;;
  match existingUser with
  | Ok _ => ret (Err ErrUserExists)
  | Err _ =>
    hashedPassword <-
      bcrypt.GenerateFromPassword (RegisterRequest.Password req) ;;
    match hashedPassword with
    | Err err => ret (Err err)
    | Ok hashedPassword =>
      let user :=
        set_IsActive true
          (set_LastName (RegisterRequest.LastName req)
             (set_FirstName (RegisterRequest.FirstName req)
                (set_Password hashedPassword
                   (set_Email (RegisterRequest.Email req) zero)))) in
      r <- command (repository.Create user) ;;
      ret (match r with
           | Ok user' => Ok user'
           | Err e => Err (from_db e)
           end)
    end
  end.

(** The claims literal reads the clock twice, first for [exp], then for
    [iat]. *)
Definition GenerateJWT (s : t) (user : User)
  : M DB (result error jwt.tokenString) :=
  t_exp <- time_Now ;;
  t_iat <- time_Now ;;
  let claims : jwt.MapClaims :=
    <["user_id" := jwt.VNumber (Z.of_N (ID user))]>
      (<["email" := jwt.VString (Email user)]>
         (<["exp" := jwt.VNumber (Unix (t_exp + seven_days))]>
            (<["iat" := jwt.VNumber (Unix t_iat)]> ∅))) in
  ret (jwt.SignedString jwt.SigningMethodHS256 claims (jwtSecret s)).

(** The key function handed to [jwt.Parse]. *)
Definition keyFunc (s : t) (token : jwt.Token) : result error string :=
  match jwt.Method token with
  | jwt.SigningMethodHMAC _ => Ok (jwtSecret s)
  | _ => Err ErrInvalidToken
  end.

Definition ValidateJWT (s : t) (tokenString : jwt.tokenString)
  : M DB (result error JWTClaims.t) :=
  r <- jwt.Parse tokenString (keyFunc s) ;;
  match r with
  | Err _ => ret (Err ErrInvalidToken)
  | Ok token =>
    if jwt.Valid token then
      match jwt.Claims token !! "user_id" with
      | Some (jwt.VNumber userID) =>
        match jwt.Claims token !! "email" with
        | Some (jwt.VString email) =>
          ret (Ok (JWTClaims.mk (jwt.uint_of_float64 userID) email))
        | _ => ret (Err ErrInvalidToken)
        end
      | _ => ret (Err ErrInvalidToken)
      end
    else ret (Err ErrInvalidToken)
  end.

(** [Login] returns a token, a user and an error; the first two are
    the zero values when the error is set. *)
Definition Login (s : t) (req : LoginRequest.t)
  : M DB (result error (jwt.tokenString * User)) :=
  r <- query (repository.GetByEmail (LoginRequest.Email req)) ;;
  match r with
  | Err _ => ret (Err ErrInvalidCredentials)
  | Ok user =>
    match bcrypt.CompareHashAndPassword
            (Password user) (LoginRequest.Password req) with
    | Some _ => ret (Err ErrInvalidCredentials)
    | None =>
      now <- time_Now ;;
      saved <- command (repository.Update
                          (set_LastLoginAt (Some now) user)) ;;
      let user := fst saved in
      token <- GenerateJWT s user ;;
      match token with
      | Err err => ret (Err err)
      | Ok token => ret (Ok (token, user))
      end
    end
  end.

Definition GetUserByID (s : t) (id : uint) : M DB (result error User) :=
  r <- query (repository.GetByID id) ;;
  ret (match r with
       | Ok user => Ok user
       | Err e => Err (from_db e)
       end).

Definition UpdateProfile (s : t) (userID : uint)
           (req : UpdateProfileRequest.t) : M DB (result error User) :=
  r <- query (repository.GetByID userID) ;;
  match r with
  | Err _ => ret (Err ErrUserNotFound)
  | Ok user =>
    let user := set_FirstName (UpdateProfileRequest.FirstName req) user in
    let user := set_LastName (UpdateProfileRequest.LastName req) user in
    let user :=
      set_Bio (stringPtrAuth (UpdateProfileRequest.Bio req)) user in
    let user :=
      set_Website (stringPtrAuth (UpdateProfileRequest.Website req))
                  user in
    let user :=
      set_Location (stringPtrAuth (UpdateProfileRequest.Location req))
                   user in
    repository.save user
  end.

End Methods.

(** The claims segment of a token issued for [user] when the clock reads
    [t_exp] and then [t_iat], with the week written in seconds and the
    e-mail as JSON writes it. *)
Definition issued_claims (user : User) (t_exp t_iat : Z) : jwt.MapClaims :=
  <["user_id" := jwt.VNumber (Z.of_N (ID user))]>
    (<["email" := jwt.VString (json.String_ (Email user))]>
       (<["exp" := jwt.VNumber (Unix t_exp + 7 * 24 * 3600)]>
          (<["iat" := jwt.VNumber (Unix t_iat)]> ∅))).

End AuthService.

(** ** Identity federation (the OAuth service of [internal/services]) *)

Module OAuthService.

Import models.

Module GoogleUser.
Record t : Type := mk {
  ID : string; Email : string; Name : string; Picture : string;
  Given : string; Family : string
}.
End GoogleUser.

Module GitHubUser.
Record t : Type := mk {
  ID : Z; Login : string; Email : string; Name : string;
  AvatarURL : string; Bio : string; Location : string; Blog : string
}.
Definition set_Email (v : string) (g : t) : t :=
  mk (ID g) (Login g) v (Name g) (AvatarURL g) (Bio g) (Location g)
     (Blog g).
End GitHubUser.

Inductive provider : Type := google | github.

(** What the identity providers answer: the authorization URL of a
    configuration, the access token an authorization code is exchanged
    for, and the bodies of the profile endpoints, decoded. *)
Class Providers : Type := {
  AuthCodeURL : provider -> string -> string;
  Exchange : provider -> string -> result error string;
  userinfo : string -> result error GoogleUser.t;
  api_user : string -> result error GitHubUser.t;
  api_user_emails : string -> result error (list (string * bool))
}.

(** [stringPtr]: the empty string becomes the nil pointer. *)
Definition stringPtr (s : string) : option string :=
  if (s =? "")%string then None else Some s.

(** [fmt.Sprintf("%d", n)]. *)
Definition Sprintf_d (n : Z) : string := pretty.pretty n.

Section Methods.

Context {DB : Type} {R : repository.UserRepository DB}.
Context {P : Platform} {H : jwt.MAC} {B : bcrypt.Hasher}.
Context {O : Providers}.

Definition GetGoogleAuthURL (state : string) : string :=
  AuthCodeURL google state.

Definition GetGitHubAuthURL (state : string) : string :=
  AuthCodeURL github state.

Definition getGoogleUserInfo (accessToken : string)
  : result error GoogleUser.t := userinfo accessToken.

Definition getGitHubUserEmail (accessToken : string)
  : result error string :=
  match api_user_emails accessToken with
  | Err e => Err e
  | Ok emails =>
    match find (fun email => snd email) emails with
    | Some email => Ok (fst email)
    | None => Err (errors_New "no primary email found")
    end
  end.

Definition getGitHubUserInfo (accessToken : string)
  : result error GitHubUser.t :=
  match api_user accessToken with
  | Err e => Err e
  | Ok githubUser =>
    (* Get user's primary email if not public *)
    if (GitHubUser.Email githubUser =? "")%string then
      match getGitHubUserEmail accessToken with
      | Ok email => Ok (GitHubUser.set_Email email githubUser)
      | Err _ => Ok githubUser
      end
    else Ok githubUser
  end.

Definition created (r : result db_error User) : result error User :=
  match r with
  | Ok user => Ok user
  | Err e => Err (from_db e)
  end.

Definition backfill_avatar (picture : string) (user : User) : User :=
  match AvatarURL user with
  | None => set_AvatarURL (stringPtr picture) user
  | Some url =>
    if (url =? "")%string then set_AvatarURL (stringPtr picture) user
    else user
  end.

Definition findOrCreateGoogleUser (googleUser : GoogleUser.t)
  : M DB (result error User) :=
  byID <- query (repository.GetByGoogleID (GoogleUser.ID googleUser)) ;;
  match byID with
  | Ok user => ret (Ok user)
  | Err _ =>
    byEmail <- query (repository.GetByEmail
                        (GoogleUser.Email googleUser)) ;;
    match byEmail with
    | Ok user =>
      let user :=
        set_GoogleID (stringPtr (GoogleUser.ID googleUser)) user in
      repository.save
        (backfill_avatar (GoogleUser.Picture googleUser) user)
    | Err _ =>
      let user :=
        set_IsVerified true
          (set_IsActive true
             (set_AvatarURL (stringPtr (GoogleUser.Picture googleUser))
                (set_GoogleID (stringPtr (GoogleUser.ID googleUser))
                   (set_LastName (GoogleUser.Family googleUser)
                      (set_FirstName (GoogleUser.Given googleUser)
                         (set_Email (GoogleUser.Email googleUser)
                                    zero)))))) in
      r <- command (repository.Create user) ;;
      ret (created r)
    end
  end.

Definition newGitHubUser (githubIDStr : string)
           (githubUser : GitHubUser.t) : User :=
  let firstName :=
    if (GitHubUser.Name githubUser =? "")%string
    then GitHubUser.Login githubUser else GitHubUser.Name githubUser in
  set_IsVerified (negb (GitHubUser.Email githubUser =? "")%string)
    (set_IsActive true
       (set_Location (stringPtr (GitHubUser.Location githubUser))
          (set_Website (stringPtr (GitHubUser.Blog githubUser))
             (set_Bio (stringPtr (GitHubUser.Bio githubUser))
                (set_AvatarURL
                   (stringPtr (GitHubUser.AvatarURL githubUser))
                   (set_GitHubID (stringPtr githubIDStr)
                      (set_LastName ""
                         (set_FirstName firstName
                            (set_Email (GitHubUser.Email githubUser)
                                       zero))))))))).

Definition findOrCreateGitHubUser (githubUser : GitHubUser.t)
  : M DB (result error User) :=
  let githubIDStr := Sprintf_d (GitHubUser.ID githubUser) in
  byID <- query (repository.GetByGitHubID githubIDStr) ;;
  match byID with
  | Ok user => ret (Ok user)
  | Err _ =>
    let create :=
      r <- command (repository.Create
                      (newGitHubUser githubIDStr githubUser)) ;;
      ret (created r) in
    (* Try to find user by email if available *)
    if (GitHubUser.Email githubUser =? "")%string then create
    else
      byEmail <- query (repository.GetByEmail
                          (GitHubUser.Email githubUser)) ;;
      match byEmail with
      | Ok user =>
        let user := set_GitHubID (stringPtr githubIDStr) user in
        repository.save
          (backfill_avatar (GitHubUser.AvatarURL githubUser) user)
      | Err _ => create
      end
  end.

(** The last two steps shared by both callbacks: resolve the profile to
    an identity, then issue its token. *)
Definition resolve_and_issue (s : AuthService.t)
           (found : M DB (result error User))
  : M DB (result error (jwt.tokenString * User)) :=
  user <- found ;;
  match user with
  | Err err => ret (Err (fmt_Errorf "failed to find or create user" err))
  | Ok user =>
    jwtToken <- AuthService.GenerateJWT s user ;;
    match jwtToken with
    | Err err => ret (Err (fmt_Errorf "failed to generate JWT" err))
    | Ok jwtToken => ret (Ok (jwtToken, user))
    end
  end.

Definition HandleGoogleCallback (s : AuthService.t) (code : string)
  : M DB (result error (jwt.tokenString * User)) :=
  match Exchange google code with
  | Err err =>
    ret (Err (fmt_Errorf "failed to exchange code for token" err))
  | Ok accessToken =>
    match getGoogleUserInfo accessToken with
    | Err err => ret (Err (fmt_Errorf "failed to get user info" err))
    | Ok googleUser =>
      resolve_and_issue s (findOrCreateGoogleUser googleUser)
    end
  end.

Definition HandleGitHubCallback (s : AuthService.t) (code : string)
  : M DB (result error (jwt.tokenString * User)) :=
  match Exchange github code with
  | Err err =>
    ret (Err (fmt_Errorf "failed to exchange code for token" err))
  | Ok accessToken =>
    match getGitHubUserInfo accessToken with
    | Err err => ret (Err (fmt_Errorf "failed to get user info" err))
    | Ok githubUser =>
      resolve_and_issue s (findOrCreateGitHubUser githubUser)
    end
  end.

End Methods.

End OAuthService.

(** ** Request authentication (the token middleware of
    [internal/middleware])

    A request carries its bearer token, when the [Authorization] header has
    the [Bearer ] prefix, and its [jwt] cookie, when it has one. *)

Module middleware.

Import models.

Record Request : Type := mkRequest {
  bearer : option jwt.tokenString;
  jwt_cookie : option jwt.tokenString
}.

(** The request is aborted with a status and a message, or goes on with
    the user set in its context. *)
Inductive outcome : Type :=
| Abort (status : Z) (message : string)
| Next (user : User).

Definition StatusUnauthorized : Z := 401.

Section Methods.

Context {DB : Type} {R : repository.UserRepository DB}.
Context {P : Platform} {H : jwt.MAC} {B : bcrypt.Hasher}.

Definition authenticate (authService : AuthService.t)
           (tokenString : jwt.tokenString) : M DB outcome :=
  claims <- AuthService.ValidateJWT authService tokenString ;;
  match claims with
  | Err _ => ret (Abort StatusUnauthorized "Invalid or expired token")
  | Ok claims =>
    user <- AuthService.GetUserByID authService
              (JWTClaims.UserID claims) ;;
    match user with
    | Err _ => ret (Abort StatusUnauthorized "User not found")
    | Ok user =>
      if negb (IsActive user)
      then ret (Abort StatusUnauthorized "Account is deactivated")
      else ret (Next user)
    end
  end.

Definition AuthMiddleware (authService : AuthService.t) (c : Request)
  : M DB outcome :=
  match bearer c with
  | Some tokenString => authenticate authService tokenString
  | None =>
    match jwt_cookie c with
    | None =>
      ret (Abort StatusUnauthorized "Authorization token required")
    | Some cookie => authenticate authService cookie
    end
  end.

(** The steps of [OptionalAuthMiddleware] once it holds a token string.
    The request goes on in every case; the result is the user set in
    its context, if one was set. *)
Definition identify (authService : AuthService.t)
           (tokenString : jwt.tokenString) : M DB (option User) :=
  claims <- AuthService.ValidateJWT authService tokenString ;;
  match claims with
  | Err _ => ret None
  | Ok claims =>
    user <- AuthService.GetUserByID authService
              (JWTClaims.UserID claims) ;;
    match user with
    | Err _ => ret None
    | Ok user =>
      if negb (IsActive user) then ret None else ret (Some user)
    end
  end.

Definition OptionalAuthMiddleware (authService : AuthService.t)
           (c : Request) : M DB (option User) :=
  match bearer c with
  | Some tokenString => identify authService tokenString
  | None =>
    match jwt_cookie c with
    | None => ret None
    | Some cookie => identify authService cookie
    end
  end.

End Methods.

(** *** The middleware that reads the user of the context

    What [c.Get("user")] finds: nothing, a user, or a value of another
    type. *)

Inductive entry : Type :=
| user_entry (user : User)
| foreign_entry.

(** The answer of a middleware that aborts: the error page with a title
    and a message, or a JSON object with the message. *)
Inductive reply : Type :=
| HTML (status : Z) (title message : string)
| JSON (status : Z) (message : string).

Inductive verdict : Type :=
| Aborted (r : reply)
| Passed.

Definition StatusForbidden : Z := 403.
Definition StatusInternalServerError : Z := 500.

Definition GetUserFromContext (user : option entry) : option User :=
  match user with
  | Some (user_entry u) => Some u
  | _ => None
  end.

Definition RequireVerified (user : option entry) : verdict :=
  match GetUserFromContext user with
  | None => Aborted (JSON StatusUnauthorized "Authentication required")
  | Some user =>
    if negb (IsVerified user)
    then Aborted (JSON StatusForbidden "Email verification required")
    else Passed
  end.

Definition AdminRequired (user : option entry) : verdict :=
  match user with
  | None =>
    Aborted (HTML StatusUnauthorized "Unauthorized" "Authentication required")
  | Some foreign_entry =>
    Aborted (HTML StatusInternalServerError "Error" "Invalid user data")
  | Some (user_entry authUser) =>
    if negb (IsAdmin authUser) && negb (Role authUser =? "admin")%string
    then Aborted (HTML StatusForbidden "Access Denied"
                       "Admin privileges required to access this page")
    else Passed
  end.

Definition SuperAdminRequired (user : option entry) : verdict :=
  match user with
  | None =>
    Aborted (HTML StatusUnauthorized "Unauthorized" "Authentication required")
  | Some foreign_entry =>
    Aborted (HTML StatusInternalServerError "Error" "Invalid user data")
  | Some (user_entry authUser) =>
    if negb (Role authUser =? "admin")%string
    then Aborted (HTML StatusForbidden "Access Denied"
                       "Super admin privileges required to access this page")
    else Passed
  end.

Definition AdminAPIRequired (user : option entry) : verdict :=
  match user with
  | None => Aborted (JSON StatusUnauthorized "Authentication required")
  | Some foreign_entry =>
    Aborted (JSON StatusInternalServerError "Invalid user data")
  | Some (user_entry authUser) =>
    if negb (IsAdmin authUser) && negb (Role authUser =? "admin")%string
    then Aborted (JSON StatusForbidden "Admin privileges required")
    else Passed
  end.

Definition SuperAdminAPIRequired (user : option entry) : verdict :=
  match user with
  | None => Aborted (JSON StatusUnauthorized "Authentication required")
  | Some foreign_entry =>
    Aborted (JSON StatusInternalServerError "Invalid user data")
  | Some (user_entry authUser) =>
    if negb (Role authUser =? "admin")%string
    then Aborted (JSON StatusForbidden "Super admin privileges required")
    else Passed
  end.

(** The loop of [RoleRequired] stops at the first role that fits. *)
Definition RoleRequired (allowedRoles : list string) (user : option entry)
  : verdict :=
  match user with
  | None => Aborted (JSON StatusUnauthorized "Authentication required")
  | Some foreign_entry =>
    Aborted (JSON StatusInternalServerError "Invalid user data")
  | Some (user_entry authUser) =>
    let hasRole :=
      existsb (fun role =>
                 (Role authUser =? role)%string
                 || ((role =? "admin")%string && IsAdmin authUser))
              allowedRoles in
    if negb hasRole
    then Aborted (JSON StatusForbidden "Insufficient privileges")
    else Passed
  end.

End middleware.

(** ** OAuth endpoints ([internal/handlers/auth.go])

    Of a [gin.Context] the handlers read the query string and the cookies
    of the request, and write cookies and one body.  The [jwt] cookie is
    kept apart from the text cookies, a token being a structured value
    here. *)

Module gin.

Record Cookie : Type := mkCookie {
  Name : string; Value : string; MaxAge : Z
}.

Record Context : Type := mkContext {
  query_string : gmap string string;
  cookies : gmap string string
}.

(** [c.Query(key)]: the empty string when the key is absent. *)
Definition Query (c : Context) (key : string) : string :=
  default "" (query_string c !! key).

(** [c.Cookie(name)]: an error when the request has no such cookie. *)
Definition Cookie_ (c : Context) (name : string) : result error string :=
  match cookies c !! name with
  | Some v => Ok v
  | None => Err (from_library "http: named cookie not present")
  end.

Inductive Body : Type :=
| JSON (status : Z) (error_message : string)
| Redirect (status : Z) (location : string).

Record Response : Type := mkResponse {
  SetCookie : list Cookie;
  SetJWT : option jwt.tokenString;
  body : Body
}.

(** What a user agent keeps of its cookies after a response: a negative
    [MaxAge] deletes the cookie, any other stores the value. *)
Definition store (jar : gmap string string) (resp : Response)
  : gmap string string :=
  fold_left
    (fun jar c =>
       if MaxAge c <? 0 then delete (Name c) jar
       else <[Name c := Value c]> jar)
    (SetCookie resp) jar.

End gin.

Module AuthHandler.

Import models.

Definition StatusBadRequest : Z := 400.
Definition StatusInternalServerError : Z := 500.
Definition StatusFound : Z := 302.
Definition StatusTemporaryRedirect : Z := 307.

Definition hexdigit (n : N) : Ascii.ascii :=
  Ascii.ascii_of_N (if (n <? 10)%N then 48 + n else 87 + n).

(** [hex.EncodeToString]. *)
Fixpoint EncodeToString (b : list Byte.byte) : string :=
  match b with
  | [] => ""
  | x :: b' =>
    let n := Byte.to_N x in
    String (hexdigit (n / 16)) (String (hexdigit (n mod 16))
                                       (EncodeToString b'))
  end.

(** [err.Error()]. *)
Fixpoint Error (e : error) : string :=
  match e with
  | ErrInvalidCredentials => "invalid credentials"
  | ErrUserExists => "user already exists"
  | ErrUserNotFound => "user not found"
  | ErrInvalidToken => "invalid token"
  | ErrNotAuthorized => "user not authorized for this action"
  | ErrInvalidRole => "invalid role specified"
  | errors_New msg => msg
  | fmt_Errorf prefix cause => prefix ++ ": " ++ Error cause
  | from_db ErrRecordNotFound => "record not found"
  | from_db (db_failure msg) => msg
  | from_library msg => msg
  end.

Section Methods.

Context {DB : Type} {R : repository.UserRepository DB}.
Context {P : Platform} {H : jwt.MAC} {B : bcrypt.Hasher}.
Context {O : OAuthService.Providers}.

Definition generateState : M DB string :=
  b <- rand_Read 16 ;;
  ret (EncodeToString b).

Definition GoogleLogin (c : gin.Context) : M DB gin.Response :=
  state <- generateState ;;
  ret (gin.mkResponse
         [gin.mkCookie "oauth_state" state 600] None
         (gin.Redirect StatusTemporaryRedirect
                       (OAuthService.GetGoogleAuthURL state))).

Definition GitHubLogin (c : gin.Context) : M DB gin.Response :=
  state <- generateState ;;
  ret (gin.mkResponse
         [gin.mkCookie "oauth_state" state 600] None
         (gin.Redirect StatusTemporaryRedirect
                       (OAuthService.GetGitHubAuthURL state))).

(** The body both callbacks share; they differ in the service method
    that handles the authorization code. *)
Definition callback
           (handle : string -> M DB (result error (jwt.tokenString * User)))
           (c : gin.Context) : M DB gin.Response :=
  (* Verify state parameter *)
  let state := gin.Query c "state" in
  match gin.Cookie_ c "oauth_state" with
  | Err _ =>
    ret (gin.mkResponse [] None
           (gin.JSON StatusBadRequest "Invalid state parameter"))
  | Ok savedState =>
    if negb (state =? savedState)%string then
      ret (gin.mkResponse [] None
             (gin.JSON StatusBadRequest "Invalid state parameter"))
    else
      (* Clear state cookie *)
      let cleared := [gin.mkCookie "oauth_state" "" (-1)] in
      (* Handle authorization code *)
      let code := gin.Query c "code" in
      if (code =? "")%string then
        ret (gin.mkResponse cleared None
               (gin.JSON StatusBadRequest
                         "Authorization code not provided"))
      else
        r <- handle code ;;
        match r with
        | Err err =>
          ret (gin.mkResponse cleared None
                 (gin.JSON StatusInternalServerError (Error err)))
        | Ok (token, _) =>
          (* Set JWT token as HTTP-only cookie; redirect to dashboard *)
          ret (gin.mkResponse cleared (Some token)
                 (gin.Redirect StatusFound "/dashboard"))
        end
  end.

Definition GoogleCallback (s : AuthService.t) (c : gin.Context)
  : M DB gin.Response :=
  callback (OAuthService.HandleGoogleCallback s) c.

Definition GitHubCallback (s : AuthService.t) (c : gin.Context)
  : M DB gin.Response :=
  callback (OAuthService.HandleGitHubCallback s) c.

(** *** The credential endpoints

    What they write: the [jwt] cookie, set to a token or emptied, with
    its max-age in seconds; and a JSON object under a status, holding an
    error or a message with, when they are sent, the user (serialized
    through its [ToResponse]) and the token. *)

Inductive SessionCookie : Type :=
| SetSession (token : jwt.tokenString) (maxAge : Z)
| ClearSession (maxAge : Z).

Inductive Payload : Type :=
| Refused (message : string)
| Accepted (message : string) (user : option User)
           (token : option jwt.tokenString).

Record Reply : Type := mkReply {
  session : option SessionCookie;
  status : Z;
  payload : Payload
}.

Definition StatusOK : Z := 200.
Definition StatusCreated : Z := 201.
Definition StatusUnauthorized : Z := 401.
Definition StatusConflict : Z := 409.

(** [int(time.Hour*24*7/time.Second)]. *)
Definition session_max_age : Z := 3600 * 10 ^ 9 * 24 * 7 / 10 ^ 9.

(** [bound] is what [c.ShouldBindJSON(&req)] made of the body. *)
Definition Login (s : AuthService.t)
           (bound : result error LoginRequest.t) : M DB Reply :=
  match bound with
  | Err err => ret (mkReply None StatusBadRequest (Refused (Error err)))
  | Ok req =>
    r <- AuthService.Login s req ;;
    match r with
    | Err err => ret (mkReply None StatusUnauthorized (Refused (Error err)))
    | Ok (token, user) =>
      ret (mkReply (Some (SetSession token session_max_age)) StatusOK
                   (Accepted "Login successful" (Some user) (Some token)))
    end
  end.

Definition Register (s : AuthService.t)
           (bound : result error RegisterRequest.t) : M DB Reply :=
  match bound with
  | Err err => ret (mkReply None StatusBadRequest (Refused (Error err)))
  | Ok req =>
    r <- AuthService.Register s req ;;
    match r with
    | Err ErrUserExists =>
      ret (mkReply None StatusConflict (Refused "User already exists"))
    | Err err =>
      ret (mkReply None StatusInternalServerError (Refused (Error err)))
    | Ok user =>
      (* Generate JWT token for the new user *)
      token <- AuthService.GenerateJWT s user ;;
      match token with
      | Err _ =>
        ret (mkReply None StatusInternalServerError
                     (Refused "Failed to generate token"))
      | Ok token =>
        ret (mkReply (Some (SetSession token session_max_age))
                     StatusCreated
                     (Accepted "Registration successful" (Some user)
                               (Some token)))
      end
    end
  end.

Definition Logout : M DB Reply :=
  ret (mkReply (Some (ClearSession (-1))) StatusOK
               (Accepted "Logout successful" None None)).

End Methods.

End AuthHandler.

(** ** Admin endpoints ([internal/handlers/admin.go])

    Of the context an admin handler reads the entry under [user], the
    path parameter [id] and, for an update, the JSON body;
    [ShouldBindJSON] has either bound a request or failed. *)

Module AdminHandler.

Import models.

Definition StatusOK : Z := 200.
Definition StatusBadRequest : Z := 400.
Definition StatusUnauthorized : Z := 401.
Definition StatusForbidden : Z := 403.
Definition StatusNotFound : Z := 404.
Definition StatusInternalServerError : Z := 500.

Definition digit (c : Ascii.ascii) : option N :=
  let n := Ascii.N_of_ascii c in
  if ((48 <=? n) && (n <=? 57))%N then Some (n - 48)%N else None.

Fixpoint digits (s : string) (acc : N) : option N :=
  match s with
  | EmptyString => Some acc
  | String c s' =>
    match digit c with
    | Some d => digits s' (10 * acc + d)%N
    | None => None
    end
  end.

(** [strconv.ParseUint(s, 10, 32)]: a string that is not empty and holds
    decimal digits only, of a value below 2^32. *)
Definition ParseUint (s : string) : result error N :=
  if (s =? "")%string then Err (from_library "invalid syntax")
  else
    match digits s 0 with
    | None => Err (from_library "invalid syntax")
    | Some n =>
      if (n <? 2 ^ 32)%N then Ok n
      else Err (from_library "value out of range")
    end.

Record Context : Type := mkContext {
  user : option middleware.entry;
  id : string;
  body : result error AdminUpdateUserRequest.t
}.

(** What a handler answers: an error page or a JSON error, the detail
    page of a user, or a JSON object with a message and, for all but the
    deletion, the user written, which is serialized through its
    [ToResponse].  The type assertion on the entry of the context panics
    on a value that is not a user. *)
Inductive Response : Type :=
| Failed (r : middleware.reply)
| Page (status : Z) (name : string) (targetUser : User)
| Done (status : Z) (message : string) (user : option User)
| Panic.

Section Methods.

Context {DB : Type} {R : repository.UserRepository DB}.

Definition UserDetail (c : Context) : M DB Response :=
  match user c with
  | None =>
    ret (Failed (middleware.HTML StatusUnauthorized "Unauthorized"
                                 "Authentication required"))
  | Some middleware.foreign_entry => ret Panic
  | Some (middleware.user_entry adminUser) =>
    match ParseUint (id c) with
    | Err _ =>
      ret (Failed (middleware.HTML StatusBadRequest "Error"
                                   "Invalid user ID"))
    | Ok userID =>
      r <- AdminService.GetUserByID adminUser userID ;;
      match r with
      | Err ErrNotAuthorized =>
        ret (Failed (middleware.HTML StatusForbidden "Access Denied"
                                     "Admin privileges required"))
      | Err ErrUserNotFound =>
        ret (Failed (middleware.HTML StatusNotFound "User Not Found"
                                     "The requested user was not found"))
      | Err _ =>
        ret (Failed (middleware.HTML StatusInternalServerError "Error"
                                     "Failed to load user data"))
      | Ok targetUser =>
        ret (Page StatusOK "admin-user-detail.html" targetUser)
      end
    end
  end.

Definition UpdateUser (c : Context) : M DB Response :=
  match user c with
  | None =>
    ret (Failed (middleware.JSON StatusUnauthorized
                                 "Authentication required"))
  | Some middleware.foreign_entry => ret Panic
  | Some (middleware.user_entry adminUser) =>
    match ParseUint (id c) with
    | Err _ =>
      ret (Failed (middleware.JSON StatusBadRequest "Invalid user ID"))
    | Ok userID =>
      match body c with
      | Err _ =>
        ret (Failed (middleware.JSON StatusBadRequest
                                     "Invalid request data"))
      | Ok req =>
        r <- AdminService.UpdateUser adminUser userID req ;;
        match r with
        | Err ErrNotAuthorized =>
          ret (Failed (middleware.JSON StatusForbidden
                                       "Admin privileges required"))
        | Err ErrUserNotFound =>
          ret (Failed (middleware.JSON StatusNotFound "User not found"))
        | Err ErrInvalidRole =>
          ret (Failed (middleware.JSON StatusBadRequest
                                       "Invalid role specified"))
        | Err _ =>
          ret (Failed (middleware.JSON StatusInternalServerError
                                       "Failed to update user"))
        | Ok updatedUser =>
          ret (Done StatusOK "User updated successfully"
                    (Some updatedUser))
        end
      end
    end
  end.

Definition DeactivateUser (c : Context) : M DB Response :=
  match user c with
  | None =>
    ret (Failed (middleware.JSON StatusUnauthorized
                                 "Authentication required"))
  | Some middleware.foreign_entry => ret Panic
  | Some (middleware.user_entry adminUser) =>
    match ParseUint (id c) with
    | Err _ =>
      ret (Failed (middleware.JSON StatusBadRequest "Invalid user ID"))
    | Ok userID =>
      r <- AdminService.DeactivateUser adminUser userID ;;
      match r with
      | Err ErrNotAuthorized =>
        ret (Failed (middleware.JSON StatusForbidden
                                     "Admin privileges required"))
      | Err ErrUserNotFound =>
        ret (Failed (middleware.JSON StatusNotFound "User not found"))
      | Err err =>
        ret (Failed (middleware.JSON StatusInternalServerError
                                     (AuthHandler.Error err)))
      | Ok updatedUser =>
        ret (Done StatusOK "User deactivated successfully"
                  (Some updatedUser))
      end
    end
  end.

Definition ActivateUser (c : Context) : M DB Response :=
  match user c with
  | None =>
    ret (Failed (middleware.JSON StatusUnauthorized
                                 "Authentication required"))
  | Some middleware.foreign_entry => ret Panic
  | Some (middleware.user_entry adminUser) =>
    match ParseUint (id c) with
    | Err _ =>
      ret (Failed (middleware.JSON StatusBadRequest "Invalid user ID"))
    | Ok userID =>
      r <- AdminService.ActivateUser adminUser userID ;;
      match r with
      | Err ErrNotAuthorized =>
        ret (Failed (middleware.JSON StatusForbidden
                                     "Admin privileges required"))
      | Err ErrUserNotFound =>
        ret (Failed (middleware.JSON StatusNotFound "User not found"))
      | Err _ =>
        ret (Failed (middleware.JSON StatusInternalServerError
                                     "Failed to activate user"))
      | Ok updatedUser =>
        ret (Done StatusOK "User activated successfully"
                  (Some updatedUser))
      end
    end
  end.

Definition DeleteUser (c : Context) : M DB Response :=
  match user c with
  | None =>
    ret (Failed (middleware.JSON StatusUnauthorized
                                 "Authentication required"))
  | Some middleware.foreign_entry => ret Panic
  | Some (middleware.user_entry adminUser) =>
    match ParseUint (id c) with
    | Err _ =>
      ret (Failed (middleware.JSON StatusBadRequest "Invalid user ID"))
    | Ok userID =>
      err <- AdminService.DeleteUser adminUser userID ;;
      match err with
      | Some ErrNotAuthorized =>
        ret (Failed (middleware.JSON StatusForbidden
                                     "Admin privileges required"))
      | Some ErrUserNotFound =>
        ret (Failed (middleware.JSON StatusNotFound "User not found"))
      | Some err =>
        ret (Failed (middleware.JSON StatusInternalServerError
                                     (AuthHandler.Error err)))
      | None => ret (Done StatusOK "User deleted successfully" None)
      end
    end
  end.

Definition PromoteToAdmin (c : Context) : M DB Response :=
  match user c with
  | None =>
    ret (Failed (middleware.JSON StatusUnauthorized
                                 "Authentication required"))
  | Some middleware.foreign_entry => ret Panic
  | Some (middleware.user_entry adminUser) =>
    match ParseUint (id c) with
    | Err _ =>
      ret (Failed (middleware.JSON StatusBadRequest "Invalid user ID"))
    | Ok userID =>
      r <- AdminService.PromoteToAdmin adminUser userID ;;
      match r with
      | Err ErrNotAuthorized =>
        ret (Failed (middleware.JSON StatusForbidden
                                     "Admin privileges required"))
      | Err ErrUserNotFound =>
        ret (Failed (middleware.JSON StatusNotFound "User not found"))
      | Err _ =>
        ret (Failed (middleware.JSON StatusInternalServerError
                                     "Failed to promote user"))
      | Ok updatedUser =>
        ret (Done StatusOK "User promoted to admin successfully"
                  (Some updatedUser))
      end
    end
  end.

Definition DemoteFromAdmin (c : Context) : M DB Response :=
  match user c with
  | None =>
    ret (Failed (middleware.JSON StatusUnauthorized
                                 "Authentication required"))
  | Some middleware.foreign_entry => ret Panic
  | Some (middleware.user_entry adminUser) =>
    match ParseUint (id c) with
    | Err _ =>
      ret (Failed (middleware.JSON StatusBadRequest "Invalid user ID"))
    | Ok userID =>
      r <- AdminService.DemoteFromAdmin adminUser userID ;;
      match r with
      | Err ErrNotAuthorized =>
        ret (Failed (middleware.JSON StatusForbidden
                                     "Admin privileges required"))
      | Err ErrUserNotFound =>
        ret (Failed (middleware.JSON StatusNotFound "User not found"))
      | Err err =>
        ret (Failed (middleware.JSON StatusInternalServerError
                                     (AuthHandler.Error err)))
      | Ok updatedUser =>
        ret (Done StatusOK "Admin privileges removed successfully"
                  (Some updatedUser))
      end
    end
  end.

End Methods.

End AdminHandler.

(** ** The admin routes of [cmd/server/main.go]

    A route group runs the middleware it was given in order and then the
    handler; a middleware that aborts ends the request with its answer,
    and the user [AuthMiddleware] sets is the entry the later ones
    find. *)

Module router.

Import models.

Section Routes.

Context {DB : Type} {R : repository.UserRepository DB}.
Context {P : Platform} {H : jwt.MAC} {B : bcrypt.Hasher}.

(** [admin.Use(middleware.AuthMiddleware(), middleware.AdminRequired())]. *)
Definition admin (authService : AuthService.t)
           (handler : AdminHandler.Context -> M DB AdminHandler.Response)
           (request : middleware.Request) (id : string)
           (body : result error AdminUpdateUserRequest.t)
  : M DB AdminHandler.Response :=
  outcome <- middleware.AuthMiddleware authService request ;;
  match outcome with
  | middleware.Abort status message =>
    ret (AdminHandler.Failed (middleware.JSON status message))
  | middleware.Next user =>
    let entry := Some (middleware.user_entry user) in
    match middleware.AdminRequired entry with
    | middleware.Aborted r => ret (AdminHandler.Failed r)
    | middleware.Passed => handler (AdminHandler.mkContext entry id body)
    end
  end.

(** [adminAPI.Use(middleware.AuthMiddleware(),
    middleware.AdminAPIRequired())]. *)
Definition adminAPI (authService : AuthService.t)
           (handler : AdminHandler.Context -> M DB AdminHandler.Response)
           (request : middleware.Request) (id : string)
           (body : result error AdminUpdateUserRequest.t)
  : M DB AdminHandler.Response :=
  outcome <- middleware.AuthMiddleware authService request ;;
  match outcome with
  | middleware.Abort status message =>
    ret (AdminHandler.Failed (middleware.JSON status message))
  | middleware.Next user =>
    let entry := Some (middleware.user_entry user) in
    match middleware.AdminAPIRequired entry with
    | middleware.Aborted r => ret (AdminHandler.Failed r)
    | middleware.Passed => handler (AdminHandler.mkContext entry id body)
    end
  end.

End Routes.

End router.

(** ** An in-memory table

    The rows of the [users] table, oldest first.  It answers the storage
    interface the way the SQL-backed repository does on a table without
    deleted rows: a lookup returns the first row that matches or
    [ErrRecordNotFound]; [Create] fills the column defaults in, draws the
    next primary key for a record that has none and refuses a duplicate
    e-mail; [Update] writes every column of the row with the record's key
    and inserts the record when no row has it; [Delete] removes the row. *)

Module memory.

Import models.

Definition table : Type := list User.

Definition First (p : User -> bool) (rows : table) : result db_error User :=
  match find p rows with
  | Some u => Ok u
  | None => Err ErrRecordNotFound
  end.

Definition has_id (id : uint) (u : User) : bool := (ID u =? id)%N.
Definition has_email (email : string) (u : User) : bool :=
  (Email u =? email)%string.
Definition has_google_id (g : string) (u : User) : bool :=
  match GoogleID u with Some g' => (g' =? g)%string | None => false end.
Definition has_github_id (g : string) (u : User) : bool :=
  match GitHubID u with Some g' => (g' =? g)%string | None => false end.

Definition next_id (rows : table) : uint :=
  (1 + fold_right N.max 0 (map ID rows))%N.

(** The column defaults of the struct tags: [is_active] defaults to true
    and [role] to ['user'] when the record holds the zero value. *)
Definition with_defaults (u : User) : User :=
  let u := if IsActive u then u else set_IsActive true u in
  if (Role u =? "")%string then set_Role "user" u else u.

Definition insert_row (u : User) (rows : table)
  : result db_error User * table :=
  let u := with_defaults u in
  let u := if (ID u =? 0)%N then set_ID (next_id rows) u else u in
  if existsb (has_id (ID u)) rows
  then (Err (db_failure "UNIQUE constraint failed: users.id"), rows)
  else if existsb (has_email (Email u)) rows
  then (Err (db_failure "UNIQUE constraint failed: users.email"), rows)
  else (Ok u, (rows ++ [u])%list).

Fixpoint replace_row (u : User) (rows : table) : table :=
  match rows with
  | [] => []
  | r :: rows' =>
    if has_id (ID u) r then u :: rows' else r :: replace_row u rows'
  end.

Definition save_row (u : User) (rows : table)
  : (User * option db_error) * table :=
  if existsb (has_id (ID u)) rows
  then ((u, None), replace_row u rows)
  else ((u, None), (rows ++ [u])%list).

Definition delete_row (id : uint) (rows : table)
  : option db_error * table :=
  (None, filter (fun r => negb (has_id id r)) rows).

Definition page (limit offset : Z) (rows : table)
  : result db_error (list User) :=
  let rows := if 0 <? offset then skipn (Z.to_nat offset) rows else rows in
  Ok (if limit <? 0 then rows else firstn (Z.to_nat limit) rows).

#[global] Instance userRepository : repository.UserRepository table := {
  repository.Create := insert_row;
  repository.GetByID id := First (has_id id);
  repository.GetByEmail email := First (has_email email);
  repository.GetByGoogleID g := First (has_google_id g);
  repository.GetByGitHubID g := First (has_github_id g);
  repository.Update := save_row;
  repository.Delete := delete_row;
  repository.List := page
}.

(** Stand-ins for the other collaborators, for running the services. *)

#[global] Instance platform : Platform := {
  uint_out_of_range _ := (2 ^ 63)%N;
  instant_out_of_range _ := - 2 ^ 63
}.

Definition hash_name (h : jwt.Hash) : string :=
  match h with
  | jwt.SHA256 => "sha256"
  | jwt.SHA384 => "sha384"
  | jwt.SHA512 => "sha512"
  end.

Definition render (v : jwt.Value) : string :=
  match v with
  | jwt.VNumber n => pretty.pretty n
  | jwt.VString s => s
  | jwt.VOther => "null"
  end.

#[global] Instance mac : jwt.MAC := {
  jwt.hmac_sum h key input :=
    hash_name h ++ "(" ++ key ++ "|" ++ fst input ++ "|"
    ++ map_fold (fun k v acc => k ++ "=" ++ render v ++ ";" ++ acc)
                "" (snd input) ++ ")"
}.

#[global] Instance hasher : bcrypt.Hasher := {
  bcrypt.hash salt password :=
    Ok ("$2a$10$" ++ AuthHandler.EncodeToString salt ++ "$" ++ password);
  bcrypt.matches digest password :=
    (substring (String.length digest - String.length password)
               (String.length password) digest =? password)%string
}.

#[global] Instance providers : OAuthService.Providers := {
  OAuthService.AuthCodeURL p state :=
    match p with
    | OAuthService.google =>
      "https://accounts.google.com/o/oauth2/auth?state=" ++ state
    | OAuthService.github =>
      "https://github.com/login/oauth/authorize?state=" ++ state
    end;
  OAuthService.Exchange _ code :=
    if (code =? "good-code")%string then Ok "access-token"
    else Err (from_library "oauth2: cannot fetch token");
  OAuthService.userinfo _ :=
    Ok (OAuthService.GoogleUser.mk "g-1" "carol@example.com" "Carol C"
                                    "" "Carol" "C");
  OAuthService.api_user _ :=
    Ok (OAuthService.GitHubUser.mk 7 "dave" "" "" "" "" "" "");
  OAuthService.api_user_emails _ := Ok [("dave@example.com", true)]
}.

End memory.

(** ** The operations that write an identity, as one transition system *)

Module system.

Import models.

(** The two admin signals agree: the flag is set only on an identity
    whose role is [admin]. *)
Definition consistent (u : User) : Prop :=
  IsAdmin u = true -> Role u = "admin".

(** What the services need of a repository to keep [consistent] on every
    stored identity: [good] holds of the tables whose records all satisfy
    it, the getters return stored records, and a write of a consistent
    record keeps the table good. *)
Class Preserves {DB : Type} {R : repository.UserRepository DB}
      (good : DB -> Prop) : Prop := {
  good_GetByID : forall id db u,
    good db -> repository.GetByID id db = Ok u -> consistent u;
  good_GetByEmail : forall email db u,
    good db -> repository.GetByEmail email db = Ok u -> consistent u;
  good_GetByGoogleID : forall g db u,
    good db -> repository.GetByGoogleID g db = Ok u -> consistent u;
  good_GetByGitHubID : forall g db u,
    good db -> repository.GetByGitHubID g db = Ok u -> consistent u;
  good_Create : forall u db,
    good db -> consistent u ->
    good (snd (repository.Create u db))
    /\ forall u', fst (repository.Create u db) = Ok u' -> consistent u';
  good_Update : forall u db,
    good db -> consistent u ->
    good (snd (repository.Update u db))
    /\ consistent (fst (fst (repository.Update u db)))
}.

(** What a step must establish: the table stays good and the identity
    handed back, if any, is consistent. *)
Definition kept {DB : Type} (good : DB -> Prop)
           (out : result error User * World DB) : Prop :=
  good (w_db (snd out))
  /\ forall u, fst out = Ok u -> consistent u.

Inductive Op : Type :=
| Register (req : RegisterRequest.t)
| Login (req : LoginRequest.t)
| UpdateProfile (userID : uint) (req : UpdateProfileRequest.t)
| ResolveGoogle (profile : OAuthService.GoogleUser.t)
| ResolveGitHub (profile : OAuthService.GitHubUser.t)
| UpdateUser (adminUser : User) (userID : uint)
             (req : AdminUpdateUserRequest.t)
| PromoteToAdmin (adminUser : User) (userID : uint)
| DemoteFromAdmin (adminUser : User) (userID : uint)
| ActivateUser (adminUser : User) (userID : uint)
| DeactivateUser (adminUser : User) (userID : uint).

Section Run.

Context {DB : Type} {R : repository.UserRepository DB}.
Context {P : Platform} {H : jwt.MAC} {B : bcrypt.Hasher}.

(** The identity an operation returns to its caller, if any. *)
Definition run (s : AuthService.t) (op : Op) : M DB (result error User) :=
  match op with
  | Register req => AuthService.Register s req
  | Login req =>
    r <- AuthService.Login s req ;;
    ret (match r with
         | Ok (_, user) => Ok user
         | Err e => Err e
         end)
  | UpdateProfile userID req => AuthService.UpdateProfile s userID req
  | ResolveGoogle profile => OAuthService.findOrCreateGoogleUser profile
  | ResolveGitHub profile => OAuthService.findOrCreateGitHubUser profile
  | UpdateUser adminUser userID req =>
    AdminService.UpdateUser adminUser userID req
  | PromoteToAdmin adminUser userID =>
    AdminService.PromoteToAdmin adminUser userID
  | DemoteFromAdmin adminUser userID =>
    AdminService.DemoteFromAdmin adminUser userID
  | ActivateUser adminUser userID =>
    AdminService.ActivateUser adminUser userID
  | DeactivateUser adminUser userID =>
    AdminService.DeactivateUser adminUser userID
  end.

End Run.

(** The requests under which [UpdateUser] leaves flag and role in
    agreement: the actor is no super admin (the flag is then out of its
    reach), or the request clears the flag, or it assigns the [admin]
    role, or it touches neither. *)
Definition agrees (op : Op) : Prop :=
  match op with
  | UpdateUser adminUser _ req =>
    Role adminUser <> "admin"
    \/ AdminUpdateUserRequest.IsAdmin req = Some false
    \/ AdminUpdateUserRequest.Role req = "admin"
    \/ (AdminUpdateUserRequest.IsAdmin req = None
        /\ AdminUpdateUserRequest.Role req = "")
  | _ => True
  end.

End system.

(** ** Sample data

    The accounts of the seeding command, and one administrator who holds
    the flag without the role. *)

Module sample.

Import models.

Definition account (id : uint) (email first last : string)
           (active admin : bool) (role : string) : User :=
  mkUser id 0 0 None email "$2a$10$00$admin123" first last active true admin
         role None None None None None None None None.

Definition admin : User :=
  account 1%N "admin@example.com" "System" "Administrator" true true "admin".
Definition john : User :=
  account 2%N "john.doe@example.com" "John" "Doe" true false "user".
Definition jane : User :=
  account 3%N "jane.smith@example.com" "Jane" "Smith" true false "moderator".
Definition bob : User :=
  account 4%N "bob.johnson@example.com" "Bob" "Johnson" false false "user".
(** Holds the flag, not the role. *)
Definition flagged : User :=
  account 5%N "flagged@example.com" "Flag" "Only" true true "user".
(** A deactivated administrator. *)
Definition retired : User :=
  account 6%N "retired@example.com" "Old" "Admin" false true "admin".

(** Holds the role, not the flag. *)
Definition unflagged : User :=
  account 7%N "unflagged@example.com" "Role" "Only" true false "admin".

Definition users : memory.table :=
  [admin; john; jane; bob; flagged; retired; unflagged].

(** Noon on 1 January 2025, and a clock that does not move during a call. *)
Definition noon : Z := 1735732800 * 10 ^ 9.

Definition world : World memory.table := mkWorld users noon [] [].

Definition authService : AuthService.t := AuthService.mk "server-secret".

(** The accounts of the seeding command alone. *)
Definition seeded : memory.table := [admin; john; jane; bob].

Definition seeded_world : World memory.table := mkWorld seeded noon [] [].

Definition world_at (t : Z) : World memory.table := mkWorld users t [] [].

(** A world with sixteen bytes of entropy at hand, and the state they
    encode to. *)
Definition flow : World memory.table :=
  mkWorld users noon []
          [Byte.x01; Byte.x23; Byte.x45; Byte.x67;
           Byte.x89; Byte.xab; Byte.xcd; Byte.xef;
           Byte.x01; Byte.x23; Byte.x45; Byte.x67;
           Byte.x89; Byte.xab; Byte.xcd; Byte.xef].

Definition issued_state : string := "0123456789abcdef0123456789abcdef".

(** A callback request with the given state and the code the sample
    provider accepts, sent with the given cookies. *)
Definition callback_request (state : string) (jar : gmap string string)
  : gin.Context :=
  gin.mkContext (<["state" := state]> (<["code" := "good-code"]> ∅)) jar.


(** A token for John with the given expiry, signed with the server's
    secret under the HMAC of the given hash. *)
Definition john_claims (exp : Z) : jwt.MapClaims :=
  <["user_id" := jwt.VNumber 2]>
    (<["email" := jwt.VString "john.doe@example.com"]>
       (<["exp" := jwt.VNumber exp]> ∅)).

Definition signed (h : jwt.Hash) (claims : jwt.MapClaims)
  : jwt.tokenString :=
  let alg := jwt.Alg (jwt.SigningMethodHMAC h) in
  jwt.segments alg claims
               (jwt.hmac_sum h (AuthService.jwtSecret authService)
                             (alg, claims)).

(** An identity whose key is not a binary64 number. *)
Definition huge : User := set_ID (2 ^ 53 + 1)%N john.

(** An identity whose e-mail starts with a byte that no UTF-8 sequence
    contains. *)
Definition garbled : User :=
  set_Email (String (Ascii.ascii_of_N 255) "@example.com") john.

(** The digest the sample hasher computes for Alice's password when the
    source of entropy has run dry, and Alice as [Register] creates her. *)
Definition alice_digest : string :=
  "$2a$10$00000000000000000000000000000000$secret1".

Definition alice : User :=
  set_Role "user"
           (set_IsActive true
              (set_LastName "A"
                 (set_FirstName "Alice"
                    (set_Password alice_digest
                       (set_Email "alice@example.com"
                                  (set_ID 8%N zero)))))).

(** A request that renames John, makes him a moderator and asks for the
    admin flag. *)
Definition rename_john : AdminUpdateUserRequest.t :=
  AdminUpdateUserRequest.mk "Johnny" "Doe" "johnny@example.com"
                            None (Some false) (Some true) "moderator"
                            (Some "hello") None None.

(** A request that only sets the admin flag. *)
Definition flag_john : AdminUpdateUserRequest.t :=
  AdminUpdateUserRequest.mk "John" "Doe" "john.doe@example.com"
                            None None (Some true) "" None None None.

(** A request that asks for a role the service does not know. *)
Definition bad_role : AdminUpdateUserRequest.t :=
  AdminUpdateUserRequest.mk "John" "Doe" "john.doe@example.com"
                            (Some false) None None "root" None None None.

(** A request that makes its target a moderator and nothing else. *)
Definition moderate : AdminUpdateUserRequest.t :=
  AdminUpdateUserRequest.mk "John" "Doe" "john.doe@example.com"
                            None None (Some true) "moderator" None None None.

(** John after a login at noon, and the token that login issues. *)
Definition john_logged_in : User := set_LastLoginAt (Some noon) john.

Definition john_token : jwt.tokenString :=
  signed jwt.SHA256 (AuthService.issued_claims john_logged_in noon noon).

(** The last instant of the week that follows noon, less a second. *)
Definition week_later : World memory.table :=
  world_at (noon + 604799 * 10 ^ 9).

(** Carol, as created from the profile the sample provider answers, and
    a table that holds her. *)
Definition carol : User :=
  mkUser 8%N 0 0 None "carol@example.com" "" "Carol" "C" true true false
         "user" (Some "g-1") None None None None None None None.

Definition carol_profile : OAuthService.GoogleUser.t :=
  OAuthService.GoogleUser.mk "g-1" "carol@example.com" "Carol C" ""
                             "Carol" "C".

Definition federated : World memory.table :=
  mkWorld (users ++ [carol])%list noon [] [].

Definition carol_token : jwt.tokenString :=
  signed jwt.SHA256 (AuthService.issued_claims carol noon noon).

(** A Google profile that is new to the table and carries John's
    e-mail. *)
Definition john_profile : OAuthService.GoogleUser.t :=
  OAuthService.GoogleUser.mk "g-2" "john.doe@example.com" "John Doe"
                             "https://example.com/john.png" "John" "Doe".

(** The GitHub profile of the sample provider, without a public
    e-mail. *)
Definition dave_profile : OAuthService.GitHubUser.t :=
  OAuthService.GitHubUser.mk 7 "dave" "" "" "" "" "" "".

(** Requests to the admin endpoints: the admin in the context, a path
    parameter and no body. *)
Definition as_admin (id : string) : AdminHandler.Context :=
  AdminHandler.mkContext (Some (middleware.user_entry admin)) id
                         (Err (from_library "EOF")).

(** A token for the administrator who holds the flag alone, and a
    request that bears it. *)
Definition flagged_token : jwt.tokenString :=
  signed jwt.SHA256 (AuthService.issued_claims flagged noon noon).

Definition by_flagged : middleware.Request :=
  middleware.mkRequest (Some flagged_token) None.

(** The cookies a user agent holds after a login on [flow]. *)
Definition after_login : gmap string string :=
  <["oauth_state" := issued_state]> ∅.

(** A token for Bob, whose account is deactivated. *)
Definition bob_token : jwt.tokenString :=
  signed jwt.SHA256 (AuthService.issued_claims bob noon noon).

End sample.

(** * Properties *)

(** ** The in-memory table is a repository that keeps records as written *)

Lemma First_found (p : models.User -> bool) (rows : memory.table)
      (u : models.User) :
  memory.First p rows = Ok u -> In u rows /\ p u = true.
Proof.
  unfold memory.First. destruct (find p rows) as [v|] eqn:E; [|discriminate].
  intros [= <-]. exact (find_some _ _ E).
Qed.

Lemma GetByID_key (id : models.uint) (rows : memory.table) (u : models.User) :
  repository.GetByID id rows = Ok u -> models.ID u = id.
Proof.
  intros Hf. apply First_found in Hf as [_ Hp].
  unfold memory.has_id in Hp. now apply N.eqb_eq.
Qed.

(** One step of a service on a world: unfold the monad and reduce the
    tests that are decided. *)
Ltac step :=
  cbv beta iota delta [bind ret query command negb andb orb fst snd].

(** ** Authorization policy *)

Section Policy.

Import models.

Context {DB : Type} {R : repository.UserRepository DB}.

Lemma not_super (adminUser : User) :
  Role adminUser <> "admin" -> (Role adminUser =? "admin")%string = false.
Proof. intros Hne. now apply String.eqb_neq. Qed.

(** What [s.userRepo.Update(user)] leaves behind: the table is the one
    [Update] returns, the clock and the entropy are untouched, and the
    answer is the record [Update] hands back, or its error. *)
Lemma save_writes (user : User) (w : World DB) :
  repository.save user w
  = (match repository.returned (fst (repository.Update user (w_db w))) with
     | Ok user' => Ok user'
     | Err e => Err (from_db e)
     end,
     mkWorld (snd (repository.Update user (w_db w)))
             (w_now w) (w_ticks w) (w_entropy w)).
Proof.
  unfold repository.save, command. cbv beta iota delta [bind ret].
  destruct (repository.Update user (w_db w)) as [r db']. reflexivity.
Qed.

(** C1.  An actor privileged by the flag alone ([isAdmin] set, role other
    than [admin]) is refused by [PromoteToAdmin] with [ErrNotAuthorized]
    on every target, and nothing is written; [GetAllUsers] lets the same
    actor through: its answer is the listing of the repository, never
    the denial. *)
Theorem flag_only_admin_promote_denied_list_allowed
        (adminUser : User) (userID : uint) (limit offset : Z)
        (w : World DB) :
  IsAdmin adminUser = true ->
  Role adminUser <> "admin" ->
  AdminService.PromoteToAdmin adminUser userID w = (Err ErrNotAuthorized, w)
  /\ AdminService.GetAllUsers adminUser limit offset w
     = (match repository.List limit offset (w_db w) with
        | Ok users => Ok users
        | Err e => Err (from_db e)
        end, w)
  /\ fst (AdminService.GetAllUsers adminUser limit offset w)
     <> Err ErrNotAuthorized.
Proof.
  intros Hflag Hrole.
  assert (Hget : AdminService.GetAllUsers adminUser limit offset w
                 = (match repository.List limit offset (w_db w) with
                    | Ok users => Ok users
                    | Err e => Err (from_db e)
                    end, w)).
  { unfold AdminService.GetAllUsers, AdminService.IsAdmin.
    rewrite Hflag. reflexivity. }
  split; [|split].
  - unfold AdminService.PromoteToAdmin.
    rewrite (not_super _ Hrole), orb_true_r. reflexivity.
  - exact Hget.
  - rewrite Hget. simpl.
    destruct (repository.List limit offset (w_db w)); discriminate.
Qed.

(** C2, as amended.  When the actor is privileged but its role is not
    [admin] and the stored target carries the [isAdmin] flag,
    [UpdateUser], [DeactivateUser] and [DeleteUser] answer
    [ErrNotAuthorized] and write nothing. *)
Theorem flagged_target_is_out_of_reach
        (adminUser : User) (userID : uint)
        (req : AdminUpdateUserRequest.t) (target : User) (w : World DB) :
  AdminService.IsAdmin adminUser = true ->
  Role adminUser <> "admin" ->
  repository.GetByID userID (w_db w) = Ok target ->
  IsAdmin target = true ->
  AdminService.UpdateUser adminUser userID req w = (Err ErrNotAuthorized, w)
  /\ AdminService.DeactivateUser adminUser userID w
     = (Err ErrNotAuthorized, w)
  /\ AdminService.DeleteUser adminUser userID w = (Some ErrNotAuthorized, w).
Proof.
  intros Hpriv Hrole Hget Hflag.
  unfold AdminService.UpdateUser, AdminService.DeactivateUser,
    AdminService.DeleteUser.
  rewrite Hpriv. step. rewrite Hget. step.
  rewrite Hflag, (not_super _ Hrole). step. repeat split.
Qed.

(** C4.  A call of [DeactivateUser], [DeleteUser] or [DemoteFromAdmin]
    whose target is the acting identity itself always ends in an error
    and writes nothing, whatever the privileges of the actor: the world
    after the call is the world before it.  The error is named for every
    actor.  A stored actor whose role is [admin] receives the
    self-protection error of the operation.  An actor without privileges
    receives [ErrNotAuthorized] from all three, and so does every actor
    whose role is not [admin] from [DemoteFromAdmin].  A privileged actor
    whose key the repository does not find receives [ErrUserNotFound].  A
    privileged actor whose role is not [admin] receives from
    [DeactivateUser] and [DeleteUser] the error [ErrNotAuthorized] when
    its stored record carries the flag, and the self-protection error
    otherwise.  The repository is assumed to return the record of the
    key it is asked for. *)
Theorem self_target_is_refused (adminUser : User) (w : World DB) :
  (forall id db u, repository.GetByID id db = Ok u -> ID u = id) ->
  (exists e, AdminService.DeactivateUser adminUser (ID adminUser) w
             = (Err e, w))
  /\ (exists e, AdminService.DeleteUser adminUser (ID adminUser) w
                = (Some e, w))
  /\ (exists e, AdminService.DemoteFromAdmin adminUser (ID adminUser) w
                = (Err e, w))
  /\ (Role adminUser = "admin" ->
      (exists u, repository.GetByID (ID adminUser) (w_db w) = Ok u) ->
      AdminService.DeactivateUser adminUser (ID adminUser) w
      = (Err (errors_New "cannot deactivate your own account"), w)
      /\ AdminService.DeleteUser adminUser (ID adminUser) w
         = (Some (errors_New "cannot delete your own account"), w)
      /\ AdminService.DemoteFromAdmin adminUser (ID adminUser) w
         = (Err (errors_New "cannot demote your own account"), w))
  /\ (AdminService.IsAdmin adminUser = false ->
      AdminService.DeactivateUser adminUser (ID adminUser) w
      = (Err ErrNotAuthorized, w)
      /\ AdminService.DeleteUser adminUser (ID adminUser) w
         = (Some ErrNotAuthorized, w)
      /\ AdminService.DemoteFromAdmin adminUser (ID adminUser) w
         = (Err ErrNotAuthorized, w))
  /\ (Role adminUser <> "admin" ->
      AdminService.DemoteFromAdmin adminUser (ID adminUser) w
      = (Err ErrNotAuthorized, w))
  /\ (forall e,
        AdminService.IsAdmin adminUser = true ->
        repository.GetByID (ID adminUser) (w_db w) = Err e ->
        AdminService.DeactivateUser adminUser (ID adminUser) w
        = (Err ErrUserNotFound, w)
        /\ AdminService.DeleteUser adminUser (ID adminUser) w
           = (Some ErrUserNotFound, w)
        /\ (Role adminUser = "admin" ->
            AdminService.DemoteFromAdmin adminUser (ID adminUser) w
            = (Err ErrUserNotFound, w)))
  /\ (forall u,
        AdminService.IsAdmin adminUser = true ->
        Role adminUser <> "admin" ->
        repository.GetByID (ID adminUser) (w_db w) = Ok u ->
        AdminService.DeactivateUser adminUser (ID adminUser) w
        = (Err (if IsAdmin u then ErrNotAuthorized
                else errors_New "cannot deactivate your own account"), w)
        /\ AdminService.DeleteUser adminUser (ID adminUser) w
           = (Some (if IsAdmin u then ErrNotAuthorized
                    else errors_New "cannot delete your own account"), w)).
Proof.
  intros Hkey.
  unfold AdminService.DeactivateUser, AdminService.DeleteUser,
    AdminService.DemoteFromAdmin.
  split; [|split; [|split; [|split; [|split; [|split; [|split]]]]]].
  - destruct (AdminService.IsAdmin adminUser); step; [|eauto].
    destruct (repository.GetByID (ID adminUser) (w_db w)) as [u|] eqn:E;
      [|eauto].
    rewrite (Hkey _ _ _ E), N.eqb_refl.
    destruct (IsAdmin u), (Role adminUser =? "admin")%string; step; eauto.
  - destruct (AdminService.IsAdmin adminUser); step; [|eauto].
    destruct (repository.GetByID (ID adminUser) (w_db w)) as [u|] eqn:E;
      [|eauto].
    rewrite (Hkey _ _ _ E), N.eqb_refl.
    destruct (IsAdmin u), (Role adminUser =? "admin")%string; step; eauto.
  - destruct (AdminService.IsAdmin adminUser),
      (Role adminUser =? "admin")%string; step; eauto.
    destruct (repository.GetByID (ID adminUser) (w_db w)) as [u|] eqn:E;
      [|eauto].
    rewrite (Hkey _ _ _ E), N.eqb_refl. eauto.
  - intros H H0. destruct H0 as [u E]. unfold AdminService.IsAdmin.
    rewrite H, String.eqb_refl, orb_true_r. step.
    rewrite E, (Hkey _ _ _ E), N.eqb_refl.
    destruct (IsAdmin u); repeat split.
  - intros Hpriv. rewrite Hpriv. step. repeat split.
  - intros Hrole. rewrite (not_super _ Hrole).
    destruct (AdminService.IsAdmin adminUser); reflexivity.
  - intros e Hpriv E. rewrite Hpriv. step. rewrite E.
    split; [reflexivity|]. split; [reflexivity|].
    intros Hrole. rewrite Hrole, String.eqb_refl. step.
    rewrite E. reflexivity.
  - intros u Hpriv Hrole E. rewrite Hpriv. step.
    rewrite E, (Hkey _ _ _ E), N.eqb_refl, (not_super _ Hrole).
    destruct (IsAdmin u); step; split; reflexivity.
Qed.

(** C10.  When the actor's role is not [admin], the [is_admin] field of
    an [UpdateUser] request has no effect at all: the call behaves as on
    the request without it.  In particular, for a privileged actor, a
    stored target without the flag and a role that is empty, [user] or
    [moderator], the call hands to [Update] of the repository the target
    with every other requested field applied and the flag as it was; the
    table after the call is the table [Update] returns for that record,
    and the answer is the record [Update] hands back, or the error of
    [Update], never [ErrNotAuthorized]. *)
Theorem UpdateUser_drops_is_admin_silently
        (adminUser : User) (userID : uint)
        (req : AdminUpdateUserRequest.t) (w : World DB) :
  Role adminUser <> "admin" ->
  (forall v,
      AdminService.UpdateUser adminUser userID
                              (AdminUpdateUserRequest.set_IsAdmin v req) w
      = AdminService.UpdateUser adminUser userID req w)
  /\ forall user,
      AdminService.IsAdmin adminUser = true ->
      repository.GetByID userID (w_db w) = Ok user ->
      IsAdmin user = false ->
      AdminUpdateUserRequest.Role req = ""
      \/ AdminUpdateUserRequest.Role req = "user"
      \/ AdminUpdateUserRequest.Role req = "moderator" ->
      let written :=
        if (AdminUpdateUserRequest.Role req =? "")%string
        then AdminService.assign_fields req user
        else set_Role (AdminUpdateUserRequest.Role req)
                      (AdminService.assign_fields req user) in
      AdminService.UpdateUser adminUser userID req w
      = repository.save written w
      /\ fst (AdminService.UpdateUser adminUser userID req w)
         = match repository.Update written (w_db w) with
           | (_, Some e, _) => Err (from_db e)
           | (saved, None, _) => Ok saved
           end
      /\ fst (AdminService.UpdateUser adminUser userID req w)
         <> Err ErrNotAuthorized
      /\ snd (AdminService.UpdateUser adminUser userID req w)
         = mkWorld (snd (repository.Update written (w_db w)))
                   (w_now w) (w_ticks w) (w_entropy w)
      /\ IsAdmin written = IsAdmin user
      /\ FirstName written = AdminUpdateUserRequest.FirstName req
      /\ LastName written = AdminUpdateUserRequest.LastName req
      /\ Email written = AdminUpdateUserRequest.Email req
      /\ Bio written = AdminUpdateUserRequest.Bio req
      /\ Website written = AdminUpdateUserRequest.Website req
      /\ Location written = AdminUpdateUserRequest.Location req
      /\ IsActive written
         = default (IsActive user) (AdminUpdateUserRequest.IsActive req)
      /\ IsVerified written
         = default (IsVerified user) (AdminUpdateUserRequest.IsVerified req)
      /\ Role written
         = (if (AdminUpdateUserRequest.Role req =? "")%string
            then Role user else AdminUpdateUserRequest.Role req).
Proof.
  intros Hrole. pose proof (not_super _ Hrole) as Hno. split.
  - intros v. unfold AdminService.UpdateUser.
    destruct (AdminService.IsAdmin adminUser); step; [|reflexivity].
    destruct (repository.GetByID userID (w_db w)) as [user|];
      [|reflexivity].
    rewrite Hno.
    destruct req as [f l e a ver adm role b ws loc]; simpl.
    destruct adm, v; reflexivity.
  - intros user Hpriv Hget Hflag Hvalid written.
    assert (Hsave : AdminService.UpdateUser adminUser userID req w
                    = repository.save written w).
    { unfold AdminService.UpdateUser. rewrite Hpriv. step.
      rewrite Hget, Hflag, Hno. step.
      assert (Hsame :
                match AdminUpdateUserRequest.IsAdmin req with
                | Some _ => AdminService.assign_fields req user
                | None => AdminService.assign_fields req user
                end = AdminService.assign_fields req user)
        by (destruct (AdminUpdateUserRequest.IsAdmin req); reflexivity).
      rewrite Hsame. subst written.
      destruct Hvalid as [Hr|[Hr|Hr]]; rewrite Hr; reflexivity. }
    split; [exact Hsave|].
    rewrite Hsave, save_writes. cbn [fst snd].
    split; [|split; [|split; [reflexivity|]]].
    + destruct (repository.Update written (w_db w)) as [[saved [e|]] db'];
        reflexivity.
    + destruct (repository.Update written (w_db w)) as [[saved [e|]] db'];
        cbn [fst repository.returned]; [|discriminate].
      destruct e; discriminate.
    + subst written.
      destruct req as [f l e a ver adm role b ws loc]; simpl in *.
      destruct (role =? "")%string, a, ver; simpl; repeat split.
Qed.

End Policy.

(** ** The policy on the sample accounts *)

Lemma flag_only_admin_promote_denied_list_allowed_witness :
  models.IsAdmin sample.flagged = true
  /\ models.Role sample.flagged <> "admin"
  /\ AdminService.PromoteToAdmin sample.flagged 2%N sample.world
     = (Err ErrNotAuthorized, sample.world)
  /\ fst (AdminService.GetAllUsers sample.flagged 2 1 sample.world)
     = Ok [sample.john; sample.jane].
Proof.
  assert (H1 : models.IsAdmin sample.flagged = true) by reflexivity.
  assert (H2 : models.Role sample.flagged <> "admin") by discriminate.
  destruct (flag_only_admin_promote_denied_list_allowed
              sample.flagged 2%N 2 1 sample.world H1 H2) as (Hp & Hl & _).
  split; [exact H1|]. split; [exact H2|]. split; [exact Hp|].
  rewrite Hl. reflexivity.
Defined.

Lemma flagged_target_is_out_of_reach_witness :
  AdminService.IsAdmin sample.flagged = true
  /\ models.Role sample.flagged <> "admin"
  /\ repository.GetByID 1%N sample.users = Ok sample.admin
  /\ models.IsAdmin sample.admin = true
  /\ AdminService.UpdateUser sample.flagged 1%N sample.rename_john sample.world
     = (Err ErrNotAuthorized, sample.world)
  /\ AdminService.DeactivateUser sample.flagged 1%N sample.world
     = (Err ErrNotAuthorized, sample.world)
  /\ AdminService.DeleteUser sample.flagged 1%N sample.world
     = (Some ErrNotAuthorized, sample.world).
Proof.
  assert (H1 : AdminService.IsAdmin sample.flagged = true) by reflexivity.
  assert (H2 : models.Role sample.flagged <> "admin") by discriminate.
  assert (H3 : repository.GetByID 1%N (w_db sample.world) = Ok sample.admin)
    by reflexivity.
  assert (H4 : models.IsAdmin sample.admin = true) by reflexivity.
  repeat (split; [assumption|]).
  exact (flagged_target_is_out_of_reach sample.flagged 1%N sample.rename_john
                                        sample.admin sample.world H1 H2 H3 H4).
Defined.

(** C2 as stated fails.  [ActivateUser] carries no check on the target: an
    actor holding the flag alone reactivates a deactivated administrator.
    And the check of the other operations reads the flag of the target
    only: the same actor deactivates an identity whose role is [admin] and
    whose flag is unset. *)
Lemma privileged_target_modified_by_flag_only_admin :
  AdminService.IsAdmin sample.flagged = true
  /\ models.Role sample.flagged <> "admin"
  /\ repository.GetByID 6%N sample.users = Ok sample.retired
  /\ AdminService.IsAdmin sample.retired = true
  /\ fst (AdminService.ActivateUser sample.flagged 6%N sample.world)
     = Ok (models.set_IsActive true sample.retired)
  /\ repository.GetByID
       6%N (w_db (snd (AdminService.ActivateUser sample.flagged 6%N
                                                  sample.world)))
     = Ok (models.set_IsActive true sample.retired)
  /\ models.set_IsActive true sample.retired <> sample.retired
  /\ repository.GetByID 7%N sample.users = Ok sample.unflagged
  /\ AdminService.IsAdmin sample.unflagged = true
  /\ fst (AdminService.DeactivateUser sample.flagged 7%N sample.world)
     = Ok (models.set_IsActive false sample.unflagged).
Proof.
  repeat split; try reflexivity; discriminate.
Qed.

Lemma self_target_is_refused_witness :
  models.Role sample.admin = "admin"
  /\ AdminService.DeactivateUser sample.admin 1%N sample.world
     = (Err (errors_New "cannot deactivate your own account"), sample.world)
  /\ AdminService.DeleteUser sample.admin 1%N sample.world
     = (Some (errors_New "cannot delete your own account"), sample.world)
  /\ AdminService.DemoteFromAdmin sample.admin 1%N sample.world
     = (Err (errors_New "cannot demote your own account"), sample.world).
Proof.
  destruct (self_target_is_refused sample.admin sample.world GetByID_key)
    as (_ & _ & _ & H & _).
  split; [reflexivity|].
  apply H; [reflexivity | exists sample.admin; reflexivity].
Defined.

(** The administrator who holds the flag without the role and targets
    itself is stopped by the checks that come before the self-protection
    check, and receives [ErrNotAuthorized]. *)
Lemma self_target_answered_not_authorized :
  repository.GetByID 5%N sample.users = Ok sample.flagged
  /\ AdminService.DeactivateUser sample.flagged (models.ID sample.flagged)
                                 sample.world
     = (Err ErrNotAuthorized, sample.world)
  /\ AdminService.DeleteUser sample.flagged (models.ID sample.flagged)
                             sample.world
     = (Some ErrNotAuthorized, sample.world)
  /\ AdminService.DemoteFromAdmin sample.flagged (models.ID sample.flagged)
                                  sample.world
     = (Err ErrNotAuthorized, sample.world)
  /\ ErrNotAuthorized <> errors_New "cannot deactivate your own account"
  /\ ErrNotAuthorized <> errors_New "cannot delete your own account"
  /\ ErrNotAuthorized <> errors_New "cannot demote your own account".
Proof.
  repeat split; try reflexivity; discriminate.
Qed.

Lemma UpdateUser_drops_is_admin_silently_witness :
  models.Role sample.flagged <> "admin"
  /\ AdminService.IsAdmin sample.flagged = true
  /\ repository.GetByID 2%N sample.users = Ok sample.john
  /\ models.IsAdmin sample.john = false
  /\ models.AdminUpdateUserRequest.IsAdmin sample.rename_john = Some true
  /\ fst (AdminService.UpdateUser sample.flagged 2%N sample.rename_john
                                  sample.world)
     = Ok (models.mkUser 2%N 0 0 None "johnny@example.com"
                         "$2a$10$00$admin123" "Johnny" "Doe" true false
                         false "moderator" None None None (Some "hello")
                         None None None None)
  /\ repository.GetByID
       2%N (w_db (snd (AdminService.UpdateUser
                         sample.flagged 2%N sample.rename_john
                         sample.world)))
     = Ok (models.mkUser 2%N 0 0 None "johnny@example.com"
                         "$2a$10$00$admin123" "Johnny" "Doe" true false
                         false "moderator" None None None (Some "hello")
                         None None None None).
Proof.
  assert (H1 : models.Role sample.flagged <> "admin") by discriminate.
  destruct (UpdateUser_drops_is_admin_silently
              sample.flagged 2%N sample.rename_john sample.world H1)
    as [_ H].
  destruct (H sample.john eq_refl eq_refl eq_refl
              (or_intror (or_intror eq_refl)))
    as (_ & Hfst & _ & Hsnd & _).
  split; [exact H1|]. do 4 (split; [reflexivity|]).
  split; [rewrite Hfst | rewrite Hsnd]; reflexivity.
Defined.

(** ** Credentials *)

Section Credentials.

Import models.

Context {DB : Type} {R : repository.UserRepository DB}.
Context {P : Platform} {H : jwt.MAC} {B : bcrypt.Hasher}.

(** C9.  A login with an e-mail no identity has and a login with the
    e-mail of an identity and a password that does not match it give
    the caller the same result, [ErrInvalidCredentials] without token or
    user, and neither writes anything. *)
Theorem login_failures_are_indistinguishable
        (s : AuthService.t) (unknown wrong : LoginRequest.t)
        (w1 w2 : World DB) (e : db_error) (user : User) :
  repository.GetByEmail (LoginRequest.Email unknown) (w_db w1) = Err e ->
  repository.GetByEmail (LoginRequest.Email wrong) (w_db w2) = Ok user ->
  bcrypt.matches (Password user) (LoginRequest.Password wrong) = false ->
  AuthService.Login s unknown w1 = (Err ErrInvalidCredentials, w1)
  /\ AuthService.Login s wrong w2 = (Err ErrInvalidCredentials, w2)
  /\ fst (AuthService.Login s unknown w1)
     = fst (AuthService.Login s wrong w2).
Proof.
  intros Hunknown Hknown Hwrong.
  assert (H1 : AuthService.Login s unknown w1
               = (Err ErrInvalidCredentials, w1)).
  { unfold AuthService.Login. step. now rewrite Hunknown. }
  assert (H2 : AuthService.Login s wrong w2
               = (Err ErrInvalidCredentials, w2)).
  { unfold AuthService.Login, bcrypt.CompareHashAndPassword. step.
    now rewrite Hknown, Hwrong. }
  rewrite H1, H2. repeat split.
Qed.

End Credentials.

Lemma login_failures_are_indistinguishable_witness :
  repository.GetByEmail "nobody@example.com" sample.users
  = Err ErrRecordNotFound
  /\ repository.GetByEmail "john.doe@example.com" sample.users = Ok sample.john
  /\ bcrypt.matches (models.Password sample.john) "wrong-password" = false
  /\ fst (AuthService.Login
            sample.authService
            (models.LoginRequest.mk "nobody@example.com" "admin123")
            sample.world)
     = fst (AuthService.Login
              sample.authService
              (models.LoginRequest.mk "john.doe@example.com" "wrong-password")
              sample.world).
Proof.
  assert (H1 : repository.GetByEmail "nobody@example.com" (w_db sample.world)
               = Err ErrRecordNotFound) by reflexivity.
  assert (H2 : repository.GetByEmail "john.doe@example.com"
                                     (w_db sample.world) = Ok sample.john)
    by reflexivity.
  assert (H3 : bcrypt.matches (models.Password sample.john) "wrong-password"
               = false) by reflexivity.
  repeat (split; [assumption|]).
  exact (proj2 (proj2 (login_failures_are_indistinguishable
                         sample.authService
                         (models.LoginRequest.mk "nobody@example.com"
                                                 "admin123")
                         (models.LoginRequest.mk "john.doe@example.com"
                                                 "wrong-password")
                         sample.world sample.world ErrRecordNotFound
                         sample.john H1 H2 H3))).
Defined.

(** The sample accounts log in with the password of the seeding command. *)
Example login_succeeds :
  exists token,
    fst (AuthService.Login
           sample.authService
           (models.LoginRequest.mk "john.doe@example.com" "admin123")
           sample.world)
    = Ok (token, models.set_LastLoginAt (Some sample.noon) sample.john).
Proof. eexists. vm_compute. reflexivity. Qed.

(** ** Strings in JSON *)

(** A string that is valid UTF-8 is written and read back as it is. *)
Lemma text_valid (s : string) (pending : nat) :
  utf8.valid pending s = true -> json.text pending s = s.
Proof.
  revert pending. induction s as [|c s IH]; intros pending; [reflexivity|].
  cbn [utf8.valid json.text].
  destruct pending as [|pending]; [|intros Hv; now rewrite IH].
  destruct (utf8.width (String c s)) as [|n]; [discriminate|].
  intros Hv. now rewrite IH.
Qed.

Lemma String_valid (s : string) :
  utf8.ValidString s = true -> json.String_ s = s.
Proof. apply text_valid. Qed.

(** The width of an encoding is read off the bytes it spans, which are
    written as they are. *)
Lemma width_text (c : Ascii.ascii) (s : string) (n : nat) :
  utf8.width (String c s) = S n ->
  utf8.width (String c (json.text n s)) = S n.
Proof.
  unfold utf8.width.
  destruct (utf8.byte c <? 128)%N; [now intros [= <-]|].
  destruct (utf8.within 194 223 c).
  { destruct s as [|c1 s]; [discriminate|].
    destruct (utf8.within 128 191 c1) eqn:E1; [|discriminate].
    intros [= <-]. cbn [json.text]. now rewrite E1. }
  destruct (utf8.within 224 239 c).
  { destruct s as [|c1 [|c2 s]]; try discriminate.
    destruct (utf8.within _ _ c1 && utf8.within 128 191 c2) eqn:E;
      [|discriminate].
    intros [= <-]. cbn [json.text]. now rewrite E. }
  destruct (utf8.within 240 244 c); [|discriminate].
  destruct s as [|c1 [|c2 [|c3 s]]]; try discriminate.
  destruct (utf8.within _ _ c1 && utf8.within 128 191 c2
            && utf8.within 128 191 c3) eqn:E; [|discriminate].
  intros [= <-]. cbn [json.text]. now rewrite E.
Qed.

(** What is written is valid UTF-8, so that writing it again changes
    nothing. *)
Lemma valid_text (s : string) (pending : nat) :
  utf8.valid pending (json.text pending s) = true.
Proof.
  revert pending. induction s as [|c s IH]; intros pending; [reflexivity|].
  cbn [json.text]. destruct pending as [|pending]; [|apply IH].
  destruct (utf8.width (String c s)) as [|n] eqn:Ew.
  - change (utf8.valid 0 (json.text 0 s) = true). apply IH.
  - cbn [utf8.valid]. rewrite (width_text c s n Ew). apply IH.
Qed.

Lemma String_idempotent (s : string) :
  json.String_ (json.String_ s) = json.String_ s.
Proof. apply String_valid, valid_text. Qed.

(** ** Session tokens *)

Section Numbers.

(** An integer of at most 53 bits is read back as written. *)
Lemma float64_exact (n : Z) :
  Z.abs n <= 2 ^ 53 -> jwt.float64_of_literal n = Some n.
Proof.
  intros Hn. unfold jwt.float64_of_literal, jwt.round_to_53_bits.
  destruct (Z.abs n <? 2 ^ 53) eqn:E.
  - assert (Hlt : (Z.abs n <? 2 ^ 1024) = true).
    { apply Z.ltb_lt. apply Z.ltb_lt in E.
      assert (2 ^ 53 < 2 ^ 1024) by (apply Z.pow_lt_mono_r; lia). lia. }
    rewrite Hlt. f_equal. rewrite Z.mul_comm. apply Z.abs_sgn.
  - apply Z.ltb_ge in E. assert (Habs : Z.abs n = 2 ^ 53) by lia.
    rewrite Habs.
    replace (Z.log2 (2 ^ 53) - 52) with 1 by (rewrite Z.log2_pow2; lia).
    replace (2 ^ 53 / 2 ^ 1) with (2 ^ 52) by reflexivity.
    replace (2 ^ 53 mod 2 ^ 1) with 0 by reflexivity.
    replace ((2 ^ (1 - 1) <? 0) || ((0 =? 2 ^ (1 - 1)) && Z.odd (2 ^ 52)))
      with false by reflexivity.
    replace (2 ^ 52 * 2 ^ 1) with (2 ^ 53) by reflexivity.
    replace (2 ^ 53 <? 2 ^ 1024) with true by reflexivity.
    f_equal. rewrite <- Habs, Z.mul_comm. apply Z.abs_sgn.
Qed.

Lemma Unix_add_seven_days (t : Z) :
  AuthService.Unix (t + AuthService.seven_days)
  = AuthService.Unix t + 7 * 24 * 3600.
Proof.
  unfold AuthService.Unix, AuthService.seven_days.
  replace (t + 3600 * 10 ^ 9 * 24 * 7) with (t + 7 * 24 * 3600 * 10 ^ 9)
    by lia.
  rewrite Z.div_add by lia. reflexivity.
Qed.

Lemma Unix_bounds (t : Z) :
  0 <= t < 2 ^ 62 -> 0 <= AuthService.Unix t < 2 ^ 33.
Proof.
  intros [H0 H1]. unfold AuthService.Unix. split.
  - apply Z.div_pos; lia.
  - apply Z.div_lt_upper_bound; [lia|].
    assert (2 ^ 62 <= 10 ^ 9 * 2 ^ 33) by (vm_compute; discriminate). lia.
Qed.

End Numbers.

Section Tokens.

Import models.

Context {DB : Type} {R : repository.UserRepository DB}.
Context {P : Platform} {H : jwt.MAC} {B : bcrypt.Hasher}.

Lemma GenerateJWT_issues (s : AuthService.t) (user : User) (w : World DB) :
  fst (AuthService.GenerateJWT s user w)
  = Ok (jwt.segments
          "HS256" (AuthService.issued_claims user (w_now w) (second_reading w))
          (jwt.hmac_sum jwt.SHA256 (AuthService.jwtSecret s)
                        ("HS256",
                         AuthService.issued_claims user (w_now w)
                                                   (second_reading w)))).
Proof.
  unfold AuthService.GenerateJWT, AuthService.issued_claims, second_reading.
  step.
  unfold time_Now. cbn [w_now w_ticks fst snd].
  rewrite Unix_add_seven_days. reflexivity.
Qed.

Lemma issued_claims_read (user : User) (t_exp t_iat : Z) :
  (ID user <= 2 ^ 53)%N ->
  0 <= t_exp < 2 ^ 62 -> 0 <= t_iat < 2 ^ 62 ->
  jwt.Unmarshal (AuthService.issued_claims user t_exp t_iat)
  = Some (AuthService.issued_claims user t_exp t_iat).
Proof.
  intros Hid Hexp Hiat.
  pose proof (Unix_bounds _ Hexp) as Be. pose proof (Unix_bounds _ Hiat) as Bi.
  assert (Hpow : 2 ^ 33 + 7 * 24 * 3600 <= 2 ^ 53)
    by (vm_compute; discriminate).
  assert (E1 : jwt.float64_of_literal (Z.of_N (ID user))
               = Some (Z.of_N (ID user))).
  { apply float64_exact. change (2 ^ 53) with (Z.of_N (2 ^ 53)). lia. }
  assert (E2 : jwt.float64_of_literal (AuthService.Unix t_exp + 7 * 24 * 3600)
               = Some (AuthService.Unix t_exp + 7 * 24 * 3600))
    by (apply float64_exact; lia).
  assert (E3 : jwt.float64_of_literal (AuthService.Unix t_iat)
               = Some (AuthService.Unix t_iat))
    by (apply float64_exact; lia).
  unfold jwt.Unmarshal, AuthService.issued_claims. case_decide as Hall.
  - f_equal. rewrite !fmap_insert, fmap_empty. cbn [jwt.read_value].
    rewrite E1, E2, E3, String_idempotent. reflexivity.
  - exfalso. apply Hall.
    repeat apply map_Forall_insert_2; try apply map_Forall_empty;
      cbn [jwt.readable];
      first [exact I | rewrite E1 | rewrite E2 | rewrite E3];
      eauto.
Qed.


Lemma HMAC_names (alg : string) (h : jwt.Hash) :
  jwt.GetSigningMethod alg = Some (jwt.SigningMethodHMAC h) ->
  alg = "HS256" \/ alg = "HS384" \/ alg = "HS512".
Proof.
  unfold jwt.GetSigningMethod. intros Hfind.
  apply find_some in Hfind as [_ Halg]. apply String.eqb_eq in Halg.
  subst alg. destruct h; cbn; auto.
Qed.

(** C8, as amended.  A token whose header declares an algorithm outside
    the HMAC family ([HS256], [HS384], [HS512]) is answered
    [ErrInvalidToken], whatever its claims and signature, before the
    clock is read or a claim is looked at: the world is left as it
    was. *)
Theorem non_HMAC_algorithm_is_rejected
        (s : AuthService.t) (alg : string) (claims : jwt.MapClaims)
        (signature : string) (w : World DB) :
  alg <> "HS256" -> alg <> "HS384" -> alg <> "HS512" ->
  AuthService.ValidateJWT s (jwt.segments alg claims signature) w
  = (Err ErrInvalidToken, w).
Proof.
  intros H256 H384 H512.
  unfold AuthService.ValidateJWT, jwt.Parse. step.
  destruct (jwt.Unmarshal claims) as [read|]; [|reflexivity].
  destruct (jwt.GetSigningMethod alg) as [m|] eqn:Em; [|reflexivity].
  destruct m as [h| | | | |]; try reflexivity.
  apply HMAC_names in Em. tauto.
Qed.


Lemma ValidateJWT_issued (s : AuthService.t) (user : User)
      (t_exp t_iat : Z) (w : World DB) :
  (ID user <= 2 ^ 53)%N ->
  0 <= t_exp < 2 ^ 62 -> 0 <= t_iat < 2 ^ 62 ->
  w_now w < (AuthService.Unix t_exp + 7 * 24 * 3600) * 10 ^ 9 ->
  exists w',
    AuthService.ValidateJWT
      s (jwt.segments
           "HS256" (AuthService.issued_claims user t_exp t_iat)
           (jwt.hmac_sum jwt.SHA256 (AuthService.jwtSecret s)
                         ("HS256",
                          AuthService.issued_claims user t_exp t_iat))) w
    = (Ok (JWTClaims.mk (ID user) (json.String_ (Email user))), w')
    /\ w_db w' = w_db w.
Proof.
  intros Hid Hexp Hiat Hfresh.
  pose proof (Unix_bounds _ Hexp) as Be.
  unfold AuthService.ValidateJWT, jwt.Parse. step.
  rewrite (issued_claims_read user t_exp t_iat Hid Hexp Hiat).
  change (jwt.GetSigningMethod "HS256")
    with (Some (jwt.SigningMethodHMAC jwt.SHA256)).
  cbn [AuthService.keyFunc jwt.Method jwt.Verify].
  rewrite String.eqb_refl. step. cbn [time_Now fst snd].
  assert (Hvalid : jwt.Validate (AuthService.issued_claims user t_exp t_iat)
                                (w_now w)
                   = true).
  { unfold jwt.Validate, jwt.verifyExpiresAt, jwt.verifyNotBefore,
      jwt.parseNumericDate, AuthService.issued_claims.
    rewrite !lookup_insert_ne, lookup_insert_eq by done.
    rewrite !lookup_insert_ne, lookup_empty by done.
    destruct (AuthService.Unix t_exp + 7 * 24 * 3600 =? 0) eqn:E0;
      [apply Z.eqb_eq in E0; lia|].
    unfold jwt.newNumericDateFromSeconds.
    assert (2 ^ 33 + 7 * 24 * 3600 <= 2 ^ 62) by (vm_compute; discriminate).
    replace ((- 2 ^ 62 <=? AuthService.Unix t_exp + 7 * 24 * 3600)
             && (AuthService.Unix t_exp + 7 * 24 * 3600 <=? 2 ^ 62))
      with true
      by (symmetry; apply andb_true_iff; split; apply Z.leb_le; lia).
    rewrite andb_true_r. now apply Z.ltb_lt. }
  rewrite Hvalid. cbn [jwt.Valid jwt.Claims].
  unfold AuthService.issued_claims at 1.
  rewrite lookup_insert_eq. unfold AuthService.issued_claims at 1.
  rewrite lookup_insert_ne, lookup_insert_eq by done.
  unfold jwt.uint_of_float64.
  replace ((0 <=? Z.of_N (ID user)) && (Z.of_N (ID user) <? 2 ^ 64))
    with true.
  - rewrite N2Z.id. eexists. split; reflexivity.
  - symmetry. apply andb_true_iff. split; [apply Z.leb_le; lia|].
    apply Z.ltb_lt.
    assert (Z.of_N (ID user) <= Z.of_N (2 ^ 53)) by lia.
    assert (Z.of_N (2 ^ 53) < 2 ^ 64) by (vm_compute; reflexivity). lia.
Qed.

(** C7, as amended.  For an identity whose ID is at most 2^53 and whose
    e-mail is valid UTF-8, a token issued while the clock reads an
    instant between 1970 and 2^62 nanoseconds later validates, under the
    same secret and at any instant before its expiry, to claims carrying
    the ID and the e-mail of the identity; and the authentication
    middleware then lets a request bearing it through as the stored
    identity of that ID, provided that identity is active. *)
Theorem validate_after_issue (s : AuthService.t) (user : User)
        (w w' : World DB) :
  (ID user <= 2 ^ 53)%N ->
  utf8.ValidString (Email user) = true ->
  0 <= w_now w ->
  second_reading w < 2 ^ 62 ->
  w_now w' < (AuthService.Unix (w_now w) + 7 * 24 * 3600) * 10 ^ 9 ->
  exists token,
    fst (AuthService.GenerateJWT s user w) = Ok token
    /\ fst (AuthService.ValidateJWT s token w')
       = Ok (JWTClaims.mk (ID user) (Email user))
    /\ forall stored,
        repository.GetByID (ID user) (w_db w') = Ok stored ->
        IsActive stored = true ->
        fst (middleware.AuthMiddleware
               s (middleware.mkRequest (Some token) None) w')
        = middleware.Next stored.
Proof.
  intros Hid Hutf Hnow Hlate Hfresh.
  assert (Hexp : 0 <= w_now w < 2 ^ 62)
    by (unfold second_reading in Hlate; lia).
  assert (Hiat : 0 <= second_reading w < 2 ^ 62)
    by (unfold second_reading in *; lia).
  destruct (ValidateJWT_issued s user (w_now w) (second_reading w) w'
                               Hid Hexp Hiat Hfresh) as (w'' & Hv & Hdb).
  rewrite (String_valid _ Hutf) in Hv.
  eexists. split; [apply GenerateJWT_issues|]. split.
  - now rewrite Hv.
  - intros stored Hget Hactive.
    unfold middleware.AuthMiddleware, middleware.authenticate.
    cbn [middleware.bearer].
    step. rewrite Hv. cbn [JWTClaims.UserID].
    unfold AuthService.GetUserByID. step. rewrite Hdb, Hget, Hactive.
    reflexivity.
Qed.

End Tokens.

(** ** Tokens on the sample accounts *)

Lemma non_HMAC_algorithm_is_rejected_witness :
  "none" <> "HS256" /\ "none" <> "HS384" /\ "none" <> "HS512"
  /\ AuthService.ValidateJWT
       sample.authService
       (jwt.segments "none" (sample.john_claims 1893456000) "") sample.world
     = (Err ErrInvalidToken, sample.world).
Proof.
  assert (H1 : "none" <> "HS256") by discriminate.
  assert (H2 : "none" <> "HS384") by discriminate.
  assert (H3 : "none" <> "HS512") by discriminate.
  repeat (split; [assumption|]).
  exact (non_HMAC_algorithm_is_rejected
           sample.authService "none" (sample.john_claims 1893456000) ""
           sample.world H1 H2 H3).
Defined.

(** C8 as stated fails.  The key function accepts every method of the HMAC
    family, not only the one tokens are issued with: a token that declares
    [HS512] and carries the HMAC-SHA512 of its signing input under the
    server's secret validates. *)
Lemma HS512_token_is_accepted :
  jwt.Alg (jwt.SigningMethodHMAC jwt.SHA512) = "HS512"
  /\ "HS512" <> jwt.Alg jwt.SigningMethodHS256
  /\ fst (AuthService.ValidateJWT
            sample.authService
            (sample.signed jwt.SHA512 (sample.john_claims 1893456000))
            sample.world)
     = Ok (models.JWTClaims.mk 2%N "john.doe@example.com").
Proof.
  split; [reflexivity|]. split; [discriminate|]. vm_compute. reflexivity.
Qed.



Lemma validate_after_issue_witness :
  (models.ID sample.john <= 2 ^ 53)%N
  /\ utf8.ValidString (models.Email sample.john) = true
  /\ 0 <= w_now sample.world
  /\ second_reading sample.world < 2 ^ 62
  /\ w_now (sample.world_at (sample.noon + 3600 * 10 ^ 9))
     < (AuthService.Unix (w_now sample.world) + 7 * 24 * 3600) * 10 ^ 9
  /\ exists token,
      fst (AuthService.GenerateJWT sample.authService sample.john
                                   sample.world) = Ok token
      /\ fst (AuthService.ValidateJWT
                sample.authService token
                (sample.world_at (sample.noon + 3600 * 10 ^ 9)))
         = Ok (models.JWTClaims.mk 2%N "john.doe@example.com")
      /\ fst (middleware.AuthMiddleware
                sample.authService
                (middleware.mkRequest (Some token) None)
                (sample.world_at (sample.noon + 3600 * 10 ^ 9)))
         = middleware.Next sample.john.
Proof.
  assert (H1 : (models.ID sample.john <= 2 ^ 53)%N)
    by (vm_compute; discriminate).
  assert (H0 : utf8.ValidString (models.Email sample.john) = true)
    by (vm_compute; reflexivity).
  assert (H2 : 0 <= w_now sample.world) by (vm_compute; discriminate).
  assert (H3 : second_reading sample.world < 2 ^ 62)
    by (vm_compute; reflexivity).
  assert (H4 : w_now (sample.world_at (sample.noon + 3600 * 10 ^ 9))
               < (AuthService.Unix (w_now sample.world) + 7 * 24 * 3600)
                 * 10 ^ 9) by (vm_compute; reflexivity).
  repeat (split; [assumption|]).
  destruct (validate_after_issue
              sample.authService sample.john sample.world
              (sample.world_at (sample.noon + 3600 * 10 ^ 9))
              H1 H0 H2 H3 H4)
    as (token & Hissue & Hvalid & Hmw).
  exists token. split; [exact Hissue|]. split; [exact Hvalid|].
  apply Hmw; reflexivity.
Defined.

(** C7 as stated fails.  The subject ID travels as a JSON number and is
    read back as a binary64 value: the identity with ID 2^53 + 1 is issued
    a token that validates to the ID 2^53. *)
Lemma large_id_does_not_round_trip :
  models.ID sample.huge = (2 ^ 53 + 1)%N
  /\ exists token,
      fst (AuthService.GenerateJWT sample.authService sample.huge
                                   sample.world) = Ok token
      /\ fst (AuthService.ValidateJWT sample.authService token sample.world)
         = Ok (models.JWTClaims.mk (2 ^ 53)%N (models.Email sample.huge))
      /\ (2 ^ 53)%N <> models.ID sample.huge.
Proof.
  split; [reflexivity|]. eexists.
  split; [vm_compute; reflexivity|].
  split; [vm_compute; reflexivity | discriminate].
Qed.

(** The e-mail travels as a JSON string, and [encoding/json] writes
    U+FFFD for every byte that is not part of a well-formed UTF-8
    sequence: the identity whose e-mail starts with the byte 255 is
    issued a token that validates to an e-mail starting with the three
    bytes of U+FFFD. *)
Lemma ill_formed_email_does_not_round_trip :
  utf8.ValidString (models.Email sample.garbled) = false
  /\ exists token,
      fst (AuthService.GenerateJWT sample.authService sample.garbled
                                   sample.world) = Ok token
      /\ fst (AuthService.ValidateJWT sample.authService token sample.world)
         = Ok (models.JWTClaims.mk
                 (models.ID sample.garbled)
                 (utf8.RuneError ++ "@example.com"))
      /\ utf8.RuneError ++ "@example.com" <> models.Email sample.garbled.
Proof.
  split; [reflexivity|]. eexists.
  split; [vm_compute; reflexivity|].
  split; [vm_compute; reflexivity | discriminate].
Qed.

(** ** Agreement of the two admin signals *)

Section Consistency.

Import models.

Context {DB : Type} {R : repository.UserRepository DB}.
Context {P : Platform} {H : jwt.MAC} {B : bcrypt.Hasher}.
Context (good : DB -> Prop) {K : system.Preserves good}.

Lemma kept_error (e : error) (w : World DB) :
  good (w_db w) -> system.kept good (Err e, w).
Proof. intros Hg. split; [exact Hg | discriminate]. Qed.

Lemma kept_found (u : User) (w : World DB) :
  good (w_db w) -> system.consistent u -> system.kept good (Ok u, w).
Proof. intros Hg Hu. split; [exact Hg | now intros ? [= <-]]. Qed.

Lemma kept_save (u : User) (w : World DB) :
  good (w_db w) -> system.consistent u ->
  system.kept good (repository.save u w).
Proof.
  intros Hg Hu. destruct (system.good_Update u (w_db w) Hg Hu) as [Hg' Hu'].
  unfold repository.save, system.kept. step.
  destruct (repository.Update u (w_db w)) as [[u' [e|]] db']; cbn in *;
    (split; [exact Hg'|]); [discriminate | now intros ? [= <-]].
Qed.

Lemma kept_create (u : User) (w : World DB) :
  good (w_db w) -> system.consistent u ->
  system.kept good (let (r, w') := command (repository.Create u) w in
        (OAuthService.created r, w')).
Proof.
  intros Hg Hu. destruct (system.good_Create u (w_db w) Hg Hu) as [Hg' Hu'].
  unfold system.kept, command.
  destruct (repository.Create u (w_db w)) as [[u'|e] db']; cbn in *;
    (split; [exact Hg'|]); [|discriminate].
  intros ? [= <-]. now apply Hu'.
Qed.

(** A record without the flag is consistent, whatever its role; so is a
    record with the [admin] role, and one that differs from a consistent
    record in neither signal. *)
Lemma consistent_unflagged (u : User) :
  IsAdmin u = false -> system.consistent u.
Proof. unfold system.consistent. intros ->. discriminate. Qed.

Lemma consistent_admin (u : User) : Role u = "admin" -> system.consistent u.
Proof. unfold system.consistent. auto. Qed.

Lemma consistent_frame (u u' : User) :
  IsAdmin u' = IsAdmin u -> Role u' = Role u ->
  system.consistent u -> system.consistent u'.
Proof. unfold system.consistent. intros -> ->. auto. Qed.

Lemma assign_fields_frame (req : AdminUpdateUserRequest.t) (u : User) :
  IsAdmin (AdminService.assign_fields req u) = IsAdmin u
  /\ Role (AdminService.assign_fields req u) = Role u.
Proof.
  unfold AdminService.assign_fields.
  destruct (AdminUpdateUserRequest.IsActive req),
    (AdminUpdateUserRequest.IsVerified req); split; reflexivity.
Qed.

Lemma backfill_avatar_frame (picture : string) (u : User) :
  IsAdmin (OAuthService.backfill_avatar picture u) = IsAdmin u
  /\ Role (OAuthService.backfill_avatar picture u) = Role u.
Proof.
  unfold OAuthService.backfill_avatar.
  destruct (AvatarURL u) as [url|]; [destruct (url =? "")%string|];
    split; reflexivity.
Qed.

Lemma GenerateJWT_reads_only (s : AuthService.t) (u : User) (w : World DB) :
  exists token w',
    AuthService.GenerateJWT s u w = (Ok token, w') /\ w_db w' = w_db w.
Proof.
  unfold AuthService.GenerateJWT. step. cbn. eauto.
Qed.

(** Flag and role of the record [UpdateUser] has in hand once it has
    decided on the flag. *)
Lemma decided_flag (req : AdminUpdateUserRequest.t) (user : User)
      (super : bool) :
  let decided :=
    match AdminUpdateUserRequest.IsAdmin req with
    | Some b =>
      if super then set_IsAdmin b (AdminService.assign_fields req user)
      else AdminService.assign_fields req user
    | None => AdminService.assign_fields req user
    end in
  Role decided = Role user
  /\ IsAdmin decided
     = (if super
        then default (IsAdmin user) (AdminUpdateUserRequest.IsAdmin req)
        else IsAdmin user).
Proof.
  destruct (assign_fields_frame req user) as [Fa Fr].
  destruct (AdminUpdateUserRequest.IsAdmin req) as [b|], super; cbn;
    auto.
Qed.

Lemma UpdateUser_kept (adminUser : User) (userID : uint)
      (req : AdminUpdateUserRequest.t) (w : World DB) :
  good (w_db w) ->
  system.agrees (system.UpdateUser adminUser userID req) ->
  system.kept good (AdminService.UpdateUser adminUser userID req w).
Proof.
  intros Hg Hagree. unfold AdminService.UpdateUser.
  destruct (AdminService.IsAdmin adminUser); cbn [negb];
    [|now apply kept_error].
  unfold bind at 1, query.
  destruct (repository.GetByID userID (w_db w)) as [user|] eqn:Eget;
    [|now apply kept_error].
  pose proof (system.good_GetByID _ _ _ Hg Eget) as Huser.
  destruct (IsAdmin user && negb (Role adminUser =? "admin")%string)
           eqn:Eguard; [now apply kept_error|].
  assert (Hreach : (Role adminUser =? "admin")%string = false ->
                   IsAdmin user = false).
  { intros E. rewrite E in Eguard. now destruct (IsAdmin user). }
  destruct (decided_flag req user (Role adminUser =? "admin")%string)
    as [Drole Dflag].
  set (decided := match AdminUpdateUserRequest.IsAdmin req with
                  | Some b => _
                  | None => _
                  end) in *.
  clearbody decided. cbn in Hagree.
  destruct (AdminUpdateUserRequest.Role req =? "")%string eqn:Erole.
  - (* the role is left alone *)
    apply String.eqb_eq in Erole. apply kept_save; [exact Hg|].
    destruct (Role adminUser =? "admin")%string eqn:Esuper.
    + apply String.eqb_eq in Esuper.
      destruct Hagree as [Ha|[Ha|[Ha|[Ha Hb]]]].
      * contradiction.
      * apply consistent_unflagged. now rewrite Dflag, Ha.
      * congruence.
      * apply (consistent_frame user); [|exact Drole|exact Huser].
        now rewrite Dflag, Ha.
    + now apply (consistent_frame user).
  - (* a role is assigned *)
    apply String.eqb_neq in Erole.
    destruct (AdminService.validRoles _); cbn [negb];
      [|now apply kept_error].
    destruct ((AdminUpdateUserRequest.Role req =? "admin")%string
              && negb (Role adminUser =? "admin")%string);
      [now apply kept_error|].
    apply kept_save; [exact Hg|].
    destruct (string_dec (AdminUpdateUserRequest.Role req) "admin")
      as [Eadm|Nadm]; [now apply consistent_admin|].
    apply consistent_unflagged. cbn. rewrite Dflag.
    destruct (Role adminUser =? "admin")%string eqn:Esuper;
      [|now apply Hreach].
    apply String.eqb_eq in Esuper.
    destruct Hagree as [Ha|[Ha|[Ha|[Ha Hb]]]]; try contradiction.
    now rewrite Ha.
Qed.

Lemma Register_kept (s : AuthService.t) (req : RegisterRequest.t)
      (w : World DB) :
  good (w_db w) -> system.kept good (AuthService.Register s req w).
Proof.
  intros Hg. unfold AuthService.Register. unfold bind at 1, query.
  destruct (repository.GetByEmail _ _); [now apply kept_error|].
  unfold bcrypt.GenerateFromPassword, rand_Read.
  cbv beta iota delta [bind ret].
  destruct (bcrypt.hash _ _) as [digest|failure]; [|now apply kept_error].
  apply kept_create; [exact Hg|]. now apply consistent_unflagged.
Qed.

Lemma Login_kept (s : AuthService.t) (req : LoginRequest.t) (w : World DB) :
  good (w_db w) -> system.kept good (system.run s (system.Login req) w).
Proof.
  intros Hg. unfold system.run, AuthService.Login.
  cbv beta iota delta [bind ret query].
  destruct (repository.GetByEmail _ _) as [user|] eqn:Eget;
    [|now apply kept_error].
  pose proof (system.good_GetByEmail _ _ _ Hg Eget) as Huser.
  destruct (bcrypt.CompareHashAndPassword _ _); [now apply kept_error|].
  unfold time_Now, command. cbn [w_db w_now w_ticks w_entropy].
  assert (Hstamped : system.consistent
                       (set_LastLoginAt (Some (w_now w)) user))
    by (now apply (consistent_frame user)).
  destruct (system.good_Update _ (w_db w) Hg Hstamped) as [Hg' Hu'].
  destruct (repository.Update _ (w_db w)) as [saved db'].
  cbn [fst snd] in *.
  match goal with
  | |- context [AuthService.GenerateJWT s ?u ?w1] =>
    destruct (GenerateJWT_reads_only s u w1) as (token & w2 & E & Edb);
      rewrite E
  end.
  split; cbn [fst snd]; [now rewrite Edb|]. now intros ? [= <-].
Qed.

Lemma UpdateProfile_kept (s : AuthService.t) (userID : uint)
      (req : UpdateProfileRequest.t) (w : World DB) :
  good (w_db w) -> system.kept good (AuthService.UpdateProfile s userID req w).
Proof.
  intros Hg. unfold AuthService.UpdateProfile. unfold bind at 1, query.
  destruct (repository.GetByID _ _) as [user|] eqn:Eget;
    [|now apply kept_error].
  pose proof (system.good_GetByID _ _ _ Hg Eget) as Huser.
  apply kept_save; [exact Hg|]. now apply (consistent_frame user).
Qed.

Lemma findOrCreateGoogleUser_kept (profile : OAuthService.GoogleUser.t)
      (w : World DB) :
  good (w_db w) ->
  system.kept good (OAuthService.findOrCreateGoogleUser profile w).
Proof.
  intros Hg. unfold OAuthService.findOrCreateGoogleUser.
  unfold bind at 1, query.
  destruct (repository.GetByGoogleID _ _) as [user|] eqn:Eid.
  { apply kept_found; [exact Hg|].
    exact (system.good_GetByGoogleID _ _ _ Hg Eid). }
  unfold bind at 1.
  destruct (repository.GetByEmail _ _) as [user|] eqn:Eemail.
  - pose proof (system.good_GetByEmail _ _ _ Hg Eemail) as Huser.
    apply kept_save; [exact Hg|].
    destruct (backfill_avatar_frame
                (OAuthService.GoogleUser.Picture profile)
                (set_GoogleID
                   (OAuthService.stringPtr
                      (OAuthService.GoogleUser.ID profile)) user))
      as [Fa Fr].
    now apply (consistent_frame user).
  - apply kept_create; [exact Hg|]. now apply consistent_unflagged.
Qed.

Lemma findOrCreateGitHubUser_kept (profile : OAuthService.GitHubUser.t)
      (w : World DB) :
  good (w_db w) ->
  system.kept good (OAuthService.findOrCreateGitHubUser profile w).
Proof.
  intros Hg. unfold OAuthService.findOrCreateGitHubUser.
  unfold bind at 1, query.
  destruct (repository.GetByGitHubID _ _) as [user|] eqn:Eid.
  { apply kept_found; [exact Hg|].
    exact (system.good_GetByGitHubID _ _ _ Hg Eid). }
  assert (Hcreate :
            system.kept good (let (r, w') :=
                    command (repository.Create
                               (OAuthService.newGitHubUser
                                  (OAuthService.Sprintf_d
                                     (OAuthService.GitHubUser.ID profile))
                                  profile)) w in
                  (OAuthService.created r, w'))).
  { apply kept_create; [exact Hg|]. now apply consistent_unflagged. }
  destruct (OAuthService.GitHubUser.Email profile =? "")%string;
    [exact Hcreate|].
  unfold bind at 1.
  destruct (repository.GetByEmail _ _) as [user|] eqn:Eemail;
    [|exact Hcreate].
  pose proof (system.good_GetByEmail _ _ _ Hg Eemail) as Huser.
  apply kept_save; [exact Hg|].
  destruct (backfill_avatar_frame
              (OAuthService.GitHubUser.AvatarURL profile)
              (set_GitHubID
                 (OAuthService.stringPtr
                    (OAuthService.Sprintf_d
                       (OAuthService.GitHubUser.ID profile))) user))
    as [Fa Fr].
  now apply (consistent_frame user).
Qed.

(** C3, as amended.  On a repository that keeps records as written,
    starting from a table whose identities all have flag and role in
    agreement, every operation that writes an identity leaves such a
    table and hands back such an identity: [Register], [Login],
    [UpdateProfile], the two federation resolvers, [PromoteToAdmin],
    [DemoteFromAdmin], [ActivateUser] and [DeactivateUser] always, and
    [UpdateUser] when the actor is no super admin or the request clears
    the flag, assigns the [admin] role, or touches neither signal. *)
Theorem admin_signals_stay_consistent (s : AuthService.t) (op : system.Op)
        (w : World DB) :
  good (w_db w) ->
  system.agrees op ->
  good (w_db (snd (system.run s op w)))
  /\ forall u, fst (system.run s op w) = Ok u -> system.consistent u.
Proof.
  intros Hg Hagree. change (system.kept good (system.run s op w)).
  destruct op as [req|req|userID req|profile|profile|adminUser userID req
                  |adminUser userID|adminUser userID|adminUser userID
                  |adminUser userID].
  - now apply Register_kept.
  - now apply Login_kept.
  - now apply UpdateProfile_kept.
  - now apply findOrCreateGoogleUser_kept.
  - now apply findOrCreateGitHubUser_kept.
  - now apply UpdateUser_kept.
  - cbn [system.run]. unfold AdminService.PromoteToAdmin.
    destruct (negb _ || negb _); [now apply kept_error|].
    unfold bind at 1, query.
    destruct (repository.GetByID _ _) as [user|] eqn:Eget;
      [|now apply kept_error].
    apply kept_save; [exact Hg|]. now apply consistent_admin.
  - cbn [system.run]. unfold AdminService.DemoteFromAdmin.
    destruct (negb _ || negb _); [now apply kept_error|].
    unfold bind at 1, query.
    destruct (repository.GetByID _ _) as [user|] eqn:Eget;
      [|now apply kept_error].
    destruct (ID user =? ID adminUser)%N; [now apply kept_error|].
    apply kept_save; [exact Hg|]. now apply consistent_unflagged.
  - cbn [system.run]. unfold AdminService.ActivateUser.
    destruct (negb _); [now apply kept_error|].
    unfold bind at 1, query.
    destruct (repository.GetByID _ _) as [user|] eqn:Eget;
      [|now apply kept_error].
    pose proof (system.good_GetByID _ _ _ Hg Eget) as Huser.
    apply kept_save; [exact Hg|]. now apply (consistent_frame user).
  - cbn [system.run]. unfold AdminService.DeactivateUser.
    destruct (negb _); [now apply kept_error|].
    unfold bind at 1, query.
    destruct (repository.GetByID _ _) as [user|] eqn:Eget;
      [|now apply kept_error].
    pose proof (system.good_GetByID _ _ _ Hg Eget) as Huser.
    destruct (IsAdmin user && negb _); [now apply kept_error|].
    destruct (ID user =? ID adminUser)%N; [now apply kept_error|].
    apply kept_save; [exact Hg|]. now apply (consistent_frame user).
Qed.

End Consistency.

(** ** The in-memory table keeps the signals consistent *)

Lemma with_defaults_consistent (u : models.User) :
  system.consistent u -> system.consistent (memory.with_defaults u).
Proof.
  unfold memory.with_defaults, system.consistent. intros Hu.
  destruct (models.IsActive u); cbn;
    (destruct (models.Role u =? "")%string eqn:E; cbn; [|exact Hu]);
    intros Hflag; apply Hu in Hflag; apply String.eqb_eq in E; congruence.
Qed.

Lemma replace_row_consistent (u : models.User) (rows : memory.table) :
  system.consistent u -> Forall system.consistent rows ->
  Forall system.consistent (memory.replace_row u rows).
Proof.
  intros Hu. induction 1 as [|r rows Hr Hrows IH]; cbn; [constructor|].
  destruct (memory.has_id (models.ID u) r); constructor; assumption.
Qed.

#[global] Instance memory_preserves :
  system.Preserves (R := memory.userRepository) (Forall system.consistent).
Proof.
  split.
  - intros id db u Hg Hf. apply First_found in Hf as [Hin _].
    exact (proj1 (List.Forall_forall _ _) Hg u Hin).
  - intros email db u Hg Hf. apply First_found in Hf as [Hin _].
    exact (proj1 (List.Forall_forall _ _) Hg u Hin).
  - intros g db u Hg Hf. apply First_found in Hf as [Hin _].
    exact (proj1 (List.Forall_forall _ _) Hg u Hin).
  - intros g db u Hg Hf. apply First_found in Hf as [Hin _].
    exact (proj1 (List.Forall_forall _ _) Hg u Hin).
  - intros u db Hg Hu. cbn. unfold memory.insert_row.
    apply with_defaults_consistent in Hu.
    set (d := memory.with_defaults u) in *. clearbody d.
    assert (Hkeyed : system.consistent
                       (if (models.ID d =? 0)%N
                        then models.set_ID (memory.next_id db) d else d))
      by (destruct (models.ID d =? 0)%N; exact Hu).
    set (k := if (models.ID d =? 0)%N then _ else d) in *. clearbody k.
    destruct (existsb _ db); cbn; [split; [exact Hg|discriminate]|].
    destruct (existsb _ db); cbn; [split; [exact Hg|discriminate]|].
    split.
    + apply Forall_app. split; [exact Hg|]. now constructor.
    + now intros ? [= <-].
  - intros u db Hg Hu. cbn. unfold memory.save_row.
    destruct (existsb _ db); cbn; (split; [|exact Hu]).
    + now apply replace_row_consistent.
    + apply Forall_app. split; [exact Hg|]. now constructor.
Qed.

Lemma seeded_consistent : Forall system.consistent sample.seeded.
Proof.
  repeat constructor; unfold system.consistent; cbn; intros; congruence.
Qed.

Lemma admin_signals_stay_consistent_witness :
  Forall system.consistent (w_db sample.seeded_world)
  /\ system.agrees (system.PromoteToAdmin sample.admin 2%N)
  /\ fst (system.run sample.authService
                     (system.PromoteToAdmin sample.admin 2%N)
                     sample.seeded_world)
     = Ok (models.set_Role "admin" (models.set_IsAdmin true sample.john))
  /\ system.consistent
       (models.set_Role "admin" (models.set_IsAdmin true sample.john))
  /\ Forall system.consistent
            (w_db (snd (system.run sample.authService
                                   (system.PromoteToAdmin sample.admin 2%N)
                                   sample.seeded_world))).
Proof.
  assert (H1 : Forall system.consistent (w_db sample.seeded_world))
    by exact seeded_consistent.
  assert (H2 : system.agrees (system.PromoteToAdmin sample.admin 2%N))
    by exact I.
  destruct (admin_signals_stay_consistent
              (Forall system.consistent) sample.authService
              (system.PromoteToAdmin sample.admin 2%N) sample.seeded_world
              H1 H2) as [Hgood Hback].
  split; [exact H1|]. split; [exact H2|]. split; [reflexivity|].
  split; [apply Hback; reflexivity | exact Hgood].
Defined.

(** C3 as stated fails.  [UpdateUser] assigns flag and role separately: a
    super admin who sends a request that sets the flag and names no role
    leaves John, a plain user, with the flag and the role [user]. *)
Lemma UpdateUser_sets_flag_without_role :
  Forall system.consistent sample.seeded
  /\ repository.GetByID 2%N sample.seeded = Ok sample.john
  /\ system.consistent sample.john
  /\ fst (AdminService.UpdateUser sample.admin 2%N sample.flag_john
                                  sample.seeded_world)
     = Ok (models.set_IsAdmin true sample.john)
  /\ repository.GetByID
       2%N (w_db (snd (AdminService.UpdateUser sample.admin 2%N
                                               sample.flag_john
                                               sample.seeded_world)))
     = Ok (models.set_IsAdmin true sample.john)
  /\ models.Role (models.set_IsAdmin true sample.john) = "user"
  /\ ~ system.consistent (models.set_IsAdmin true sample.john).
Proof.
  split; [exact seeded_consistent|]. split; [reflexivity|].
  split; [unfold system.consistent; cbn; congruence|].
  split; [reflexivity|]. split; [reflexivity|]. split; [reflexivity|].
  unfold system.consistent. cbn. intros Hc.
  specialize (Hc eq_refl). discriminate.
Qed.

(** ** OAuth state *)

Section Callback.

Import models.

Context {DB : Type} {R : repository.UserRepository DB}.
Context {P : Platform} {H : jwt.MAC} {B : bcrypt.Hasher}.
Context {O : OAuthService.Providers}.

(** A callback whose state differs from the cookie, or that carries no
    state cookie, is answered 400 [Invalid state parameter]; the service
    is not called and nothing is written. *)
Lemma callback_with_wrong_state_is_refused
      (s : AuthService.t) (c : gin.Context) (w : World DB) :
  gin.cookies c !! "oauth_state" <> Some (gin.Query c "state") ->
  AuthHandler.GoogleCallback s c w
  = (gin.mkResponse [] None
                    (gin.JSON AuthHandler.StatusBadRequest
                              "Invalid state parameter"), w)
  /\ AuthHandler.GitHubCallback s c w
     = (gin.mkResponse [] None
                       (gin.JSON AuthHandler.StatusBadRequest
                                 "Invalid state parameter"), w).
Proof.
  intros Hne.
  unfold AuthHandler.GoogleCallback, AuthHandler.GitHubCallback,
    AuthHandler.callback, gin.Cookie_.
  destruct (gin.cookies c !! "oauth_state") as [saved|]; [|split; reflexivity].
  destruct (gin.Query c "state" =? saved)%string eqn:E;
    [|split; reflexivity].
  apply String.eqb_eq in E. congruence.
Qed.

(** A callback whose state equals the cookie answers with the directive
    that deletes the cookie, whatever comes of the authorization code. *)
Lemma callback_with_right_state_clears_it
      (s : AuthService.t) (c : gin.Context) (w : World DB) :
  gin.cookies c !! "oauth_state" = Some (gin.Query c "state") ->
  gin.SetCookie (fst (AuthHandler.GoogleCallback s c w))
  = [gin.mkCookie "oauth_state" "" (-1)]
  /\ gin.SetCookie (fst (AuthHandler.GitHubCallback s c w))
     = [gin.mkCookie "oauth_state" "" (-1)].
Proof.
  intros Heq.
  unfold AuthHandler.GoogleCallback, AuthHandler.GitHubCallback,
    AuthHandler.callback, gin.Cookie_.
  rewrite Heq, String.eqb_refl. cbn [negb].
  destruct (gin.Query c "code" =? "")%string; [split; reflexivity|].
  unfold bind. split.
  - destruct (OAuthService.HandleGoogleCallback s _ w) as [[[t u]|e] w'];
      reflexivity.
  - destruct (OAuthService.HandleGitHubCallback s _ w) as [[[t u]|e] w'];
      reflexivity.
Qed.

End Callback.

(** C5: the first half holds ([callback_with_wrong_state_is_refused]); the
    second does not.  After [GoogleLogin] has issued a state, a callback
    with another state is refused by a response that sets no cookie, so
    the user agent keeps the issued state; the issued state then still
    passes the check of a later callback, which is the one that deletes
    it.  The same holds of the GitHub endpoints. *)
Theorem state_cookie_survives_refused_callback :
  let login := AuthHandler.GoogleLogin (gin.mkContext ∅ ∅) sample.flow in
  let jar := gin.store ∅ (fst login) in
  let w := snd login in
  let refused :=
    AuthHandler.GoogleCallback sample.authService
                               (sample.callback_request "forged" jar) w in
  let refused' :=
    AuthHandler.GitHubCallback sample.authService
                               (sample.callback_request "forged" jar) w in
  let jar' := gin.store jar (fst refused) in
  let replayed :=
    AuthHandler.GoogleCallback
      sample.authService
      (sample.callback_request sample.issued_state jar') (snd refused) in
  jar !! "oauth_state" = Some sample.issued_state
  /\ refused = (gin.mkResponse [] None
                               (gin.JSON 400 "Invalid state parameter"), w)
  /\ refused' = refused
  /\ jar' !! "oauth_state" = Some sample.issued_state
  /\ gin.body (fst replayed) = gin.Redirect 302 "/dashboard"
  /\ gin.store jar' (fst replayed) !! "oauth_state" = None.
Proof.
  cbv zeta. repeat split; vm_compute; reflexivity.
Qed.

(** * Further properties of the services *)

(** ** Authorization policy: what a refusal leaves behind *)

Section Refusals.

Import models.

Context {DB : Type} {R : repository.UserRepository DB}.

(** The only error [save] can return is the one of the storage layer. *)
Lemma save_error (user : User) (w : World DB) (e : error) :
  fst (repository.save user w) = Err e -> exists d, e = from_db d.
Proof.
  unfold repository.save, repository.returned. step.
  destruct (repository.Update user (w_db w)) as [[u [d|]] db']; cbn.
  - intros [= <-]. eauto.
  - discriminate.
Qed.

Lemma unprivileged (adminUser : User) :
  IsAdmin adminUser = false -> Role adminUser <> "admin" ->
  AdminService.IsAdmin adminUser = false.
Proof.
  intros Hflag Hrole. unfold AdminService.IsAdmin.
  now rewrite Hflag, (not_super _ Hrole).
Qed.

(** X1.  An actor that holds neither admin signal is answered
    [ErrNotAuthorized] by every method of the admin service that was
    embedded, on every argument, before the repository is consulted: the
    world is left as it was. *)
Theorem unprivileged_actor_is_denied_everywhere
        (adminUser : User) (w : World DB) :
  IsAdmin adminUser = false ->
  Role adminUser <> "admin" ->
  (forall limit offset,
      AdminService.GetAllUsers adminUser limit offset w
      = (Err ErrNotAuthorized, w))
  /\ (forall userID,
         AdminService.GetUserByID adminUser userID w
         = (Err ErrNotAuthorized, w))
  /\ (forall userID req,
         AdminService.UpdateUser adminUser userID req w
         = (Err ErrNotAuthorized, w))
  /\ (forall userID,
         AdminService.DeactivateUser adminUser userID w
         = (Err ErrNotAuthorized, w))
  /\ (forall userID,
         AdminService.ActivateUser adminUser userID w
         = (Err ErrNotAuthorized, w))
  /\ (forall userID,
         AdminService.DeleteUser adminUser userID w
         = (Some ErrNotAuthorized, w))
  /\ (forall userID,
         AdminService.PromoteToAdmin adminUser userID w
         = (Err ErrNotAuthorized, w))
  /\ (forall userID,
         AdminService.DemoteFromAdmin adminUser userID w
         = (Err ErrNotAuthorized, w)).
Proof.
  intros Hflag Hrole. pose proof (unprivileged _ Hflag Hrole) as Hno.
  unfold AdminService.GetAllUsers, AdminService.GetUserByID,
    AdminService.UpdateUser, AdminService.DeactivateUser,
    AdminService.ActivateUser, AdminService.DeleteUser,
    AdminService.PromoteToAdmin, AdminService.DemoteFromAdmin.
  rewrite Hno. repeat split.
Qed.

(** A branch that ends in [save] cannot have returned an error of the
    service's own. *)
Ltac saved Hown :=
  let Hf := fresh "Hf" in
  let d := fresh "d" in
  intros Hf; apply save_error in Hf as [d ->]; exfalso;
  now apply (Hown d).

(** X2.  Whenever [UpdateUser], [DeactivateUser], [ActivateUser],
    [PromoteToAdmin], [DemoteFromAdmin] or [DeleteUser] answers with an
    error that does not come from the storage layer, nothing was written:
    every check of these methods, the role validation of [UpdateUser]
    included, runs before the first write. *)
Theorem refused_admin_operation_writes_nothing
        (adminUser : User) (userID : uint)
        (req : AdminUpdateUserRequest.t) (w : World DB) (e : error) :
  (forall d, e <> from_db d) ->
  (fst (AdminService.UpdateUser adminUser userID req w) = Err e ->
   snd (AdminService.UpdateUser adminUser userID req w) = w)
  /\ (fst (AdminService.DeactivateUser adminUser userID w) = Err e ->
      snd (AdminService.DeactivateUser adminUser userID w) = w)
  /\ (fst (AdminService.ActivateUser adminUser userID w) = Err e ->
      snd (AdminService.ActivateUser adminUser userID w) = w)
  /\ (fst (AdminService.PromoteToAdmin adminUser userID w) = Err e ->
      snd (AdminService.PromoteToAdmin adminUser userID w) = w)
  /\ (fst (AdminService.DemoteFromAdmin adminUser userID w) = Err e ->
      snd (AdminService.DemoteFromAdmin adminUser userID w) = w)
  /\ (fst (AdminService.DeleteUser adminUser userID w) = Some e ->
      snd (AdminService.DeleteUser adminUser userID w) = w).
Proof.
  intros Hown.
  unfold AdminService.UpdateUser, AdminService.DeactivateUser,
    AdminService.ActivateUser, AdminService.PromoteToAdmin,
    AdminService.DemoteFromAdmin, AdminService.DeleteUser.
  cbv beta iota delta [bind ret query].
  repeat match goal with
         | |- _ /\ _ => split
         | |- context [if ?b then _ else _] => destruct b; cbv beta iota
         | |- context [repository.GetByID userID (w_db w)] =>
           destruct (repository.GetByID userID (w_db w)) as [user|];
           cbv beta iota
         end;
    cbn [fst snd]; try reflexivity; try (saved Hown).
  all: unfold command;
    destruct (repository.Delete userID (w_db w)) as [[d|] db']; cbn;
    [intros [= <-]; exfalso; now apply (Hown d) | discriminate].
Qed.

End Refusals.

(** ** Authorization policy: what an administrator can grant *)

Section Grants.

Import models.

Context {DB : Type} {R : repository.UserRepository DB}.

Lemma assign_fields_keeps (req : AdminUpdateUserRequest.t) (u : User) :
  ID (AdminService.assign_fields req u) = ID u
  /\ Password (AdminService.assign_fields req u) = Password u.
Proof.
  unfold AdminService.assign_fields.
  destruct (AdminUpdateUserRequest.IsActive req),
    (AdminUpdateUserRequest.IsVerified req); split; reflexivity.
Qed.

(** X3.  An actor whose role is not [admin] gains nothing for its target
    through [UpdateUser]: the call is refused and writes nothing, or it
    saves a record of a stored target that did not carry the flag, and
    the record saved has the key and the password of the target, does
    not carry the flag either, and has the [admin] role only if the
    target had it. *)
Theorem UpdateUser_by_non_super_admin_grants_nothing
        (adminUser : User) (userID : uint)
        (req : AdminUpdateUserRequest.t) (w : World DB) :
  Role adminUser <> "admin" ->
  (exists e, AdminService.UpdateUser adminUser userID req w = (Err e, w))
  \/ (exists user written,
         repository.GetByID userID (w_db w) = Ok user
         /\ AdminService.UpdateUser adminUser userID req w
            = repository.save written w
         /\ IsAdmin user = false
         /\ IsAdmin written = false
         /\ (Role written = "admin" -> Role user = "admin")
         /\ ID written = ID user
         /\ Password written = Password user).
Proof.
  intros Hrole. unfold AdminService.UpdateUser.
  rewrite (not_super _ Hrole).
  destruct (AdminService.IsAdmin adminUser); cbn [negb]; [|left; eauto].
  cbv beta iota delta [bind ret query].
  destruct (repository.GetByID userID (w_db w)) as [user|] eqn:Eget;
    [|left; eauto].
  rewrite andb_true_r.
  destruct (IsAdmin user) eqn:Eflag; [left; eauto|].
  destruct (assign_fields_frame req user) as [Fa Fr].
  destruct (assign_fields_keeps req user) as [Fi Fp].
  assert (Hsame : match AdminUpdateUserRequest.IsAdmin req with
                  | Some _ => AdminService.assign_fields req user
                  | None => AdminService.assign_fields req user
                  end = AdminService.assign_fields req user)
    by (destruct (AdminUpdateUserRequest.IsAdmin req); reflexivity).
  rewrite Hsame.
  destruct (AdminUpdateUserRequest.Role req =? "")%string.
  - right. exists user, (AdminService.assign_fields req user).
    repeat split; try assumption; congruence.
  - destruct (AdminService.validRoles _); cbn [negb]; [|left; eauto].
    rewrite andb_true_r.
    destruct (AdminUpdateUserRequest.Role req =? "admin")%string eqn:Eadm;
      [left; eauto|].
    apply String.eqb_neq in Eadm. right.
    exists user,
      (set_Role (AdminUpdateUserRequest.Role req)
                (AdminService.assign_fields req user)).
    repeat split; try assumption; cbn; try congruence.
Qed.

(** X4.  For an actor whose role is [admin] and a stored target,
    [PromoteToAdmin] hands to [Update] of the repository the target with
    both admin signals set, and [DemoteFromAdmin], when the target is
    not the actor, the target with both cleared: the record demoted
    holds no admin privilege, whichever signal the target held.  Either
    record is the target in every other column.  The table after the
    call is the table [Update] returns for that record, and the answer
    is the record [Update] hands back, or the error of [Update]. *)
Theorem promotion_sets_and_demotion_clears_both_signals
        (adminUser : User) (userID : uint) (user : User) (w : World DB) :
  Role adminUser = "admin" ->
  repository.GetByID userID (w_db w) = Ok user ->
  (exists written,
      AdminService.PromoteToAdmin adminUser userID w
      = repository.save written w
      /\ fst (AdminService.PromoteToAdmin adminUser userID w)
         = match repository.Update written (w_db w) with
           | (_, Some e, _) => Err (from_db e)
           | (saved, None, _) => Ok saved
           end
      /\ snd (AdminService.PromoteToAdmin adminUser userID w)
         = mkWorld (snd (repository.Update written (w_db w)))
                   (w_now w) (w_ticks w) (w_entropy w)
      /\ written = set_Role "admin" (set_IsAdmin true user)
      /\ IsAdmin written = true /\ Role written = "admin"
      /\ set_Role (Role user) (set_IsAdmin (IsAdmin user) written) = user)
  /\ (ID user <> ID adminUser ->
      exists written,
        AdminService.DemoteFromAdmin adminUser userID w
        = repository.save written w
        /\ fst (AdminService.DemoteFromAdmin adminUser userID w)
           = match repository.Update written (w_db w) with
             | (_, Some e, _) => Err (from_db e)
             | (saved, None, _) => Ok saved
             end
        /\ snd (AdminService.DemoteFromAdmin adminUser userID w)
           = mkWorld (snd (repository.Update written (w_db w)))
                     (w_now w) (w_ticks w) (w_entropy w)
        /\ written = set_Role "user" (set_IsAdmin false user)
        /\ AdminService.IsAdmin written = false
        /\ set_Role (Role user) (set_IsAdmin (IsAdmin user) written) = user).
Proof.
  intros Hrole Hget.
  unfold AdminService.PromoteToAdmin, AdminService.DemoteFromAdmin,
    AdminService.IsAdmin.
  rewrite Hrole, String.eqb_refl, orb_true_r. cbn [negb orb].
  cbv beta iota delta [bind ret query]. rewrite Hget. split.
  - eexists. split; [reflexivity|]. rewrite save_writes. cbn [fst snd].
    split; [|split; [reflexivity|]].
    + destruct (repository.Update _ (w_db w)) as [[saved [e|]] db'];
        reflexivity.
    + split; [reflexivity|]. repeat split. now destruct user.
  - intros Hne. apply N.eqb_neq in Hne. rewrite Hne.
    eexists. split; [reflexivity|]. rewrite save_writes. cbn [fst snd].
    split; [|split; [reflexivity|]].
    + destruct (repository.Update _ (w_db w)) as [[saved [e|]] db'];
        reflexivity.
    + split; [reflexivity|]. split; [reflexivity|]. now destruct user.
Qed.

End Grants.

(** ** The policy on the sample accounts, continued *)

Lemma unprivileged_actor_is_denied_everywhere_witness :
  models.IsAdmin sample.jane = false
  /\ models.Role sample.jane <> "admin"
  /\ AdminService.GetAllUsers sample.jane 20 0 sample.world
     = (Err ErrNotAuthorized, sample.world)
  /\ AdminService.DeleteUser sample.jane 4%N sample.world
     = (Some ErrNotAuthorized, sample.world).
Proof.
  assert (H1 : models.IsAdmin sample.jane = false) by reflexivity.
  assert (H2 : models.Role sample.jane <> "admin") by discriminate.
  destruct (unprivileged_actor_is_denied_everywhere
              sample.jane sample.world H1 H2)
    as (Hl & _ & _ & _ & _ & Hd & _).
  split; [exact H1|]. split; [exact H2|]. split; [apply Hl | apply Hd].
Defined.

Lemma refused_admin_operation_writes_nothing_witness :
  (forall d, ErrInvalidRole <> from_db d)
  /\ fst (AdminService.UpdateUser sample.admin 2%N sample.bad_role
                                  sample.world)
     = Err ErrInvalidRole
  /\ snd (AdminService.UpdateUser sample.admin 2%N sample.bad_role
                                  sample.world)
     = sample.world.
Proof.
  assert (H1 : forall d, ErrInvalidRole <> from_db d) by discriminate.
  assert (H2 : fst (AdminService.UpdateUser sample.admin 2%N sample.bad_role
                                            sample.world)
               = Err ErrInvalidRole) by reflexivity.
  split; [exact H1|]. split; [exact H2|].
  exact (proj1 (refused_admin_operation_writes_nothing
                  sample.admin 2%N sample.bad_role sample.world
                  ErrInvalidRole H1) H2).
Defined.

Lemma UpdateUser_by_non_super_admin_grants_nothing_witness :
  models.Role sample.flagged <> "admin"
  /\ ((exists e,
         AdminService.UpdateUser sample.flagged 2%N sample.moderate
                                 sample.world
         = (Err e, sample.world))
      \/ (exists user written,
             repository.GetByID 2%N (w_db sample.world) = Ok user
             /\ AdminService.UpdateUser sample.flagged 2%N sample.moderate
                                        sample.world
                = repository.save written sample.world
             /\ models.IsAdmin user = false
             /\ models.IsAdmin written = false
             /\ (models.Role written = "admin" -> models.Role user = "admin")
             /\ models.ID written = models.ID user
             /\ models.Password written = models.Password user)).
Proof.
  assert (H1 : models.Role sample.flagged <> "admin") by discriminate.
  split; [exact H1|].
  exact (UpdateUser_by_non_super_admin_grants_nothing
           sample.flagged 2%N sample.moderate sample.world H1).
Defined.

Lemma promotion_sets_and_demotion_clears_both_signals_witness :
  models.Role sample.admin = "admin"
  /\ repository.GetByID 5%N (w_db sample.world) = Ok sample.flagged
  /\ models.ID sample.flagged <> models.ID sample.admin
  /\ AdminService.IsAdmin sample.flagged = true
  /\ fst (AdminService.DemoteFromAdmin sample.admin 5%N sample.world)
     = Ok (models.set_Role "user" (models.set_IsAdmin false sample.flagged))
  /\ repository.GetByID
       5%N (w_db (snd (AdminService.DemoteFromAdmin sample.admin 5%N
                                                     sample.world)))
     = Ok (models.set_Role "user" (models.set_IsAdmin false sample.flagged))
  /\ AdminService.IsAdmin
       (models.set_Role "user" (models.set_IsAdmin false sample.flagged))
     = false.
Proof.
  assert (H1 : models.Role sample.admin = "admin") by reflexivity.
  assert (H2 : repository.GetByID 5%N (w_db sample.world) = Ok sample.flagged)
    by reflexivity.
  assert (H3 : models.ID sample.flagged <> models.ID sample.admin)
    by discriminate.
  repeat (split; [assumption|]). split; [reflexivity|].
  destruct (proj2 (promotion_sets_and_demotion_clears_both_signals
                     sample.admin 5%N sample.flagged sample.world H1 H2) H3)
    as (written & _ & Hfst & Hsnd & -> & Hpriv & _).
  split; [rewrite Hfst; reflexivity|].
  split; [rewrite Hsnd; reflexivity | exact Hpriv].
Defined.

(** ** Credentials: what registration and the profile update write *)

Section Accounts.

Import models.

Context {DB : Type} {R : repository.UserRepository DB}.
Context {P : Platform} {H : jwt.MAC} {B : bcrypt.Hasher}.

(** X5.  [Register] refuses an e-mail that is taken with [ErrUserExists],
    before a digest is computed or anything is written.  For an e-mail
    the repository does not find, it draws sixteen bytes and asks
    [bcrypt] for the digest of the password under them.  When [bcrypt]
    refuses, its error is the answer and the table stays as it was.
    Otherwise [Register] hands to [Create] of the repository the record
    that holds the e-mail and the names of the request and that digest
    in its password column, is active, and carries no admin signal, no
    provider key and no primary key of its own; the table afterwards is
    the table [Create] returns for that record, and the answer is the
    record [Create] returns, or its error. *)
Theorem Register_stores_a_digest_and_no_privilege
        (s : AuthService.t) (req : RegisterRequest.t) (w : World DB) :
  (forall existing,
      repository.GetByEmail (RegisterRequest.Email req) (w_db w)
      = Ok existing ->
      AuthService.Register s req w = (Err ErrUserExists, w))
  /\ (forall e failure,
        repository.GetByEmail (RegisterRequest.Email req) (w_db w) = Err e ->
        bcrypt.hash (fst (rand_Read 16 w)) (RegisterRequest.Password req)
        = Err failure ->
        AuthService.Register s req w = (Err failure, snd (rand_Read 16 w))
        /\ w_db (snd (AuthService.Register s req w)) = w_db w)
  /\ (forall e digest,
        repository.GetByEmail (RegisterRequest.Email req) (w_db w) = Err e ->
        bcrypt.hash (fst (rand_Read 16 w)) (RegisterRequest.Password req)
        = Ok digest ->
        let user :=
          mkUser 0%N 0 0 None (RegisterRequest.Email req) digest
                 (RegisterRequest.FirstName req)
                 (RegisterRequest.LastName req)
                 true false false "" None None None None None None None
                 None in
        (Password user = digest
         /\ Email user = RegisterRequest.Email req
         /\ FirstName user = RegisterRequest.FirstName req
         /\ LastName user = RegisterRequest.LastName req)
        /\ (ID user = 0%N
            /\ IsActive user = true /\ IsVerified user = false
            /\ IsAdmin user = false /\ Role user = ""
            /\ GoogleID user = None /\ GitHubID user = None)
        /\ fst (AuthService.Register s req w)
           = match fst (repository.Create user (w_db w)) with
             | Ok user' => Ok user'
             | Err failure => Err (from_db failure)
             end
        /\ snd (AuthService.Register s req w)
           = mkWorld (snd (repository.Create user (w_db w)))
                     (w_now w) (w_ticks w) (skipn 16 (w_entropy w))).
Proof.
  unfold AuthService.Register, bcrypt.GenerateFromPassword.
  cbv beta iota delta [bind ret query]. split; [|split].
  - intros existing ->. reflexivity.
  - intros e failure -> Ehash. unfold rand_Read in *.
    cbv beta iota. cbn [fst snd] in *. rewrite Ehash.
    split; reflexivity.
  - intros e digest -> Ehash. unfold rand_Read in *.
    cbv beta iota. cbn [fst snd] in *. rewrite Ehash.
    split; [repeat split|]. split; [repeat split|].
    unfold command. cbn [w_db w_now w_ticks w_entropy].
    set (user := mkUser 0%N 0 0 None (RegisterRequest.Email req) digest
                        (RegisterRequest.FirstName req)
                        (RegisterRequest.LastName req)
                        true false false "" None None None None None None
                        None None).
    change (set_IsActive true
              (set_LastName (RegisterRequest.LastName req)
                 (set_FirstName (RegisterRequest.FirstName req)
                    (set_Password digest
                       (set_Email (RegisterRequest.Email req) zero)))))
      with user.
    destruct (repository.Create user (w_db w)) as [[user'|failure] db'];
      split; reflexivity.
Qed.

(** X6.  [UpdateProfile] answers [ErrUserNotFound] and writes nothing
    when the repository does not find the key.  When it finds a record,
    [UpdateProfile] hands to [Update] of the repository that record with
    the two names of the request and the three profile columns, an empty
    string becoming the nil pointer, and with its key, e-mail, password,
    activation, verification, admin signals, provider keys and avatar
    as stored; the table afterwards is the table [Update] returns for
    that record, and the answer is the record [Update] hands back, or
    the error of [Update]. *)
Theorem UpdateProfile_keeps_credentials_and_privileges
        (s : AuthService.t) (userID : uint) (req : UpdateProfileRequest.t)
        (w : World DB) :
  (forall e,
      repository.GetByID userID (w_db w) = Err e ->
      AuthService.UpdateProfile s userID req w = (Err ErrUserNotFound, w))
  /\ (forall user,
        repository.GetByID userID (w_db w) = Ok user ->
        exists written,
          AuthService.UpdateProfile s userID req w
          = repository.save written w
          /\ fst (AuthService.UpdateProfile s userID req w)
             = match repository.Update written (w_db w) with
               | (_, Some e, _) => Err (from_db e)
               | (saved, None, _) => Ok saved
               end
          /\ snd (AuthService.UpdateProfile s userID req w)
             = mkWorld (snd (repository.Update written (w_db w)))
                       (w_now w) (w_ticks w) (w_entropy w)
          /\ written
             = set_Location
                 (AuthService.stringPtrAuth
                    (UpdateProfileRequest.Location req))
                 (set_Website
                    (AuthService.stringPtrAuth
                       (UpdateProfileRequest.Website req))
                    (set_Bio
                       (AuthService.stringPtrAuth
                          (UpdateProfileRequest.Bio req))
                       (set_LastName
                          (UpdateProfileRequest.LastName req)
                          (set_FirstName
                             (UpdateProfileRequest.FirstName req) user))))
          /\ (ID written = ID user /\ Email written = Email user
              /\ Password written = Password user)
          /\ (IsActive written = IsActive user
              /\ IsVerified written = IsVerified user
              /\ IsAdmin written = IsAdmin user
              /\ Role written = Role user)
          /\ (GoogleID written = GoogleID user
              /\ GitHubID written = GitHubID user
              /\ AvatarURL written = AvatarURL user)
          /\ (FirstName written = UpdateProfileRequest.FirstName req
              /\ LastName written = UpdateProfileRequest.LastName req)
          /\ Bio written
             = (if (UpdateProfileRequest.Bio req =? "")%string then None
                else Some (UpdateProfileRequest.Bio req))
          /\ Website written
             = (if (UpdateProfileRequest.Website req =? "")%string
                then None
                else Some (UpdateProfileRequest.Website req))
          /\ Location written
             = (if (UpdateProfileRequest.Location req =? "")%string
                then None
                else Some (UpdateProfileRequest.Location req))).
Proof.
  unfold AuthService.UpdateProfile. cbv beta iota delta [bind ret query].
  split.
  - intros e ->. reflexivity.
  - intros user ->. eexists. split; [reflexivity|].
    rewrite save_writes. cbn [fst snd].
    split; [|split; [reflexivity|]].
    + destruct (repository.Update _ (w_db w)) as [[saved [e|]] db'];
        reflexivity.
    + split; [reflexivity|]. cbn. repeat split.
Qed.

(** X7.  [Login] succeeds exactly when the repository holds a record for
    the e-mail and the password matches its digest; the activation of
    the record plays no part, so that a deactivated identity still logs
    in and is issued a token. *)
Theorem Login_succeeds_exactly_on_a_matching_password
        (s : AuthService.t) (req : LoginRequest.t) (w : World DB) :
  (exists token user, fst (AuthService.Login s req w) = Ok (token, user))
  <-> (exists stored,
          repository.GetByEmail (LoginRequest.Email req) (w_db w) = Ok stored
          /\ bcrypt.matches (Password stored) (LoginRequest.Password req)
             = true).
Proof.
  unfold AuthService.Login, bcrypt.CompareHashAndPassword.
  cbv beta iota delta [bind ret query]. split.
  - intros (token & user & Hok).
    destruct (repository.GetByEmail _ (w_db w)) as [stored|];
      [|discriminate].
    exists stored. split; [reflexivity|].
    destruct (bcrypt.matches _ _); [reflexivity | discriminate].
  - intros (stored & -> & ->). unfold time_Now at 1. cbv beta iota.
    unfold command.
    destruct (repository.Update _ _) as [saved db']. cbv beta iota.
    cbn [w_db w_now w_ticks w_entropy].
    destruct (GenerateJWT_reads_only
                s (fst saved)
                (mkWorld db'
                         (w_now w + Z.of_N (hd 0%N (w_ticks w)))
                         (tl (w_ticks w)) (w_entropy w)))
      as (token & w' & -> & _).
    cbn. eauto.
Qed.

End Accounts.

Lemma Register_stores_a_digest_and_no_privilege_witness :
  repository.GetByEmail "alice@example.com" (w_db sample.world)
  = Err ErrRecordNotFound
  /\ bcrypt.hash (fst (rand_Read 16 sample.world)) "secret1"
     = Ok sample.alice_digest
  /\ sample.alice_digest <> "secret1"
  /\ fst (AuthService.Register
            sample.authService
            (models.RegisterRequest.mk "alice@example.com" "secret1"
                                       "Alice" "A")
            sample.world)
     = Ok sample.alice
  /\ repository.GetByEmail
       "alice@example.com"
       (w_db (snd (AuthService.Register
                     sample.authService
                     (models.RegisterRequest.mk "alice@example.com"
                                                "secret1" "Alice" "A")
                     sample.world)))
     = Ok sample.alice
  /\ models.Password sample.alice = sample.alice_digest
  /\ AdminService.IsAdmin sample.alice = false.
Proof.
  assert (H1 : repository.GetByEmail "alice@example.com"
                                     (w_db sample.world)
               = Err ErrRecordNotFound) by reflexivity.
  assert (H2 : bcrypt.hash (fst (rand_Read 16 sample.world)) "secret1"
               = Ok sample.alice_digest) by reflexivity.
  split; [exact H1|]. split; [exact H2|]. split; [discriminate|].
  destruct (proj2 (proj2 (Register_stores_a_digest_and_no_privilege
                            sample.authService
                            (models.RegisterRequest.mk
                               "alice@example.com" "secret1" "Alice" "A")
                            sample.world))
                  ErrRecordNotFound sample.alice_digest H1 H2)
    as (_ & _ & Hfst & Hsnd).
  rewrite Hfst, Hsnd.
  repeat split; vm_compute; reflexivity.
Defined.

Lemma UpdateProfile_keeps_credentials_and_privileges_witness :
  repository.GetByID 2%N (w_db sample.world) = Ok sample.john
  /\ fst (AuthService.UpdateProfile
            sample.authService 2%N
            (models.UpdateProfileRequest.mk "Johnny" "Doe" "hello" ""
                                            "Paris")
            sample.world)
     = Ok (models.set_Location
             (Some "Paris")
             (models.set_Bio (Some "hello")
                             (models.set_FirstName "Johnny" sample.john)))
  /\ repository.GetByID
       2%N
       (w_db (snd (AuthService.UpdateProfile
                     sample.authService 2%N
                     (models.UpdateProfileRequest.mk "Johnny" "Doe" "hello"
                                                     "" "Paris")
                     sample.world)))
     = Ok (models.set_Location
             (Some "Paris")
             (models.set_Bio (Some "hello")
                             (models.set_FirstName "Johnny" sample.john))).
Proof.
  assert (H1 : repository.GetByID 2%N (w_db sample.world) = Ok sample.john)
    by reflexivity.
  split; [exact H1|].
  destruct (proj2 (UpdateProfile_keeps_credentials_and_privileges
                     sample.authService 2%N
                     (models.UpdateProfileRequest.mk "Johnny" "Doe" "hello"
                                                     "" "Paris")
                     sample.world) sample.john H1)
    as (written & _ & Hfst & Hsnd & -> & _).
  rewrite Hfst, Hsnd. split; vm_compute; reflexivity.
Defined.

(** Bob, who is deactivated, logs in with the password of the seeding
    command. *)
Lemma Login_succeeds_exactly_on_a_matching_password_witness :
  repository.GetByEmail "bob.johnson@example.com" (w_db sample.world)
  = Ok sample.bob
  /\ models.IsActive sample.bob = false
  /\ bcrypt.matches (models.Password sample.bob) "admin123" = true
  /\ exists token user,
      fst (AuthService.Login
             sample.authService
             (models.LoginRequest.mk "bob.johnson@example.com" "admin123")
             sample.world)
      = Ok (token, user).
Proof.
  assert (H1 : repository.GetByEmail "bob.johnson@example.com"
                                     (w_db sample.world) = Ok sample.bob)
    by reflexivity.
  assert (H2 : bcrypt.matches (models.Password sample.bob) "admin123" = true)
    by reflexivity.
  split; [exact H1|]. split; [reflexivity|]. split; [exact H2|].
  apply (proj2 (Login_succeeds_exactly_on_a_matching_password
                  sample.authService
                  (models.LoginRequest.mk "bob.johnson@example.com"
                                          "admin123")
                  sample.world)).
  exists sample.bob. split; assumption.
Defined.

(** ** Session tokens: from issue to validation *)

Section Sessions.

Import models.

Context {DB : Type} {R : repository.UserRepository DB}.
Context {P : Platform} {H : jwt.MAC} {B : bcrypt.Hasher}.

Lemma Unix_floor (t : Z) :
  t - 10 ^ 9 < AuthService.Unix t * 10 ^ 9 <= t.
Proof.
  unfold AuthService.Unix. change (10 ^ 9) with 1000000000.
  pose proof (Z.div_mod t 1000000000 ltac:(lia)) as Hdm.
  pose proof (Z.mod_pos_bound t 1000000000 ltac:(lia)) as Hm.
  lia.
Qed.

(** The clock does not go back while a token is issued. *)
Lemma GenerateJWT_clock (s : AuthService.t) (user : User) (w : World DB) :
  w_now w <= second_reading w
  /\ second_reading w <= w_now (snd (AuthService.GenerateJWT s user w)).
Proof.
  unfold AuthService.GenerateJWT, second_reading, time_Now.
  cbv beta iota delta [bind ret]. cbn [snd w_now w_ticks].
  pose proof (N2Z.is_nonneg (hd 0%N (w_ticks w))).
  pose proof (N2Z.is_nonneg (hd 0%N (tl (w_ticks w)))).
  lia.
Qed.

(** A token validates, for seven days less a second from the instant its
    issue began, to the key of the identity it was issued for and to its
    e-mail as [encoding/json] writes it. *)
Lemma issued_token_validates (s : AuthService.t) (user : User)
      (w w' : World DB) (token : jwt.tokenString) :
  fst (AuthService.GenerateJWT s user w) = Ok token ->
  (ID user <= 2 ^ 53)%N ->
  0 <= w_now w ->
  second_reading w < 2 ^ 62 ->
  w_now w' <= w_now w + 604799 * 10 ^ 9 ->
  fst (AuthService.ValidateJWT s token w')
  = Ok (JWTClaims.mk (ID user) (json.String_ (Email user))).
Proof.
  intros Hgen Hid Hnow Hlate Hfresh.
  rewrite GenerateJWT_issues in Hgen. injection Hgen as <-.
  destruct (GenerateJWT_clock s user w) as [Hmono _].
  pose proof (Unix_floor (w_now w)) as Hfloor.
  assert (Hexp : 0 <= w_now w < 2 ^ 62) by lia.
  assert (Hiat : 0 <= second_reading w < 2 ^ 62) by lia.
  assert (Hlive : w_now w'
                  < (AuthService.Unix (w_now w) + 7 * 24 * 3600) * 10 ^ 9).
  { change (10 ^ 9) with 1000000000 in *. lia. }
  destruct (ValidateJWT_issued s user (w_now w) (second_reading w) w'
                               Hid Hexp Hiat Hlive) as (w'' & Hv & _).
  rewrite Hv. reflexivity.
Qed.

(** X8.  The token a successful [Login] returns validates, at every
    instant up to seven days less a second after the login began, to
    claims that carry the key of the identity returned with it and its
    e-mail as [encoding/json] writes it: every byte that is not part of
    a well-formed UTF-8 sequence replaced by U+FFFD.  So the claims carry
    the e-mail itself when it is valid UTF-8.  The key is at most 2^53
    and the clock stays between 1970 and 2^62 nanoseconds later while
    the login runs. *)
Theorem Login_token_validates_for_a_week
        (s : AuthService.t) (req : LoginRequest.t) (w w1 w' : World DB)
        (token : jwt.tokenString) (user : User) :
  AuthService.Login s req w = (Ok (token, user), w1) ->
  (ID user <= 2 ^ 53)%N ->
  0 <= w_now w ->
  w_now w1 < 2 ^ 62 ->
  w_now w' <= w_now w + 604799 * 10 ^ 9 ->
  fst (AuthService.ValidateJWT s token w')
  = Ok (JWTClaims.mk (ID user) (json.String_ (Email user)))
  /\ (utf8.ValidString (Email user) = true ->
      fst (AuthService.ValidateJWT s token w')
      = Ok (JWTClaims.mk (ID user) (Email user))).
Proof.
  enough (AuthService.Login s req w = (Ok (token, user), w1) ->
          (ID user <= 2 ^ 53)%N ->
          0 <= w_now w ->
          w_now w1 < 2 ^ 62 ->
          w_now w' <= w_now w + 604799 * 10 ^ 9 ->
          fst (AuthService.ValidateJWT s token w')
          = Ok (JWTClaims.mk (ID user) (json.String_ (Email user))))
    as Hwire.
  { intros Hlogin Hid Hnow Hlate Hfresh.
    pose proof (Hwire Hlogin Hid Hnow Hlate Hfresh) as Hv.
    split; [exact Hv|]. intros Hutf.
    rewrite (String_valid _ Hutf) in Hv. exact Hv. }
  unfold AuthService.Login. cbv beta iota delta [bind ret query].
  destruct (repository.GetByEmail _ (w_db w)) as [stored|]; [|discriminate].
  destruct (bcrypt.CompareHashAndPassword _ _); [discriminate|].
  unfold time_Now at 1, command. cbv beta iota.
  destruct (repository.Update _ _) as [saved db']. cbv beta iota.
  cbn [w_db w_now w_ticks w_entropy].
  set (w2 := mkWorld db' _ _ _).
  pose proof (GenerateJWT_clock s (fst saved) w2) as [Hmono Hend].
  destruct (AuthService.GenerateJWT s (fst saved) w2) as [[issued|err] w3]
    eqn:Egen; [|discriminate].
  intros [= <- <- <-] Hid Hnow Hlate Hfresh.
  pose proof (N2Z.is_nonneg (hd 0%N (w_ticks w))) as Htick.
  apply (issued_token_validates s (fst saved) w2 w' issued).
  - now rewrite Egen.
  - exact Hid.
  - subst w2. cbn [w_now]. lia.
  - cbn [snd] in Hend. lia.
  - subst w2. cbn [w_now]. lia.
Qed.

(** What [ValidateJWT] does to the world: nothing, or one reading of the
    clock. *)
Lemma ValidateJWT_reads_the_clock (s : AuthService.t) (t : jwt.tokenString)
      (w : World DB) :
  snd (AuthService.ValidateJWT s t w) = w
  \/ snd (AuthService.ValidateJWT s t w) = snd (time_Now w).
Proof.
  unfold AuthService.ValidateJWT, jwt.Parse.
  cbv beta iota delta [bind ret].
  destruct t as [raw|alg wire signature]; [now left|].
  destruct (jwt.Unmarshal wire) as [claims|]; [|now left].
  destruct (jwt.GetSigningMethod alg) as [m|]; [|now left].
  destruct (AuthService.keyFunc s _) as [key|]; [|now left].
  destruct (negb _); [now left|]. right.
  destruct (time_Now w) as [now w']. cbn [snd].
  destruct (jwt.Validate claims now); [|reflexivity].
  cbn [jwt.Valid jwt.Claims].
  destruct (claims !! "user_id") as [[n| |]|]; try reflexivity.
  destruct (claims !! "email") as [[|e|]|]; reflexivity.
Qed.

(** X9.  [ValidateJWT] accepts a token only if its header names an
    algorithm of the HMAC family, its signature is the keyed hash of its
    header and claims under the secret of the service, and its claims
    hold a number under [user_id] and a string under [email]; the claims
    returned are that number and that string as read back from JSON. *)
Theorem ValidateJWT_accepts_only_tokens_signed_with_the_secret
        (s : AuthService.t) (t : jwt.tokenString) (w : World DB)
        (c : JWTClaims.t) :
  fst (AuthService.ValidateJWT s t w) = Ok c ->
  exists alg wire signature h n f e,
    t = jwt.segments alg wire signature
    /\ jwt.GetSigningMethod alg = Some (jwt.SigningMethodHMAC h)
    /\ signature = jwt.hmac_sum h (AuthService.jwtSecret s) (alg, wire)
    /\ wire !! "user_id" = Some (jwt.VNumber n)
    /\ jwt.float64_of_literal n = Some f
    /\ JWTClaims.UserID c = jwt.uint_of_float64 f
    /\ wire !! "email" = Some (jwt.VString e)
    /\ JWTClaims.Email c = json.String_ e.
Proof.
  unfold AuthService.ValidateJWT, jwt.Parse.
  cbv beta iota delta [bind ret].
  destruct t as [raw|alg wire signature]; [discriminate|].
  unfold jwt.Unmarshal. case_decide as Hall; [|discriminate].
  destruct (jwt.GetSigningMethod alg) as [m|] eqn:Em; [|discriminate].
  destruct m as [h| | | | |]; try discriminate.
  cbn [AuthService.keyFunc jwt.Method jwt.Verify].
  destruct (jwt.hmac_sum h (AuthService.jwtSecret s) (alg, wire)
            =? signature)%string eqn:Esig; [|discriminate].
  apply String.eqb_eq in Esig. cbn [negb].
  destruct (time_Now w) as [now w'].
  destruct (jwt.Validate _ now); [|discriminate].
  cbn [jwt.Valid jwt.Claims]. rewrite !lookup_fmap.
  destruct (wire !! "user_id") as [v|] eqn:Eid; [|discriminate].
  pose proof (Hall _ _ Eid) as Hread.
  destruct v as [n| |]; try discriminate.
  cbn [fmap option_fmap option_map jwt.read_value].
  destruct (wire !! "email") as [v|] eqn:Eemail; [|discriminate].
  destruct v as [|e|]; try discriminate.
  cbn [fmap option_fmap option_map jwt.read_value fst].
  intros [= <-]. cbn [jwt.readable] in Hread. destruct Hread as [f Hf].
  exists alg, wire, signature, h, n, f, e.
  rewrite Hf. cbn [default from_option id JWTClaims.UserID JWTClaims.Email].
  repeat split; auto.
Qed.

End Sessions.

Lemma Login_token_validates_for_a_week_witness :
  exists w1,
    AuthService.Login
      sample.authService
      (models.LoginRequest.mk "john.doe@example.com" "admin123") sample.world
    = (Ok (sample.john_token, sample.john_logged_in), w1)
    /\ (models.ID sample.john_logged_in <= 2 ^ 53)%N
    /\ 0 <= w_now sample.world
    /\ w_now w1 < 2 ^ 62
    /\ w_now sample.week_later <= w_now sample.world + 604799 * 10 ^ 9
    /\ utf8.ValidString (models.Email sample.john_logged_in) = true
    /\ fst (AuthService.ValidateJWT sample.authService sample.john_token
                                    sample.week_later)
       = Ok (models.JWTClaims.mk 2%N "john.doe@example.com").
Proof.
  eexists.
  assert (H1 : AuthService.Login
                 sample.authService
                 (models.LoginRequest.mk "john.doe@example.com" "admin123")
                 sample.world
               = (Ok (sample.john_token, sample.john_logged_in),
                  mkWorld (memory.replace_row sample.john_logged_in
                                              sample.users)
                          sample.noon [] []))
    by (vm_compute; reflexivity).
  assert (H2 : (models.ID sample.john_logged_in <= 2 ^ 53)%N)
    by (vm_compute; discriminate).
  assert (H3 : 0 <= w_now sample.world) by (vm_compute; discriminate).
  assert (H4 : w_now (mkWorld (memory.replace_row sample.john_logged_in
                                                  sample.users)
                              sample.noon [] []) < 2 ^ 62)
    by (vm_compute; reflexivity).
  assert (H5 : w_now sample.week_later
               <= w_now sample.world + 604799 * 10 ^ 9)
    by (vm_compute; discriminate).
  assert (H6 : utf8.ValidString (models.Email sample.john_logged_in) = true)
    by (vm_compute; reflexivity).
  split; [exact H1|]. repeat (split; [assumption|]).
  exact (proj2 (Login_token_validates_for_a_week
                  sample.authService _ sample.world _ sample.week_later
                  sample.john_token sample.john_logged_in H1 H2 H3 H4 H5)
               H6).
Defined.

Lemma ValidateJWT_accepts_only_tokens_signed_with_the_secret_witness :
  fst (AuthService.ValidateJWT sample.authService sample.john_token
                               sample.world)
  = Ok (models.JWTClaims.mk 2%N "john.doe@example.com")
  /\ exists alg wire signature h n f e,
      sample.john_token = jwt.segments alg wire signature
      /\ jwt.GetSigningMethod alg = Some (jwt.SigningMethodHMAC h)
      /\ signature
         = jwt.hmac_sum h (AuthService.jwtSecret sample.authService)
                        (alg, wire)
      /\ wire !! "user_id" = Some (jwt.VNumber n)
      /\ jwt.float64_of_literal n = Some f
      /\ 2%N = jwt.uint_of_float64 f
      /\ wire !! "email" = Some (jwt.VString e)
      /\ "john.doe@example.com" = json.String_ e.
Proof.
  assert (H1 : fst (AuthService.ValidateJWT sample.authService
                                            sample.john_token sample.world)
               = Ok (models.JWTClaims.mk 2%N "john.doe@example.com"))
    by (vm_compute; reflexivity).
  split; [exact H1|].
  exact (ValidateJWT_accepts_only_tokens_signed_with_the_secret
           sample.authService sample.john_token sample.world _ H1).
Defined.

(** ** Request authentication *)

Section Authentication.

Import models.

Context {DB : Type} {R : repository.UserRepository DB}.
Context {P : Platform} {H : jwt.MAC} {B : bcrypt.Hasher}.

(** The token a request is judged by: the bearer token when the header
    carries one, the cookie otherwise. *)
Lemma AuthMiddleware_token (s : AuthService.t) (c : middleware.Request)
      (w : World DB) :
  (exists token,
      (middleware.bearer c = Some token
       \/ (middleware.bearer c = None
           /\ middleware.jwt_cookie c = Some token))
      /\ middleware.AuthMiddleware s c w = middleware.authenticate s token w
      /\ middleware.OptionalAuthMiddleware s c w
         = middleware.identify s token w)
  \/ (middleware.bearer c = None /\ middleware.jwt_cookie c = None
      /\ middleware.AuthMiddleware s c w
         = (middleware.Abort 401 "Authorization token required", w)
      /\ middleware.OptionalAuthMiddleware s c w = (None, w)).
Proof.
  unfold middleware.AuthMiddleware, middleware.OptionalAuthMiddleware.
  destruct (middleware.bearer c) as [token|]; [left; eauto 6|].
  destruct (middleware.jwt_cookie c) as [token|]; [left; eauto 7|].
  right. repeat split.
Qed.

(** What [AuthMiddleware] answers: status 401, or a user whose active
    flag is set. *)
Lemma AuthMiddleware_gate
      (s : AuthService.t) (c : middleware.Request) (w : World DB) :
  match fst (middleware.AuthMiddleware s c w) with
  | middleware.Next user => IsActive user = true
  | middleware.Abort status _ => status = 401
  end.
Proof.
  destruct (AuthMiddleware_token s c w)
    as [(token & _ & -> & _)|(_ & _ & -> & _)]; [|reflexivity].
  unfold middleware.authenticate, AuthService.GetUserByID.
  cbv beta iota delta [bind ret query].
  destruct (AuthService.ValidateJWT s token w) as [[claims|e] w'];
    [|reflexivity].
  destruct (repository.GetByID _ (w_db w')) as [user|]; [|reflexivity].
  destruct (IsActive user) eqn:Eactive; cbn [negb fst];
    [exact Eactive | reflexivity].
Qed.

(** What [AuthMiddleware] does to the world. *)
Lemma AuthMiddleware_world
      (s : AuthService.t) (c : middleware.Request) (w : World DB) :
  snd (middleware.AuthMiddleware s c w) = w
  \/ snd (middleware.AuthMiddleware s c w) = snd (time_Now w).
Proof.
  destruct (AuthMiddleware_token s c w)
    as [(token & _ & -> & _)|(_ & _ & -> & _)]; [|now left].
  unfold middleware.authenticate, AuthService.GetUserByID.
  cbv beta iota delta [bind ret query].
  pose proof (ValidateJWT_reads_the_clock s token w) as Hw.
  destruct (AuthService.ValidateJWT s token w) as [[claims|e] w'];
    cbn [snd] in *; [|exact Hw].
  destruct (repository.GetByID _ (w_db w')) as [user|]; [|exact Hw].
  destruct (IsActive user); exact Hw.
Qed.

(** X10.  [AuthMiddleware] lets a request through only as a stored,
    active identity: the request carries a token, in the header or else
    in the cookie, that [ValidateJWT] accepts, and the user set in the
    context is the record the repository holds under the key of its
    claims, with its active flag set.  Every other request is aborted
    with status 401. *)
Theorem AuthMiddleware_lets_through_only_active_stored_identities
        (s : AuthService.t) (c : middleware.Request) (w : World DB) :
  match fst (middleware.AuthMiddleware s c w) with
  | middleware.Next user =>
    IsActive user = true
    /\ exists token claims,
        (middleware.bearer c = Some token
         \/ (middleware.bearer c = None
             /\ middleware.jwt_cookie c = Some token))
        /\ fst (AuthService.ValidateJWT s token w) = Ok claims
        /\ repository.GetByID (JWTClaims.UserID claims) (w_db w) = Ok user
  | middleware.Abort status _ => status = 401
  end.
Proof.
  destruct (AuthMiddleware_token s c w)
    as [(token & Hsrc & -> & _)|(_ & _ & -> & _)]; [|reflexivity].
  unfold middleware.authenticate, AuthService.GetUserByID.
  cbv beta iota delta [bind ret query].
  assert (Hdb : w_db (snd (AuthService.ValidateJWT s token w)) = w_db w).
  { destruct (ValidateJWT_reads_the_clock s token w) as [-> | ->];
      reflexivity. }
  destruct (AuthService.ValidateJWT s token w) as [[claims|e] w'] eqn:Ev;
    [|reflexivity].
  cbn [snd] in Hdb. rewrite Hdb.
  destruct (repository.GetByID _ (w_db w)) as [user|] eqn:Eget;
    [|reflexivity].
  destruct (IsActive user) eqn:Eactive; cbn [negb fst]; [|reflexivity].
  split; [exact Eactive|]. exists token, claims.
  split; [exact Hsrc|]. split; [|exact Eget].
  now rewrite Ev.
Qed.

(** X11.  Authentication never writes: after [AuthMiddleware] or
    [OptionalAuthMiddleware] the world is the one before, or the one
    before with the clock read once. *)
Theorem authentication_only_reads_the_clock
        (s : AuthService.t) (c : middleware.Request) (w : World DB) :
  (snd (middleware.AuthMiddleware s c w) = w
   \/ snd (middleware.AuthMiddleware s c w) = snd (time_Now w))
  /\ (snd (middleware.OptionalAuthMiddleware s c w) = w
      \/ snd (middleware.OptionalAuthMiddleware s c w) = snd (time_Now w)).
Proof.
  split; [apply AuthMiddleware_world|].
  destruct (AuthMiddleware_token s c w)
    as [(token & _ & _ & ->)|(_ & _ & _ & ->)]; [|now left].
  unfold middleware.identify, AuthService.GetUserByID.
  cbv beta iota delta [bind ret query].
  pose proof (ValidateJWT_reads_the_clock s token w) as Hw.
  destruct (AuthService.ValidateJWT s token w) as [[claims|e] w'];
    cbn [snd] in *; [|exact Hw].
  destruct (repository.GetByID _ (w_db w')) as [user|]; [|exact Hw].
  destruct (IsActive user); exact Hw.
Qed.

(** X12.  [OptionalAuthMiddleware] sets a user in the context exactly
    when [AuthMiddleware] lets the same request through, and sets the
    same user; both leave the same world. *)
Theorem OptionalAuthMiddleware_sets_whom_AuthMiddleware_lets_through
        (s : AuthService.t) (c : middleware.Request) (w : World DB) :
  middleware.OptionalAuthMiddleware s c w
  = (match fst (middleware.AuthMiddleware s c w) with
     | middleware.Next user => Some user
     | middleware.Abort _ _ => None
     end,
     snd (middleware.AuthMiddleware s c w)).
Proof.
  destruct (AuthMiddleware_token s c w)
    as [(token & _ & -> & ->)|(_ & _ & -> & ->)]; [|reflexivity].
  unfold middleware.authenticate, middleware.identify,
    AuthService.GetUserByID.
  cbv beta iota delta [bind ret query].
  destruct (AuthService.ValidateJWT s token w) as [[claims|e] w'];
    [|reflexivity].
  destruct (repository.GetByID _ (w_db w')) as [user|]; [|reflexivity].
  destruct (IsActive user); reflexivity.
Qed.

(** X13.  The admin middleware pass exactly the users the admin
    service takes for privileged: [AdminRequired] and [AdminAPIRequired]
    pass a user when [AdminService.IsAdmin] holds of it and answer 403
    otherwise. *)
Theorem admin_gates_pass_exactly_the_privileged (authUser : User) :
  middleware.AdminRequired (Some (middleware.user_entry authUser))
  = (if AdminService.IsAdmin authUser then middleware.Passed
     else middleware.Aborted
            (middleware.HTML
               403 "Access Denied"
               "Admin privileges required to access this page"))
  /\ middleware.AdminAPIRequired (Some (middleware.user_entry authUser))
     = (if AdminService.IsAdmin authUser then middleware.Passed
        else middleware.Aborted
               (middleware.JSON 403 "Admin privileges required")).
Proof.
  unfold middleware.AdminRequired, middleware.AdminAPIRequired,
    AdminService.IsAdmin.
  destruct (IsAdmin authUser), (Role authUser =? "admin")%string;
    split; reflexivity.
Qed.

Lemma save_not_denied (user : User) (w : World DB) :
  fst (repository.save user w) <> Err ErrNotAuthorized.
Proof. intros Hf. apply save_error in Hf as [d Hd]. discriminate. Qed.

(** X14.  The two super admin middleware pass the same users.  A user
    they pass is passed by the admin middleware too and is never
    answered [ErrNotAuthorized] by [PromoteToAdmin] or
    [DemoteFromAdmin]; a user they stop is answered [ErrNotAuthorized]
    by both on every target, with nothing written. *)
Theorem super_admin_gate_is_the_gate_of_promotion
        (authUser : User) (userID : uint) (w : World DB) :
  (middleware.SuperAdminRequired (Some (middleware.user_entry authUser))
   = middleware.Passed
   <-> middleware.SuperAdminAPIRequired
         (Some (middleware.user_entry authUser))
       = middleware.Passed)
  /\ (middleware.SuperAdminAPIRequired
        (Some (middleware.user_entry authUser))
      = middleware.Passed ->
      middleware.AdminAPIRequired (Some (middleware.user_entry authUser))
      = middleware.Passed
      /\ fst (AdminService.PromoteToAdmin authUser userID w)
         <> Err ErrNotAuthorized
      /\ fst (AdminService.DemoteFromAdmin authUser userID w)
         <> Err ErrNotAuthorized)
  /\ (middleware.SuperAdminAPIRequired
        (Some (middleware.user_entry authUser))
      <> middleware.Passed ->
      AdminService.PromoteToAdmin authUser userID w
      = (Err ErrNotAuthorized, w)
      /\ AdminService.DemoteFromAdmin authUser userID w
         = (Err ErrNotAuthorized, w)).
Proof.
  unfold middleware.SuperAdminRequired, middleware.SuperAdminAPIRequired,
    middleware.AdminAPIRequired, AdminService.PromoteToAdmin,
    AdminService.DemoteFromAdmin, AdminService.IsAdmin.
  destruct (Role authUser =? "admin")%string; cbn [negb].
  - rewrite !orb_true_r, andb_false_r. cbn [negb orb].
    cbv beta iota delta [bind ret query].
    split; [tauto|]. split; [|congruence]. intros _.
    split; [reflexivity|].
    destruct (repository.GetByID userID (w_db w)) as [user|];
      [|split; discriminate].
    split; [apply save_not_denied|].
    destruct (ID user =? ID authUser)%N;
      [discriminate | apply save_not_denied].
  - rewrite !orb_true_r. split; [split; discriminate|].
    split; [discriminate|]. intros _. split; reflexivity.
Qed.

(** X15.  [RoleRequired] passes a user exactly when its role is one of
    the allowed roles, or [admin] is one of them and the user carries
    the admin flag; so [RoleRequired("admin")] passes exactly the users
    [AdminService.IsAdmin] holds of, and no user is passed when no role
    is allowed. *)
Theorem RoleRequired_passes_a_listed_role_or_a_flagged_admin
        (allowedRoles : list string) (authUser : User) :
  (middleware.RoleRequired allowedRoles
                           (Some (middleware.user_entry authUser))
   = middleware.Passed
   <-> (In (Role authUser) allowedRoles
        \/ (In "admin" allowedRoles /\ IsAdmin authUser = true)))
  /\ (middleware.RoleRequired ["admin"]
                              (Some (middleware.user_entry authUser))
      = middleware.Passed
      <-> AdminService.IsAdmin authUser = true)
  /\ middleware.RoleRequired [] (Some (middleware.user_entry authUser))
     = middleware.Aborted (middleware.JSON 403 "Insufficient privileges").
Proof.
  assert (Hloop : forall roles,
             existsb (fun role =>
                        (Role authUser =? role)%string
                        || ((role =? "admin")%string && IsAdmin authUser))
                     roles = true
             <-> (In (Role authUser) roles
                  \/ (In "admin" roles /\ IsAdmin authUser = true))).
  { intros roles. rewrite existsb_exists. split.
    - intros (role & Hin & Hfit). apply orb_true_iff in Hfit as [Hfit|Hfit].
      + apply String.eqb_eq in Hfit. subst role. now left.
      + apply andb_true_iff in Hfit as [Hadm Hflag].
        apply String.eqb_eq in Hadm. subst role. now right.
    - intros [Hin|[Hin Hflag]].
      + exists (Role authUser). split; [exact Hin|].
        now rewrite String.eqb_refl.
      + exists "admin". split; [exact Hin|].
        rewrite Hflag, String.eqb_refl. apply orb_true_r. }
  unfold middleware.RoleRequired. split; [|split; [|reflexivity]].
  - rewrite <- Hloop. destruct (existsb _ allowedRoles); cbn [negb];
      split; congruence.
  - unfold AdminService.IsAdmin. cbn [existsb].
    rewrite String.eqb_refl, orb_false_r. cbn [andb].
    destruct (Role authUser =? "admin")%string, (IsAdmin authUser);
      cbn; split; congruence.
Qed.

End Authentication.

Lemma super_admin_gate_is_the_gate_of_promotion_witness :
  middleware.SuperAdminAPIRequired (Some (middleware.user_entry sample.flagged))
  <> middleware.Passed
  /\ middleware.AdminAPIRequired (Some (middleware.user_entry sample.flagged))
     = middleware.Passed
  /\ AdminService.PromoteToAdmin sample.flagged 2%N sample.world
     = (Err ErrNotAuthorized, sample.world)
  /\ AdminService.DemoteFromAdmin sample.flagged 1%N sample.world
     = (Err ErrNotAuthorized, sample.world).
Proof.
  assert (H1 : middleware.SuperAdminAPIRequired
                 (Some (middleware.user_entry sample.flagged))
               <> middleware.Passed) by discriminate.
  split; [exact H1|]. split; [reflexivity|]. split.
  - exact (proj1 (proj2 (proj2 (super_admin_gate_is_the_gate_of_promotion
                                  sample.flagged 2%N sample.world)) H1)).
  - exact (proj2 (proj2 (proj2 (super_admin_gate_is_the_gate_of_promotion
                                  sample.flagged 1%N sample.world)) H1)).
Defined.

Lemma RoleRequired_passes_a_listed_role_or_a_flagged_admin_witness :
  In "admin" ["moderator"; "admin"]
  /\ models.IsAdmin sample.flagged = true
  /\ ~ In (models.Role sample.flagged) ["moderator"; "admin"]
  /\ middleware.RoleRequired ["moderator"; "admin"]
                             (Some (middleware.user_entry sample.flagged))
     = middleware.Passed.
Proof.
  assert (H1 : In "admin" ["moderator"; "admin"]) by (right; left; reflexivity).
  assert (H2 : models.IsAdmin sample.flagged = true) by reflexivity.
  split; [exact H1|]. split; [exact H2|]. split.
  - intros [Hm|[Ha|[]]]; discriminate.
  - apply (proj1 (RoleRequired_passes_a_listed_role_or_a_flagged_admin
                    ["moderator"; "admin"] sample.flagged)).
    right. split; assumption.
Defined.

(** ** Identity federation *)

Section Federation.

Import models.

Context {DB : Type} {R : repository.UserRepository DB}.
Context {P : Platform} {H : jwt.MAC} {B : bcrypt.Hasher}.
Context {O : OAuthService.Providers}.

(** The loop over the addresses returns at the first primary one. *)
Lemma find_first_primary (before after : list (string * bool))
      (address : string) :
  Forall (fun e => snd e = false) before ->
  find (fun email : string * bool => snd email)
       (before ++ (address, true) :: after)
  = Some (address, true).
Proof.
  induction 1 as [|[a p] before Hp _ IH]; [reflexivity|].
  cbn in *. now rewrite Hp.
Qed.

Lemma find_no_primary (emails : list (string * bool)) :
  Forall (fun e => snd e = false) emails ->
  find (fun email : string * bool => snd email) emails = None.
Proof.
  induction 1 as [|[a p] emails Hp _ IH]; [reflexivity|].
  cbn in *. now rewrite Hp.
Qed.

(** X16.  Once the profile endpoint of GitHub has answered,
    [getGitHubUserInfo] succeeds.  A profile with a public e-mail is
    returned as it is.  For a profile without one, the addresses of the
    account are fetched and the first that is flagged primary becomes
    the e-mail of the profile; when none is flagged, or the addresses
    cannot be fetched, the profile is returned with its e-mail empty. *)
Theorem GitHub_profile_takes_the_first_primary_address
        (accessToken : string) (profile : OAuthService.GitHubUser.t) :
  OAuthService.api_user accessToken = Ok profile ->
  (OAuthService.GitHubUser.Email profile <> "" ->
   OAuthService.getGitHubUserInfo accessToken = Ok profile)
  /\ (OAuthService.GitHubUser.Email profile = "" ->
      (forall before address after,
          OAuthService.api_user_emails accessToken
          = Ok (before ++ (address, true) :: after)%list ->
          Forall (fun e => snd e = false) before ->
          OAuthService.getGitHubUserEmail accessToken = Ok address
          /\ OAuthService.getGitHubUserInfo accessToken
             = Ok (OAuthService.GitHubUser.set_Email address profile))
      /\ (forall emails,
             OAuthService.api_user_emails accessToken = Ok emails ->
             Forall (fun e => snd e = false) emails ->
             OAuthService.getGitHubUserEmail accessToken
             = Err (errors_New "no primary email found")
             /\ OAuthService.getGitHubUserInfo accessToken = Ok profile)
      /\ (forall e,
             OAuthService.api_user_emails accessToken = Err e ->
             OAuthService.getGitHubUserInfo accessToken = Ok profile)).
Proof.
  intros Hprofile.
  unfold OAuthService.getGitHubUserInfo, OAuthService.getGitHubUserEmail.
  rewrite Hprofile. split.
  - intros Hpublic. apply String.eqb_neq in Hpublic. now rewrite Hpublic.
  - intros ->. cbn [String.eqb]. split; [|split].
    + intros before address after -> Hbefore.
      rewrite (find_first_primary before after address Hbefore).
      split; reflexivity.
    + intros emails -> Hnone. rewrite (find_no_primary emails Hnone).
      split; reflexivity.
    + intros e ->. reflexivity.
Qed.

(** X17.  A profile whose provider key is known resolves to the stored
    record under that key, as it is: nothing is written, and neither
    the e-mail nor the names of the profile are looked at. *)
Theorem known_provider_key_resolves_to_the_stored_identity (w : World DB) :
  (forall googleUser user,
      repository.GetByGoogleID (OAuthService.GoogleUser.ID googleUser)
                               (w_db w) = Ok user ->
      OAuthService.findOrCreateGoogleUser googleUser w = (Ok user, w))
  /\ (forall githubUser user,
         repository.GetByGitHubID
           (OAuthService.Sprintf_d (OAuthService.GitHubUser.ID githubUser))
           (w_db w) = Ok user ->
         OAuthService.findOrCreateGitHubUser githubUser w = (Ok user, w)).
Proof.
  unfold OAuthService.findOrCreateGoogleUser,
    OAuthService.findOrCreateGitHubUser.
  cbv beta iota zeta delta [bind ret query].
  split; intros profile user ->; reflexivity.
Qed.

Lemma backfill_avatar_keeps (picture : string) (u : User) :
  (ID (OAuthService.backfill_avatar picture u) = ID u
   /\ Email (OAuthService.backfill_avatar picture u) = Email u
   /\ Password (OAuthService.backfill_avatar picture u) = Password u)
  /\ (IsActive (OAuthService.backfill_avatar picture u) = IsActive u
      /\ IsVerified (OAuthService.backfill_avatar picture u) = IsVerified u
      /\ IsAdmin (OAuthService.backfill_avatar picture u) = IsAdmin u
      /\ Role (OAuthService.backfill_avatar picture u) = Role u)
  /\ (GoogleID (OAuthService.backfill_avatar picture u) = GoogleID u
      /\ GitHubID (OAuthService.backfill_avatar picture u) = GitHubID u)
  /\ (forall url, AvatarURL u = Some url -> url <> "" ->
                  AvatarURL (OAuthService.backfill_avatar picture u)
                  = Some url).
Proof.
  unfold OAuthService.backfill_avatar.
  destruct (AvatarURL u) as [url|] eqn:Eurl.
  - destruct (url =? "")%string eqn:Eempty.
    + apply String.eqb_eq in Eempty. repeat split. congruence.
    + repeat split. now intros ? [= <-].
  - repeat split. discriminate.
Qed.

Lemma backfill_avatar_fills (picture : string) (u : User) :
  AvatarURL u = None \/ AvatarURL u = Some "" ->
  AvatarURL (OAuthService.backfill_avatar picture u)
  = OAuthService.stringPtr picture.
Proof.
  unfold OAuthService.backfill_avatar. now intros [-> | ->].
Qed.

(** X18.  A profile whose provider key is unknown and whose e-mail is
    that of a stored record is linked to it: [Update] of the repository
    is handed the record with the provider key set and, if it had no
    avatar or an empty one, the picture of the profile; the table
    afterwards is the table [Update] returns for that record, and the
    answer is the record [Update] hands back, or the error of [Update].
    The key, e-mail, password, activation, verification and admin
    signals of the record, the key of the other provider and an avatar
    it already had are written as stored.  GitHub links only a profile
    that has an e-mail: for a profile without one and with an unknown
    key, no record is looked up by e-mail, and a new one is handed to
    [Create]. *)
Theorem linking_a_provider_keeps_credentials_and_privileges
        (user : User) (w : World DB) :
  (forall googleUser e,
      repository.GetByGoogleID (OAuthService.GoogleUser.ID googleUser)
                               (w_db w) = Err e ->
      repository.GetByEmail (OAuthService.GoogleUser.Email googleUser)
                            (w_db w) = Ok user ->
      exists written,
        OAuthService.findOrCreateGoogleUser googleUser w
        = repository.save written w
        /\ GoogleID written
           = OAuthService.stringPtr (OAuthService.GoogleUser.ID googleUser)
        /\ GitHubID written = GitHubID user
        /\ (ID written = ID user /\ Email written = Email user
            /\ Password written = Password user)
        /\ (IsActive written = IsActive user
            /\ IsVerified written = IsVerified user
            /\ IsAdmin written = IsAdmin user /\ Role written = Role user)
        /\ (forall url, AvatarURL user = Some url -> url <> "" ->
                        AvatarURL written = Some url)
        /\ (AvatarURL user = None \/ AvatarURL user = Some "" ->
            AvatarURL written
            = OAuthService.stringPtr
                (OAuthService.GoogleUser.Picture googleUser))
        /\ written
           = OAuthService.backfill_avatar
               (OAuthService.GoogleUser.Picture googleUser)
               (set_GoogleID
                  (OAuthService.stringPtr
                     (OAuthService.GoogleUser.ID googleUser))
                  user)
        /\ fst (OAuthService.findOrCreateGoogleUser googleUser w)
           = match repository.Update written (w_db w) with
             | (_, Some failure, _) => Err (from_db failure)
             | (saved, None, _) => Ok saved
             end
        /\ snd (OAuthService.findOrCreateGoogleUser googleUser w)
           = mkWorld (snd (repository.Update written (w_db w)))
                     (w_now w) (w_ticks w) (w_entropy w))
  /\ (forall githubUser e,
         repository.GetByGitHubID
           (OAuthService.Sprintf_d (OAuthService.GitHubUser.ID githubUser))
           (w_db w) = Err e ->
         OAuthService.GitHubUser.Email githubUser <> "" ->
         repository.GetByEmail (OAuthService.GitHubUser.Email githubUser)
                               (w_db w) = Ok user ->
         exists written,
           OAuthService.findOrCreateGitHubUser githubUser w
           = repository.save written w
           /\ GitHubID written
              = OAuthService.stringPtr
                  (OAuthService.Sprintf_d
                     (OAuthService.GitHubUser.ID githubUser))
           /\ GoogleID written = GoogleID user
           /\ (ID written = ID user /\ Email written = Email user
               /\ Password written = Password user)
           /\ (IsActive written = IsActive user
               /\ IsVerified written = IsVerified user
               /\ IsAdmin written = IsAdmin user /\ Role written = Role user)
           /\ (forall url, AvatarURL user = Some url -> url <> "" ->
                           AvatarURL written = Some url)
           /\ (AvatarURL user = None \/ AvatarURL user = Some "" ->
               AvatarURL written
               = OAuthService.stringPtr
                   (OAuthService.GitHubUser.AvatarURL githubUser))
           /\ written
              = OAuthService.backfill_avatar
                  (OAuthService.GitHubUser.AvatarURL githubUser)
                  (set_GitHubID
                     (OAuthService.stringPtr
                        (OAuthService.Sprintf_d
                           (OAuthService.GitHubUser.ID githubUser)))
                     user)
           /\ fst (OAuthService.findOrCreateGitHubUser githubUser w)
              = match repository.Update written (w_db w) with
                | (_, Some failure, _) => Err (from_db failure)
                | (saved, None, _) => Ok saved
                end
           /\ snd (OAuthService.findOrCreateGitHubUser githubUser w)
              = mkWorld (snd (repository.Update written (w_db w)))
                        (w_now w) (w_ticks w) (w_entropy w))
  /\ (forall githubUser e,
         repository.GetByGitHubID
           (OAuthService.Sprintf_d (OAuthService.GitHubUser.ID githubUser))
           (w_db w) = Err e ->
         OAuthService.GitHubUser.Email githubUser = "" ->
         let fresh :=
           OAuthService.newGitHubUser
             (OAuthService.Sprintf_d (OAuthService.GitHubUser.ID githubUser))
             githubUser in
         fst (OAuthService.findOrCreateGitHubUser githubUser w)
         = match fst (repository.Create fresh (w_db w)) with
           | Ok user' => Ok user'
           | Err failure => Err (from_db failure)
           end
         /\ snd (OAuthService.findOrCreateGitHubUser githubUser w)
            = mkWorld (snd (repository.Create fresh (w_db w)))
                      (w_now w) (w_ticks w) (w_entropy w)
         /\ Email fresh = "" /\ ID fresh = 0%N
         /\ IsVerified fresh = false).
Proof.
  unfold OAuthService.findOrCreateGoogleUser,
    OAuthService.findOrCreateGitHubUser.
  cbv beta iota zeta delta [bind ret query]. split; [|split].
  - intros profile e -> ->.
    destruct (backfill_avatar_keeps
                (OAuthService.GoogleUser.Picture profile)
                (set_GoogleID
                   (OAuthService.stringPtr (OAuthService.GoogleUser.ID profile))
                   user))
      as (Hkeys & Hflags & (Hg & Hh) & Havatar).
    pose proof (backfill_avatar_fills
                  (OAuthService.GoogleUser.Picture profile)
                  (set_GoogleID
                     (OAuthService.stringPtr
                        (OAuthService.GoogleUser.ID profile))
                     user)) as Hfill.
    eexists. split; [reflexivity|].
    do 5 (split; [first [tauto | exact Havatar]|]).
    split; [exact Hfill|]. split; [reflexivity|].
    rewrite save_writes. cbn [fst snd]. split; [|reflexivity].
    destruct (repository.Update _ (w_db w)) as [[saved [failure|]] db'];
      reflexivity.
  - intros profile e -> Hemail Hget.
    apply String.eqb_neq in Hemail. rewrite Hemail. cbv beta iota.
    rewrite Hget.
    destruct (backfill_avatar_keeps
                (OAuthService.GitHubUser.AvatarURL profile)
                (set_GitHubID
                   (OAuthService.stringPtr
                      (OAuthService.Sprintf_d
                         (OAuthService.GitHubUser.ID profile)))
                   user))
      as (Hkeys & Hflags & (Hg & Hh) & Havatar).
    pose proof (backfill_avatar_fills
                  (OAuthService.GitHubUser.AvatarURL profile)
                  (set_GitHubID
                     (OAuthService.stringPtr
                        (OAuthService.Sprintf_d
                           (OAuthService.GitHubUser.ID profile)))
                     user)) as Hfill.
    eexists. split; [reflexivity|].
    do 5 (split; [first [tauto | exact Havatar]|]).
    split; [exact Hfill|]. split; [reflexivity|].
    rewrite save_writes. cbn [fst snd]. split; [|reflexivity].
    destruct (repository.Update _ (w_db w)) as [[saved [failure|]] db'];
      reflexivity.
  - intros profile e -> Hemail. rewrite Hemail. cbn [String.eqb].
    unfold command. cbn [w_db].
    split; [|split; [|split; [|split]]].
    + destruct (repository.Create _ (w_db w)) as [[user'|failure] db'];
        reflexivity.
    + destruct (repository.Create _ (w_db w)) as [[user'|failure] db'];
        reflexivity.
    + unfold OAuthService.newGitHubUser. cbn. exact Hemail.
    + reflexivity.
    + unfold OAuthService.newGitHubUser. cbn. now rewrite Hemail.
Qed.

End Federation.

(** ** Identity federation: the token of a callback *)

Section Resolution.

Import models.

Context {DB : Type} {R : repository.UserRepository DB}.
Context {P : Platform} {H : jwt.MAC} {B : bcrypt.Hasher}.
Context {O : OAuthService.Providers}.

(** Resolving a profile does not read the clock. *)
Lemma save_clock (user : User) (w : World DB) :
  w_now (snd (repository.save user w)) = w_now w
  /\ w_ticks (snd (repository.save user w)) = w_ticks w.
Proof.
  unfold repository.save, command. cbv beta iota delta [bind ret].
  destruct (repository.Update user (w_db w)) as [r db']. split; reflexivity.
Qed.

Lemma findOrCreateGoogleUser_clock (googleUser : OAuthService.GoogleUser.t)
      (w : World DB) :
  w_now (snd (OAuthService.findOrCreateGoogleUser googleUser w)) = w_now w
  /\ w_ticks (snd (OAuthService.findOrCreateGoogleUser googleUser w))
     = w_ticks w.
Proof.
  unfold OAuthService.findOrCreateGoogleUser.
  cbv beta iota zeta delta [bind ret query].
  destruct (repository.GetByGoogleID _ (w_db w)); [split; reflexivity|].
  destruct (repository.GetByEmail _ (w_db w)); [apply save_clock|].
  unfold command. destruct (repository.Create _ (w_db w)) as [r db'].
  split; reflexivity.
Qed.

Lemma findOrCreateGitHubUser_clock (githubUser : OAuthService.GitHubUser.t)
      (w : World DB) :
  w_now (snd (OAuthService.findOrCreateGitHubUser githubUser w)) = w_now w
  /\ w_ticks (snd (OAuthService.findOrCreateGitHubUser githubUser w))
     = w_ticks w.
Proof.
  unfold OAuthService.findOrCreateGitHubUser.
  cbv beta iota zeta delta [bind ret query].
  destruct (repository.GetByGitHubID _ (w_db w)); [split; reflexivity|].
  assert (Hcreate : forall u,
             w_now (snd (let (a, w') := command (repository.Create u) w in
                         (OAuthService.created a, w'))) = w_now w
             /\ w_ticks (snd (let (a, w') := command (repository.Create u) w in
                              (OAuthService.created a, w'))) = w_ticks w).
  { intros u. unfold command.
    destruct (repository.Create u (w_db w)) as [r db']. split; reflexivity. }
  destruct (OAuthService.GitHubUser.Email githubUser =? "")%string;
    [apply Hcreate|].
  destruct (repository.GetByEmail _ (w_db w));
    [apply save_clock | apply Hcreate].
Qed.

Lemma resolve_and_issue_validates
      (s : AuthService.t) (found : M DB (result error User))
      (w w1 w' : World DB) (token : jwt.tokenString) (user : User) :
  w_now (snd (found w)) = w_now w /\ w_ticks (snd (found w)) = w_ticks w ->
  OAuthService.resolve_and_issue s found w = (Ok (token, user), w1) ->
  (ID user <= 2 ^ 53)%N ->
  0 <= w_now w ->
  w_now w1 < 2 ^ 62 ->
  w_now w' <= w_now w + 604799 * 10 ^ 9 ->
  fst (AuthService.ValidateJWT s token w')
  = Ok (JWTClaims.mk (ID user) (json.String_ (Email user))).
Proof.
  intros [Hclock Hticks]. unfold OAuthService.resolve_and_issue.
  cbv beta iota delta [bind ret].
  destruct (found w) as [[resolved|e] w2]; [|discriminate].
  cbn [snd] in Hclock, Hticks.
  pose proof (GenerateJWT_clock s resolved w2) as [Hmono Hend].
  destruct (AuthService.GenerateJWT s resolved w2) as [[issued|err] w3]
    eqn:Egen; [|discriminate].
  intros [= <- <- <-] Hid Hnow Hlate Hfresh. cbn [snd] in Hend.
  apply (issued_token_validates s resolved w2 w' issued);
    [now rewrite Egen | exact Hid | lia | lia | lia].
Qed.

(** X19.  The token a successful OAuth callback returns validates, at
    every instant up to seven days less a second after the callback
    began, to claims that carry the key of the identity the profile was
    resolved to, be it found, linked or created, and its e-mail as
    [encoding/json] writes it: every byte that is not part of a
    well-formed UTF-8 sequence replaced by U+FFFD.  So the claims carry
    the e-mail itself when it is valid UTF-8.  The key is at most 2^53
    and the clock stays between 1970 and 2^62 nanoseconds later while
    the callback runs. *)
Theorem callback_token_names_the_resolved_identity
        (s : AuthService.t) (code : string) (w w1 w' : World DB)
        (token : jwt.tokenString) (user : User) :
  OAuthService.HandleGoogleCallback s code w = (Ok (token, user), w1)
  \/ OAuthService.HandleGitHubCallback s code w = (Ok (token, user), w1) ->
  (ID user <= 2 ^ 53)%N ->
  0 <= w_now w ->
  w_now w1 < 2 ^ 62 ->
  w_now w' <= w_now w + 604799 * 10 ^ 9 ->
  fst (AuthService.ValidateJWT s token w')
  = Ok (JWTClaims.mk (ID user) (json.String_ (Email user)))
  /\ (utf8.ValidString (Email user) = true ->
      fst (AuthService.ValidateJWT s token w')
      = Ok (JWTClaims.mk (ID user) (Email user))).
Proof.
  intros Hcalls Hid Hnow Hlate Hfresh.
  assert (fst (AuthService.ValidateJWT s token w')
          = Ok (JWTClaims.mk (ID user) (json.String_ (Email user))))
    as Hv.
  { revert Hcalls Hid Hnow Hlate Hfresh.
    unfold OAuthService.HandleGoogleCallback,
      OAuthService.HandleGitHubCallback.
    intros [Hcall|Hcall].
    - destruct (OAuthService.Exchange OAuthService.google code)
        as [accessToken|]; [|discriminate].
      destruct (OAuthService.getGoogleUserInfo accessToken) as [profile|];
        [|discriminate].
      exact (resolve_and_issue_validates
               s _ w w1 w' token user
               (findOrCreateGoogleUser_clock profile w) Hcall).
    - destruct (OAuthService.Exchange OAuthService.github code)
        as [accessToken|]; [|discriminate].
      destruct (OAuthService.getGitHubUserInfo accessToken) as [profile|];
        [|discriminate].
      exact (resolve_and_issue_validates
               s _ w w1 w' token user
               (findOrCreateGitHubUser_clock profile w) Hcall). }
  split; [exact Hv|]. intros Hutf.
  rewrite (String_valid _ Hutf) in Hv. exact Hv.
Qed.

End Resolution.

(** ** Identity federation on the sample accounts *)

Lemma GitHub_profile_takes_the_first_primary_address_witness :
  OAuthService.api_user "access-token" = Ok sample.dave_profile
  /\ OAuthService.GitHubUser.Email sample.dave_profile = ""
  /\ OAuthService.api_user_emails "access-token"
     = Ok ([] ++ [("dave@example.com", true)])%list
  /\ OAuthService.getGitHubUserEmail "access-token" = Ok "dave@example.com"
  /\ OAuthService.getGitHubUserInfo "access-token"
     = Ok (OAuthService.GitHubUser.set_Email "dave@example.com"
                                             sample.dave_profile).
Proof.
  assert (H1 : OAuthService.api_user "access-token" = Ok sample.dave_profile)
    by reflexivity.
  assert (H2 : OAuthService.GitHubUser.Email sample.dave_profile = "")
    by reflexivity.
  assert (H3 : OAuthService.api_user_emails "access-token"
               = Ok ([] ++ [("dave@example.com", true)])%list)
    by reflexivity.
  repeat (split; [assumption|]).
  exact (proj1 (proj2 (GitHub_profile_takes_the_first_primary_address
                         "access-token" sample.dave_profile H1) H2)
               [] "dave@example.com" [] H3 (Forall_nil _)).
Defined.

Lemma known_provider_key_resolves_to_the_stored_identity_witness :
  repository.GetByGoogleID
    (OAuthService.GoogleUser.ID sample.carol_profile)
    (w_db sample.federated) = Ok sample.carol
  /\ OAuthService.findOrCreateGoogleUser sample.carol_profile sample.federated
     = (Ok sample.carol, sample.federated).
Proof.
  assert (H1 : repository.GetByGoogleID
                 (OAuthService.GoogleUser.ID sample.carol_profile)
                 (w_db sample.federated) = Ok sample.carol) by reflexivity.
  split; [exact H1|].
  exact (proj1 (known_provider_key_resolves_to_the_stored_identity
                  sample.federated) sample.carol_profile sample.carol H1).
Defined.

Lemma linking_a_provider_keeps_credentials_and_privileges_witness :
  repository.GetByGoogleID
    (OAuthService.GoogleUser.ID sample.john_profile) (w_db sample.world)
  = Err ErrRecordNotFound
  /\ repository.GetByEmail
       (OAuthService.GoogleUser.Email sample.john_profile)
       (w_db sample.world) = Ok sample.john
  /\ models.AvatarURL sample.john = None
  /\ fst (OAuthService.findOrCreateGoogleUser sample.john_profile
                                              sample.world)
     = Ok (models.set_AvatarURL
             (Some "https://example.com/john.png")
             (models.set_GoogleID (Some "g-2") sample.john))
  /\ repository.GetByID
       2%N
       (w_db (snd (OAuthService.findOrCreateGoogleUser sample.john_profile
                                                       sample.world)))
     = Ok (models.set_AvatarURL
             (Some "https://example.com/john.png")
             (models.set_GoogleID (Some "g-2") sample.john)).
Proof.
  assert (H1 : repository.GetByGoogleID
                 (OAuthService.GoogleUser.ID sample.john_profile)
                 (w_db sample.world) = Err ErrRecordNotFound) by reflexivity.
  assert (H2 : repository.GetByEmail
                 (OAuthService.GoogleUser.Email sample.john_profile)
                 (w_db sample.world) = Ok sample.john) by reflexivity.
  split; [exact H1|]. split; [exact H2|]. split; [reflexivity|].
  destruct (proj1 (linking_a_provider_keeps_credentials_and_privileges
                     sample.john sample.world)
                  sample.john_profile ErrRecordNotFound H1 H2)
    as (written & _ & _ & _ & _ & _ & _ & _ & -> & Hfst & Hsnd).
  rewrite Hfst, Hsnd. split; vm_compute; reflexivity.
Defined.

Lemma callback_token_names_the_resolved_identity_witness :
  exists w1,
    OAuthService.HandleGoogleCallback sample.authService "good-code"
                                      sample.world
    = (Ok (sample.carol_token, sample.carol), w1)
    /\ (models.ID sample.carol <= 2 ^ 53)%N
    /\ 0 <= w_now sample.world
    /\ w_now w1 < 2 ^ 62
    /\ w_now sample.week_later <= w_now sample.world + 604799 * 10 ^ 9
    /\ utf8.ValidString (models.Email sample.carol) = true
    /\ fst (AuthService.ValidateJWT sample.authService sample.carol_token
                                    sample.week_later)
       = Ok (models.JWTClaims.mk 8%N "carol@example.com").
Proof.
  eexists.
  assert (H1 : OAuthService.HandleGoogleCallback
                 sample.authService "good-code" sample.world
               = (Ok (sample.carol_token, sample.carol), sample.federated))
    by (vm_compute; reflexivity).
  assert (H2 : (models.ID sample.carol <= 2 ^ 53)%N)
    by (vm_compute; discriminate).
  assert (H3 : 0 <= w_now sample.world) by (vm_compute; discriminate).
  assert (H4 : w_now sample.federated < 2 ^ 62) by (vm_compute; reflexivity).
  assert (H5 : w_now sample.week_later
               <= w_now sample.world + 604799 * 10 ^ 9)
    by (vm_compute; discriminate).
  assert (H6 : utf8.ValidString (models.Email sample.carol) = true)
    by (vm_compute; reflexivity).
  split; [exact H1|]. repeat (split; [assumption|]).
  exact (proj2 (callback_token_names_the_resolved_identity
                  sample.authService "good-code" sample.world
                  sample.federated sample.week_later sample.carol_token
                  sample.carol (or_introl H1) H2 H3 H4 H5)
               H6).
Defined.

(** ** OAuth state: how it is drawn *)

Section State.

Import models.

Context {DB : Type} {R : repository.UserRepository DB}.
Context {P : Platform} {H : jwt.MAC} {B : bcrypt.Hasher}.
Context {O : OAuthService.Providers}.

Lemma hexdigit_injective (n m : N) :
  (n < 16)%N -> (m < 16)%N ->
  AuthHandler.hexdigit n = AuthHandler.hexdigit m -> n = m.
Proof.
  intros Hn Hm Heq. unfold AuthHandler.hexdigit in Heq.
  apply (f_equal Ascii.N_of_ascii) in Heq.
  destruct (n <? 10)%N eqn:En, (m <? 10)%N eqn:Em;
    try apply N.ltb_lt in En; try apply N.ltb_ge in En;
    try apply N.ltb_lt in Em; try apply N.ltb_ge in Em;
    rewrite !Ascii.N_ascii_embedding in Heq by lia; lia.
Qed.

Lemma hexdigit_is_a_hex_digit (n : N) :
  (n < 16)%N ->
  In (AuthHandler.hexdigit n) (list_ascii_of_string "0123456789abcdef").
Proof.
  intros Hn.
  assert (Hcases : In n [0; 1; 2; 3; 4; 5; 6; 7; 8; 9; 10; 11; 12; 13; 14;
                         15]%N).
  { destruct n as [|p]; [now left|].
    do 15 (destruct p as [p|p|]; try (exfalso; lia); cbn; auto 20). }
  cbn in Hcases.
  repeat (destruct Hcases as [<-|Hcases]; [cbn; auto 20|]).
  contradiction.
Qed.

Lemma byte_of_nibbles (x y : Byte.byte) :
  (Byte.to_N x / 16 = Byte.to_N y / 16)%N ->
  (Byte.to_N x mod 16 = Byte.to_N y mod 16)%N -> x = y.
Proof.
  intros Hq Hr.
  assert (Hn : Byte.to_N x = Byte.to_N y).
  { rewrite (N.div_mod (Byte.to_N x) 16), (N.div_mod (Byte.to_N y) 16)
      by discriminate.
    now rewrite Hq, Hr. }
  pose proof (Byte.of_to_N x) as Hx. rewrite Hn, Byte.of_to_N in Hx.
  now injection Hx.
Qed.

Lemma nibbles_bounded (x : Byte.byte) :
  (Byte.to_N x / 16 < 16)%N /\ (Byte.to_N x mod 16 < 16)%N.
Proof.
  pose proof (Byte.to_N_bounded x). split.
  - apply N.Div0.div_lt_upper_bound. lia.
  - apply N.mod_lt. discriminate.
Qed.

Lemma EncodeToString_injective (a b : list Byte.byte) :
  AuthHandler.EncodeToString a = AuthHandler.EncodeToString b -> a = b.
Proof.
  revert b. induction a as [|x a IH]; intros [|y b]; cbn;
    try discriminate; [reflexivity|].
  intros [= Hhi Hlo Hrest].
  destruct (nibbles_bounded x) as [Hx1 Hx2].
  destruct (nibbles_bounded y) as [Hy1 Hy2].
  apply hexdigit_injective in Hhi; [|assumption..].
  apply hexdigit_injective in Hlo; [|assumption..].
  f_equal; [now apply byte_of_nibbles | now apply IH].
Qed.

Lemma EncodeToString_length (b : list Byte.byte) :
  String.length (AuthHandler.EncodeToString b) = (2 * List.length b)%nat.
Proof. induction b as [|x b IH]; cbn; [reflexivity | lia]. Qed.

Lemma EncodeToString_digits (b : list Byte.byte) (c : Ascii.ascii) :
  In c (list_ascii_of_string (AuthHandler.EncodeToString b)) ->
  In c (list_ascii_of_string "0123456789abcdef").
Proof.
  induction b as [|x b IH]; [contradiction|].
  destruct (nibbles_bounded x) as [Hx1 Hx2].
  cbn [AuthHandler.EncodeToString list_ascii_of_string].
  intros [<-|[<-|Hin]];
    [now apply hexdigit_is_a_hex_digit | now apply hexdigit_is_a_hex_digit
     | now apply IH].
Qed.

Lemma rand_Read_length (n : nat) (w : World DB) :
  List.length (fst (rand_Read n w)) = n.
Proof.
  unfold rand_Read. cbn [fst].
  rewrite length_firstn, length_app, repeat_length. lia.
Qed.

(** X20.  [generateState] returns thirty-two lower-case hexadecimal
    digits and uses up sixteen bytes of the random source; the digits
    determine the bytes they were drawn from, so that two states are
    equal only if their sixteen bytes are. *)
Theorem generateState_is_sixteen_bytes_in_hexadecimal (w w' : World DB) :
  String.length (fst (AuthHandler.generateState w)) = 32%nat
  /\ (forall c,
         In c (list_ascii_of_string (fst (AuthHandler.generateState w))) ->
         In c (list_ascii_of_string "0123456789abcdef"))
  /\ w_entropy (snd (AuthHandler.generateState w)) = skipn 16 (w_entropy w)
  /\ (fst (AuthHandler.generateState w) = fst (AuthHandler.generateState w')
      -> fst (rand_Read 16 w) = fst (rand_Read 16 w')).
Proof.
  unfold AuthHandler.generateState. cbv beta iota delta [bind ret].
  pose proof (rand_Read_length 16 w) as Hlen.
  destruct (rand_Read 16 w) as [b w1] eqn:Eb.
  destruct (rand_Read 16 w') as [b' w1'] eqn:Eb'.
  cbn [fst snd] in *. split; [|split; [|split]].
  - rewrite EncodeToString_length, Hlen. reflexivity.
  - apply EncodeToString_digits.
  - unfold rand_Read in Eb. now injection Eb as _ <-.
  - apply EncodeToString_injective.
Qed.

End State.

Lemma generateState_is_sixteen_bytes_in_hexadecimal_witness :
  let w' : World memory.table :=
    mkWorld sample.seeded 0 [] (w_entropy sample.flow ++ [Byte.xff])%list in
  fst (AuthHandler.generateState sample.flow) = sample.issued_state
  /\ fst (AuthHandler.generateState sample.flow)
     = fst (AuthHandler.generateState w')
  /\ fst (rand_Read 16 sample.flow) = fst (rand_Read 16 w').
Proof.
  intros w'.
  assert (H1 : fst (AuthHandler.generateState sample.flow)
               = fst (AuthHandler.generateState w')) by reflexivity.
  split; [reflexivity|]. split; [exact H1|].
  exact (proj2 (proj2 (proj2 (generateState_is_sixteen_bytes_in_hexadecimal
                                sample.flow w'))) H1).
Defined.

(** ** OAuth state: from the login to the callback *)

Section Flow.

Import models.

Context {DB : Type} {R : repository.UserRepository DB}.
Context {P : Platform} {H : jwt.MAC} {B : bcrypt.Hasher}.
Context {O : OAuthService.Providers}.

Lemma callback_session
      (handle : string -> M DB (result error (jwt.tokenString * User)))
      (c : gin.Context) (w : World DB) (token : jwt.tokenString) :
  gin.SetJWT (fst (AuthHandler.callback handle c w)) = Some token ->
  gin.cookies c !! "oauth_state" = Some (gin.Query c "state")
  /\ gin.Query c "code" <> ""
  /\ (exists user, fst (handle (gin.Query c "code") w) = Ok (token, user))
  /\ gin.body (fst (AuthHandler.callback handle c w))
     = gin.Redirect 302 "/dashboard".
Proof.
  unfold AuthHandler.callback, gin.Cookie_.
  destruct (gin.cookies c !! "oauth_state") as [saved|]; [|discriminate].
  destruct (gin.Query c "state" =? saved)%string eqn:Estate;
    cbn [negb]; [|discriminate].
  apply String.eqb_eq in Estate. subst saved.
  destruct (gin.Query c "code" =? "")%string eqn:Ecode; [discriminate|].
  apply String.eqb_neq in Ecode. cbv beta iota delta [bind ret].
  destruct (handle (gin.Query c "code") w) as [[[issued user]|e] w'];
    [|discriminate].
  cbn. intros [= <-]. repeat split; eauto.
Qed.

(** X21.  A callback sets the session cookie only when the [state] of
    the request equals the [oauth_state] cookie it was sent with, the
    request carries a code, and the OAuth service has resolved the code
    to an identity; the token set is the one the service issued, and
    the response is the redirect to the dashboard.  A callback that is
    refused for any reason sets no session. *)
Theorem callback_sets_a_session_only_for_the_state_of_the_cookie
        (s : AuthService.t) (c : gin.Context) (w : World DB)
        (token : jwt.tokenString) :
  (gin.SetJWT (fst (AuthHandler.GoogleCallback s c w)) = Some token ->
   gin.cookies c !! "oauth_state" = Some (gin.Query c "state")
   /\ gin.Query c "code" <> ""
   /\ (exists user,
          fst (OAuthService.HandleGoogleCallback s (gin.Query c "code") w)
          = Ok (token, user))
   /\ gin.body (fst (AuthHandler.GoogleCallback s c w))
      = gin.Redirect 302 "/dashboard")
  /\ (gin.SetJWT (fst (AuthHandler.GitHubCallback s c w)) = Some token ->
      gin.cookies c !! "oauth_state" = Some (gin.Query c "state")
      /\ gin.Query c "code" <> ""
      /\ (exists user,
             fst (OAuthService.HandleGitHubCallback s (gin.Query c "code") w)
             = Ok (token, user))
      /\ gin.body (fst (AuthHandler.GitHubCallback s c w))
         = gin.Redirect 302 "/dashboard").
Proof.
  unfold AuthHandler.GoogleCallback, AuthHandler.GitHubCallback.
  split; apply callback_session.
Qed.

(** X22.  The state a login issues is the one its redirect carries and
    the one its cookie stores; a callback that brings it back, sent with
    the cookies the user agent holds after the login, passes the state
    check: its response deletes the cookie, after which the user agent
    holds no state.  This holds of the Google and of the GitHub
    endpoints, whatever becomes of the code. *)
Theorem issued_state_passes_the_callback_and_is_cleared
        (s : AuthService.t) (c0 : gin.Context) (jar0 : gmap string string)
        (query : gmap string string) (w : World DB) :
  let state := fst (AuthHandler.generateState w) in
  query !! "state" = Some state ->
  (let login := AuthHandler.GoogleLogin c0 w in
   let jar := gin.store jar0 (fst login) in
   let answer :=
     fst (AuthHandler.GoogleCallback s (gin.mkContext query jar)
                                     (snd login)) in
   gin.body (fst login)
   = gin.Redirect 307 (OAuthService.GetGoogleAuthURL state)
   /\ jar !! "oauth_state" = Some state
   /\ gin.SetCookie answer = [gin.mkCookie "oauth_state" "" (-1)]
   /\ gin.store jar answer !! "oauth_state" = None)
  /\ (let login := AuthHandler.GitHubLogin c0 w in
      let jar := gin.store jar0 (fst login) in
      let answer :=
        fst (AuthHandler.GitHubCallback s (gin.mkContext query jar)
                                        (snd login)) in
      gin.body (fst login)
      = gin.Redirect 307 (OAuthService.GetGitHubAuthURL state)
      /\ jar !! "oauth_state" = Some state
      /\ gin.SetCookie answer = [gin.mkCookie "oauth_state" "" (-1)]
      /\ gin.store jar answer !! "oauth_state" = None).
Proof.
  intros state Hquery.
  unfold AuthHandler.GoogleLogin, AuthHandler.GitHubLogin.
  cbv beta iota zeta delta [bind ret]. fold state.
  destruct (AuthHandler.generateState w) as [issued w1] eqn:Egen.
  cbn [fst snd] in *. subst state.
  assert (Hjar : forall location,
             gin.store jar0
                       (gin.mkResponse [gin.mkCookie "oauth_state" issued 600]
                                       None location)
             = <["oauth_state" := issued]> jar0) by reflexivity.
  assert (Hcookie : gin.cookies
                      (gin.mkContext query
                                     (<["oauth_state" := issued]> jar0))
                    !! "oauth_state"
                    = Some (gin.Query
                              (gin.mkContext
                                 query (<["oauth_state" := issued]> jar0))
                              "state")).
  { unfold gin.Query. cbn [gin.cookies gin.query_string].
    now rewrite lookup_insert_eq, Hquery. }
  destruct (callback_with_right_state_clears_it s _ w1 Hcookie)
    as [Hgoogle Hgithub].
  rewrite !Hjar. split.
  - split; [reflexivity|]. split; [apply lookup_insert_eq|].
    split; [exact Hgoogle|].
    unfold gin.store. rewrite Hgoogle. cbn. apply lookup_delete_eq.
  - split; [reflexivity|]. split; [apply lookup_insert_eq|].
    split; [exact Hgithub|].
    unfold gin.store. rewrite Hgithub. cbn. apply lookup_delete_eq.
Qed.

End Flow.

(** ** Admin endpoints *)

Section AdminEndpoints.

Import models.

Context {DB : Type} {R : repository.UserRepository DB}.

(** X23.  [UserDetail] never answers 404: [GetUserByID] hands the error
    of the repository on as it is, which is not [ErrUserNotFound], so an
    unknown key is answered 500 [Failed to load user data] to a
    privileged user. *)
Theorem UserDetail_never_answers_not_found
        (c : AdminHandler.Context) (w : World DB) :
  (forall status title message,
      fst (AdminHandler.UserDetail c w)
      = AdminHandler.Failed (middleware.HTML status title message) ->
      status <> 404)
  /\ (forall adminUser userID e,
         AdminHandler.user c = Some (middleware.user_entry adminUser) ->
         AdminHandler.ParseUint (AdminHandler.id c) = Ok userID ->
         AdminService.IsAdmin adminUser = true ->
         repository.GetByID userID (w_db w) = Err e ->
         AdminHandler.UserDetail c w
         = (AdminHandler.Failed
              (middleware.HTML 500 "Error" "Failed to load user data"), w)).
Proof.
  unfold AdminHandler.UserDetail, AdminService.GetUserByID. split.
  - intros status title message.
    destruct (AdminHandler.user c) as [[adminUser|]|];
      [| discriminate | intros [= <- _ _]; discriminate].
    destruct (AdminHandler.ParseUint _) as [userID|];
      [|intros [= <- _ _]; discriminate].
    destruct (AdminService.IsAdmin adminUser); cbn [negb];
      cbv beta iota delta [bind ret query];
      [|intros [= <- _ _]; discriminate].
    destruct (repository.GetByID userID (w_db w)); cbn;
      [discriminate | intros [= <- _ _]; discriminate].
  - intros adminUser userID e -> -> -> Hget. cbn [negb].
    cbv beta iota delta [bind ret query]. now rewrite Hget.
Qed.

Lemma digits_none (s : string) (acc : N) (c : Ascii.ascii) :
  In c (list_ascii_of_string s) -> AdminHandler.digit c = None ->
  AdminHandler.digits s acc = None.
Proof.
  revert acc. induction s as [|x s IH]; intros acc; [contradiction|].
  cbn [list_ascii_of_string AdminHandler.digits]. intros [<-|Hin] Hc.
  - now rewrite Hc.
  - destruct (AdminHandler.digit x); [now apply IH | reflexivity].
Qed.

(** X24.  The key of the path reaches the admin service only as a number
    below 2^32 written in decimal digits: [ParseUint] refuses the empty
    string and every string that holds another character, and what it
    accepts is below 2^32.  A request whose key is refused is answered
    400 [Invalid user ID] by each of the seven handlers, and nothing is
    read or written. *)
Theorem admin_endpoints_take_only_a_decimal_key_of_32_bits
        (c : AdminHandler.Context) (adminUser : User) (w : World DB) :
  (forall s n, AdminHandler.ParseUint s = Ok n -> (n < 2 ^ 32)%N)
  /\ (forall s x,
         In x (list_ascii_of_string s) -> AdminHandler.digit x = None ->
         exists e, AdminHandler.ParseUint s = Err e)
  /\ (exists e, AdminHandler.ParseUint "" = Err e)
  /\ (forall e,
         AdminHandler.user c = Some (middleware.user_entry adminUser) ->
         AdminHandler.ParseUint (AdminHandler.id c) = Err e ->
         AdminHandler.UserDetail c w
         = (AdminHandler.Failed
              (middleware.HTML 400 "Error" "Invalid user ID"), w)
         /\ Forall (fun handler : AdminHandler.Context
                                  -> M DB AdminHandler.Response =>
                      handler c w
                      = (AdminHandler.Failed
                           (middleware.JSON 400 "Invalid user ID"), w))
                   [AdminHandler.UpdateUser; AdminHandler.DeactivateUser;
                    AdminHandler.ActivateUser; AdminHandler.DeleteUser;
                    AdminHandler.PromoteToAdmin;
                    AdminHandler.DemoteFromAdmin]).
Proof.
  split; [|split; [|split]].
  - intros s n. unfold AdminHandler.ParseUint.
    destruct (s =? "")%string; [discriminate|].
    destruct (AdminHandler.digits s 0) as [m|]; [|discriminate].
    destruct (m <? 2 ^ 32)%N eqn:E; [|discriminate].
    intros [= <-]. now apply N.ltb_lt.
  - intros s x Hin Hx. unfold AdminHandler.ParseUint.
    destruct (s =? "")%string; [eauto|].
    rewrite (digits_none s 0 x Hin Hx). eauto.
  - eexists. reflexivity.
  - intros e Huser Hkey.
    unfold AdminHandler.UserDetail, AdminHandler.UpdateUser,
      AdminHandler.DeactivateUser, AdminHandler.ActivateUser,
      AdminHandler.DeleteUser, AdminHandler.PromoteToAdmin,
      AdminHandler.DemoteFromAdmin.
    split; [now rewrite Huser, Hkey|].
    repeat constructor; now rewrite Huser, Hkey.
Qed.

(** X25.  The self-protection of the admin service reaches the client
    as status 500 with the message of the error: a stored user whose
    role is [admin] and who asks for the deactivation, the deletion or
    the demotion of its own key is answered so, and nothing is
    written.  The repository returns the record of the key it is asked
    for. *)
Theorem self_protection_is_answered_500
        (c : AdminHandler.Context) (adminUser stored : User)
        (w : World DB) :
  AdminHandler.user c = Some (middleware.user_entry adminUser) ->
  AdminHandler.ParseUint (AdminHandler.id c) = Ok (ID adminUser) ->
  Role adminUser = "admin" ->
  repository.GetByID (ID adminUser) (w_db w) = Ok stored ->
  ID stored = ID adminUser ->
  AdminHandler.DeactivateUser c w
  = (AdminHandler.Failed
       (middleware.JSON 500 "cannot deactivate your own account"), w)
  /\ AdminHandler.DeleteUser c w
     = (AdminHandler.Failed
          (middleware.JSON 500 "cannot delete your own account"), w)
  /\ AdminHandler.DemoteFromAdmin c w
     = (AdminHandler.Failed
          (middleware.JSON 500 "cannot demote your own account"), w).
Proof.
  intros Huser Hkey Hrole Hget Hid.
  unfold AdminHandler.DeactivateUser, AdminHandler.DeleteUser,
    AdminHandler.DemoteFromAdmin.
  rewrite Huser, Hkey.
  unfold AdminService.DeactivateUser, AdminService.DeleteUser,
    AdminService.DemoteFromAdmin, AdminService.IsAdmin.
  rewrite Hrole, String.eqb_refl, orb_true_r. cbn [negb orb].
  cbv beta iota delta [bind ret query].
  rewrite Hget, Hid, N.eqb_refl, andb_false_r. repeat split.
Qed.

End AdminEndpoints.

(** ** Admin routes *)

Section AdminRoutes.

Import models.

Context {DB : Type} {R : repository.UserRepository DB}.
Context {P : Platform} {H : jwt.MAC} {B : bcrypt.Hasher}.

(** X26.  On the admin routes a handler runs only for a privileged,
    active, stored identity.  Either the request is ended by a
    middleware, with status 401 or 403, or [AuthMiddleware] has let it
    through as a user whose active flag is set and of whom
    [AdminService.IsAdmin] holds, and the answer is that of the handler
    on a context that holds this user. *)
Theorem admin_routes_run_a_handler_only_for_a_privileged_identity
        (s : AuthService.t)
        (handler : AdminHandler.Context -> M DB AdminHandler.Response)
        (request : middleware.Request) (id : string)
        (body : result error AdminUpdateUserRequest.t) (w : World DB) :
  let w' := snd (middleware.AuthMiddleware s request w) in
  (exists user,
      fst (middleware.AuthMiddleware s request w) = middleware.Next user
      /\ IsActive user = true
      /\ AdminService.IsAdmin user = true
      /\ router.admin s handler request id body w
         = handler (AdminHandler.mkContext
                      (Some (middleware.user_entry user)) id body) w'
      /\ router.adminAPI s handler request id body w
         = handler (AdminHandler.mkContext
                      (Some (middleware.user_entry user)) id body) w')
  \/ (exists r r',
         router.admin s handler request id body w
         = (AdminHandler.Failed r, w')
         /\ router.adminAPI s handler request id body w
            = (AdminHandler.Failed r', w')
         /\ ((exists message,
                 r = middleware.JSON 401 message /\ r' = r)
             \/ (exists title message message',
                    r = middleware.HTML 403 title message
                    /\ r' = middleware.JSON 403 message'))).
Proof.
  intros w'. subst w'. unfold router.admin, router.adminAPI.
  cbv beta iota zeta delta [bind ret].
  pose proof (AuthMiddleware_gate s request w) as Hout.
  destruct (middleware.AuthMiddleware s request w)
    as [[status message|user] w1].
  - cbn [fst snd] in *. subst status. right.
    eexists. eexists. split; [reflexivity|]. split; [reflexivity|].
    left. eauto.
  - cbn [fst snd] in *. rename Hout into Hactive.
    unfold middleware.AdminRequired, middleware.AdminAPIRequired,
      AdminService.IsAdmin.
    destruct (IsAdmin user) eqn:Eflag,
      (Role user =? "admin")%string eqn:Erole;
      cbn [negb andb orb];
      [left; exists user; rewrite Eflag, Erole; repeat split; assumption.. |].
    right. eexists. eexists. split; [reflexivity|]. split; [reflexivity|].
    right. eauto.
Qed.

(** X27.  Over HTTP, a promotion or a demotion asked for by an active
    identity whose role is not [admin] is answered 403 [Admin privileges
    required], whether the identity carries the admin flag, and is then
    stopped by the handler, or not, and is then stopped by the
    middleware; nothing is written. *)
Theorem promotion_over_HTTP_needs_the_admin_role
        (s : AuthService.t) (request : middleware.Request) (id : string)
        (body : result error AdminUpdateUserRequest.t)
        (user : User) (userID : uint) (w : World DB) :
  fst (middleware.AuthMiddleware s request w) = middleware.Next user ->
  Role user <> "admin" ->
  AdminHandler.ParseUint id = Ok userID ->
  fst (router.adminAPI s AdminHandler.PromoteToAdmin request id body w)
  = AdminHandler.Failed (middleware.JSON 403 "Admin privileges required")
  /\ fst (router.adminAPI s AdminHandler.DemoteFromAdmin request id body w)
     = AdminHandler.Failed (middleware.JSON 403 "Admin privileges required")
  /\ w_db (snd (router.adminAPI s AdminHandler.PromoteToAdmin
                                request id body w)) = w_db w
  /\ w_db (snd (router.adminAPI s AdminHandler.DemoteFromAdmin
                                request id body w)) = w_db w.
Proof.
  intros Hnext Hrole Hkey.
  assert (Hdb : w_db (snd (middleware.AuthMiddleware s request w)) = w_db w).
  { destruct (AuthMiddleware_world s request w) as [-> | ->]; reflexivity. }
  unfold router.adminAPI. cbv beta iota zeta delta [bind ret].
  destruct (middleware.AuthMiddleware s request w) as [outcome w1].
  cbn [fst snd] in *. subst outcome.
  unfold middleware.AdminAPIRequired.
  rewrite (not_super _ Hrole). cbn [negb]. rewrite andb_true_r.
  destruct (IsAdmin user) eqn:Eflag; cbn [negb]; [|repeat split; exact Hdb].
  unfold AdminHandler.PromoteToAdmin, AdminHandler.DemoteFromAdmin.
  cbn [AdminHandler.user AdminHandler.id]. rewrite Hkey.
  unfold AdminService.PromoteToAdmin, AdminService.DemoteFromAdmin.
  rewrite (not_super _ Hrole), orb_true_r.
  cbv beta iota delta [bind ret]. repeat split; exact Hdb.
Qed.

End AdminRoutes.

(** ** The admin endpoints on the sample accounts *)

Lemma UserDetail_never_answers_not_found_witness :
  AdminHandler.user (sample.as_admin "99")
  = Some (middleware.user_entry sample.admin)
  /\ AdminHandler.ParseUint (AdminHandler.id (sample.as_admin "99")) = Ok 99%N
  /\ AdminService.IsAdmin sample.admin = true
  /\ repository.GetByID 99%N (w_db sample.world) = Err ErrRecordNotFound
  /\ AdminHandler.UserDetail (sample.as_admin "99") sample.world
     = (AdminHandler.Failed
          (middleware.HTML 500 "Error" "Failed to load user data"),
        sample.world).
Proof.
  assert (H1 : AdminHandler.user (sample.as_admin "99")
               = Some (middleware.user_entry sample.admin)) by reflexivity.
  assert (H2 : AdminHandler.ParseUint (AdminHandler.id (sample.as_admin "99"))
               = Ok 99%N) by reflexivity.
  assert (H3 : AdminService.IsAdmin sample.admin = true) by reflexivity.
  assert (H4 : repository.GetByID 99%N (w_db sample.world)
               = Err ErrRecordNotFound) by reflexivity.
  repeat (split; [assumption|]).
  exact (proj2 (UserDetail_never_answers_not_found
                  (sample.as_admin "99") sample.world)
               sample.admin 99%N ErrRecordNotFound H1 H2 H3 H4).
Defined.

Lemma admin_endpoints_take_only_a_decimal_key_of_32_bits_witness :
  AdminHandler.user (sample.as_admin "4294967296")
  = Some (middleware.user_entry sample.admin)
  /\ AdminHandler.ParseUint (AdminHandler.id (sample.as_admin "4294967296"))
     = Err (from_library "value out of range")
  /\ AdminHandler.ParseUint "4294967295" = Ok 4294967295%N
  /\ (exists e, AdminHandler.ParseUint "+2" = Err e)
  /\ AdminHandler.UserDetail (sample.as_admin "4294967296") sample.world
     = (AdminHandler.Failed (middleware.HTML 400 "Error" "Invalid user ID"),
        sample.world).
Proof.
  assert (H1 : AdminHandler.user (sample.as_admin "4294967296")
               = Some (middleware.user_entry sample.admin)) by reflexivity.
  assert (H2 : AdminHandler.ParseUint
                 (AdminHandler.id (sample.as_admin "4294967296"))
               = Err (from_library "value out of range"))
    by (vm_compute; reflexivity).
  destruct (admin_endpoints_take_only_a_decimal_key_of_32_bits
              (sample.as_admin "4294967296") sample.admin sample.world)
    as (_ & Hchar & _ & Hrefused).
  split; [exact H1|]. split; [exact H2|].
  split; [vm_compute; reflexivity|]. split.
  - apply (Hchar "+2" (Ascii.ascii_of_N 43)); [now left | reflexivity].
  - exact (proj1 (Hrefused _ H1 H2)).
Defined.

Lemma self_protection_is_answered_500_witness :
  AdminHandler.user (sample.as_admin "1")
  = Some (middleware.user_entry sample.admin)
  /\ AdminHandler.ParseUint (AdminHandler.id (sample.as_admin "1"))
     = Ok (models.ID sample.admin)
  /\ models.Role sample.admin = "admin"
  /\ repository.GetByID (models.ID sample.admin) (w_db sample.world)
     = Ok sample.admin
  /\ AdminHandler.DeleteUser (sample.as_admin "1") sample.world
     = (AdminHandler.Failed
          (middleware.JSON 500 "cannot delete your own account"),
        sample.world).
Proof.
  assert (H1 : AdminHandler.user (sample.as_admin "1")
               = Some (middleware.user_entry sample.admin)) by reflexivity.
  assert (H2 : AdminHandler.ParseUint (AdminHandler.id (sample.as_admin "1"))
               = Ok (models.ID sample.admin)) by reflexivity.
  assert (H3 : models.Role sample.admin = "admin") by reflexivity.
  assert (H4 : repository.GetByID (models.ID sample.admin)
                                  (w_db sample.world) = Ok sample.admin)
    by reflexivity.
  repeat (split; [assumption|]).
  exact (proj1 (proj2 (self_protection_is_answered_500
                         (sample.as_admin "1") sample.admin sample.admin
                         sample.world H1 H2 H3 H4 eq_refl))).
Defined.

Lemma promotion_over_HTTP_needs_the_admin_role_witness :
  fst (middleware.AuthMiddleware sample.authService sample.by_flagged
                                 sample.world)
  = middleware.Next sample.flagged
  /\ models.Role sample.flagged <> "admin"
  /\ AdminHandler.ParseUint "2" = Ok 2%N
  /\ fst (router.adminAPI sample.authService AdminHandler.PromoteToAdmin
                          sample.by_flagged "2" (Err (from_library "EOF"))
                          sample.world)
     = AdminHandler.Failed (middleware.JSON 403 "Admin privileges required")
  /\ w_db (snd (router.adminAPI sample.authService
                                AdminHandler.PromoteToAdmin
                                sample.by_flagged "2"
                                (Err (from_library "EOF")) sample.world))
     = w_db sample.world.
Proof.
  assert (H1 : fst (middleware.AuthMiddleware
                      sample.authService sample.by_flagged sample.world)
               = middleware.Next sample.flagged) by (vm_compute; reflexivity).
  assert (H2 : models.Role sample.flagged <> "admin") by discriminate.
  assert (H3 : AdminHandler.ParseUint "2" = Ok 2%N) by reflexivity.
  destruct (promotion_over_HTTP_needs_the_admin_role
              sample.authService sample.by_flagged "2"
              (Err (from_library "EOF")) sample.flagged 2%N sample.world
              H1 H2 H3) as (Hp & _ & Hw & _).
  repeat (split; [assumption|]). exact Hw.
Defined.

(** ** The OAuth flow on the sample accounts *)

Lemma callback_sets_a_session_only_for_the_state_of_the_cookie_witness :
  let c := sample.callback_request sample.issued_state sample.after_login in
  gin.SetJWT (fst (AuthHandler.GoogleCallback sample.authService c
                                              sample.world))
  = Some sample.carol_token
  /\ gin.cookies c !! "oauth_state" = Some (gin.Query c "state")
  /\ gin.Query c "code" <> ""
  /\ (exists user,
         fst (OAuthService.HandleGoogleCallback
                sample.authService (gin.Query c "code") sample.world)
         = Ok (sample.carol_token, user))
  /\ gin.body (fst (AuthHandler.GoogleCallback sample.authService c
                                               sample.world))
     = gin.Redirect 302 "/dashboard".
Proof.
  intros c.
  assert (H1 : gin.SetJWT (fst (AuthHandler.GoogleCallback
                                  sample.authService c sample.world))
               = Some sample.carol_token) by (vm_compute; reflexivity).
  split; [exact H1|].
  exact (proj1 (callback_sets_a_session_only_for_the_state_of_the_cookie
                  sample.authService c sample.world sample.carol_token) H1).
Defined.

Lemma issued_state_passes_the_callback_and_is_cleared_witness :
  let query : gmap string string :=
    <["state" := sample.issued_state]> (<["code" := "good-code"]> ∅) in
  let login := AuthHandler.GoogleLogin (gin.mkContext ∅ ∅) sample.flow in
  let jar := gin.store ∅ (fst login) in
  let answer :=
    fst (AuthHandler.GoogleCallback sample.authService
                                    (gin.mkContext query jar) (snd login)) in
  query !! "state" = Some (fst (AuthHandler.generateState sample.flow))
  /\ jar !! "oauth_state" = Some sample.issued_state
  /\ gin.SetCookie answer = [gin.mkCookie "oauth_state" "" (-1)]
  /\ gin.store jar answer !! "oauth_state" = None.
Proof.
  intros query login jar answer.
  assert (H1 : query !! "state"
               = Some (fst (AuthHandler.generateState sample.flow)))
    by (vm_compute; reflexivity).
  destruct (proj1 (issued_state_passes_the_callback_and_is_cleared
                     sample.authService (gin.mkContext ∅ ∅) ∅ query
                     sample.flow H1))
    as (_ & Hjar & Hset & Hgone).
  split; [exact H1|]. split; [exact Hjar|]. split; [exact Hset | exact Hgone].
Defined.

(** ** Credential endpoints *)

Section CredentialEndpoints.

Import models.

Context {DB : Type} {R : repository.UserRepository DB}.
Context {P : Platform} {H : jwt.MAC} {B : bcrypt.Hasher}.

(** X28.  The credential endpoints refuse without setting a session.
    [Login] answers an unknown e-mail and a wrong password alike, 401
    [invalid credentials]; [Register] answers an e-mail that is taken
    409 [User already exists]; neither writes anything. *)
Theorem credential_endpoints_refuse_without_a_session
        (s : AuthService.t) (w : World DB) :
  (forall req e,
      repository.GetByEmail (LoginRequest.Email req) (w_db w) = Err e ->
      AuthHandler.Login s (Ok req) w
      = (AuthHandler.mkReply None 401
                             (AuthHandler.Refused "invalid credentials"), w))
  /\ (forall req stored,
         repository.GetByEmail (LoginRequest.Email req) (w_db w) = Ok stored ->
         bcrypt.matches (Password stored) (LoginRequest.Password req) = false ->
         AuthHandler.Login s (Ok req) w
         = (AuthHandler.mkReply None 401
                                (AuthHandler.Refused "invalid credentials"),
            w))
  /\ (forall req stored,
         repository.GetByEmail (RegisterRequest.Email req) (w_db w)
         = Ok stored ->
         AuthHandler.Register s (Ok req) w
         = (AuthHandler.mkReply None 409
                                (AuthHandler.Refused "User already exists"),
            w)).
Proof.
  unfold AuthHandler.Login, AuthHandler.Register, AuthService.Login,
    AuthService.Register, bcrypt.CompareHashAndPassword.
  cbv beta iota delta [bind ret query].
  split; [|split].
  - intros req e ->. reflexivity.
  - intros req stored -> ->. reflexivity.
  - intros req stored ->. reflexivity.
Qed.



End CredentialEndpoints.

(** ** The credential endpoints on the sample accounts *)

Lemma credential_endpoints_refuse_without_a_session_witness :
  repository.GetByEmail "nobody@example.com" (w_db sample.world)
  = Err ErrRecordNotFound
  /\ repository.GetByEmail "john.doe@example.com" (w_db sample.world)
     = Ok sample.john
  /\ bcrypt.matches (models.Password sample.john) "wrong-password" = false
  /\ AuthHandler.Login
       sample.authService
       (Ok (models.LoginRequest.mk "nobody@example.com" "admin123"))
       sample.world
     = AuthHandler.Login
         sample.authService
         (Ok (models.LoginRequest.mk "john.doe@example.com" "wrong-password"))
         sample.world
  /\ AuthHandler.Register
       sample.authService
       (Ok (models.RegisterRequest.mk "john.doe@example.com" "secret1"
                                      "Jon" "Doe"))
       sample.world
     = (AuthHandler.mkReply None 409
                            (AuthHandler.Refused "User already exists"),
        sample.world).
Proof.
  assert (H1 : repository.GetByEmail "nobody@example.com" (w_db sample.world)
               = Err ErrRecordNotFound) by reflexivity.
  assert (H2 : repository.GetByEmail "john.doe@example.com"
                                     (w_db sample.world) = Ok sample.john)
    by reflexivity.
  assert (H3 : bcrypt.matches (models.Password sample.john) "wrong-password"
               = false) by reflexivity.
  destruct (credential_endpoints_refuse_without_a_session
              sample.authService sample.world) as (Ha & Hb & Hc).
  repeat (split; [assumption|]). split.
  - rewrite (Ha (models.LoginRequest.mk "nobody@example.com" "admin123")
                ErrRecordNotFound H1).
    rewrite (Hb (models.LoginRequest.mk "john.doe@example.com"
                                        "wrong-password")
                sample.john H2 H3).
    reflexivity.
  - exact (Hc (models.RegisterRequest.mk "john.doe@example.com" "secret1"
                                         "Jon" "Doe")
              sample.john H2).
Defined.


(** ** Request authentication: the refusals *)

Section Unauthenticated.

Import models.

Context {DB : Type} {R : repository.UserRepository DB}.
Context {P : Platform} {H : jwt.MAC} {B : bcrypt.Hasher}.

(** X30.  What [AuthMiddleware] refuses, and with which message.  A
    bearer token [ValidateJWT] does not accept ends the request with
    [Invalid or expired token] whatever the cookie holds: the cookie is
    read only when the header carries no bearer token.  A token that is
    accepted but names a key the repository does not hold ends it with
    [User not found], and one that names a record whose active flag is
    unset with [Account is deactivated]: a token issued before the
    deactivation of its identity no longer authenticates. *)
Theorem AuthMiddleware_refuses_by_header_then_key_then_activation
        (s : AuthService.t) (token : jwt.tokenString)
        (cookie : option jwt.tokenString) (w : World DB) :
  (forall e,
      fst (AuthService.ValidateJWT s token w) = Err e ->
      fst (middleware.AuthMiddleware
             s (middleware.mkRequest (Some token) cookie) w)
      = middleware.Abort 401 "Invalid or expired token")
  /\ (forall claims e,
         fst (AuthService.ValidateJWT s token w) = Ok claims ->
         repository.GetByID (JWTClaims.UserID claims) (w_db w) = Err e ->
         fst (middleware.AuthMiddleware
                s (middleware.mkRequest (Some token) cookie) w)
         = middleware.Abort 401 "User not found"
         /\ fst (middleware.AuthMiddleware
                   s (middleware.mkRequest None (Some token)) w)
            = middleware.Abort 401 "User not found")
  /\ (forall claims user,
         fst (AuthService.ValidateJWT s token w) = Ok claims ->
         repository.GetByID (JWTClaims.UserID claims) (w_db w) = Ok user ->
         IsActive user = false ->
         fst (middleware.AuthMiddleware
                s (middleware.mkRequest (Some token) cookie) w)
         = middleware.Abort 401 "Account is deactivated"
         /\ fst (middleware.AuthMiddleware
                   s (middleware.mkRequest None (Some token)) w)
            = middleware.Abort 401 "Account is deactivated").
Proof.
  unfold middleware.AuthMiddleware.
  cbn [middleware.bearer middleware.jwt_cookie].
  unfold middleware.authenticate, AuthService.GetUserByID.
  cbv beta iota delta [bind ret query].
  assert (Hdb : w_db (snd (AuthService.ValidateJWT s token w)) = w_db w).
  { destruct (ValidateJWT_reads_the_clock s token w) as [-> | ->];
      reflexivity. }
  destruct (AuthService.ValidateJWT s token w) as [[claims|failure] w'];
    cbn [fst snd] in *.
  - rewrite Hdb. split; [discriminate|]. split.
    + intros claims' e [= <-] ->. split; reflexivity.
    + intros claims' user [= <-] -> ->. split; reflexivity.
  - split; [reflexivity|]. split; discriminate.
Qed.

End Unauthenticated.

(** Bob's token no longer authenticates: his account is deactivated.  It
    is refused also when a request carries it in the header next to the
    valid cookie of John. *)
Lemma AuthMiddleware_refuses_by_header_then_key_then_activation_witness :
  fst (AuthService.ValidateJWT sample.authService sample.bob_token
                               sample.world)
  = Ok (models.JWTClaims.mk 4%N "bob.johnson@example.com")
  /\ repository.GetByID 4%N (w_db sample.world) = Ok sample.bob
  /\ models.IsActive sample.bob = false
  /\ fst (middleware.AuthMiddleware
            sample.authService
            (middleware.mkRequest (Some sample.bob_token)
                                  (Some sample.john_token))
            sample.world)
     = middleware.Abort 401 "Account is deactivated".
Proof.
  assert (H1 : fst (AuthService.ValidateJWT sample.authService
                                            sample.bob_token sample.world)
               = Ok (models.JWTClaims.mk 4%N "bob.johnson@example.com"))
    by (vm_compute; reflexivity).
  assert (H2 : repository.GetByID
                 (models.JWTClaims.UserID
                    (models.JWTClaims.mk 4%N "bob.johnson@example.com"))
                 (w_db sample.world) = Ok sample.bob) by reflexivity.
  assert (H3 : models.IsActive sample.bob = false) by reflexivity.
  split; [exact H1|]. split; [exact H2|]. split; [exact H3|].
  destruct (AuthMiddleware_refuses_by_header_then_key_then_activation
              sample.authService sample.bob_token (Some sample.john_token)
              sample.world) as (_ & _ & Hinactive).
  exact (proj1 (Hinactive _ sample.bob H1 H2 H3)).
Defined.
